(** * Inventory ledger of Proyecto-Doeat: a shallow embedding

    The development follows [app/routes/products.py], the request handlers
    that keep [Product.quantity], the [StockMovement] history and the
    sale/purchase totals consistent, together with the ORM classes of
    [app/models/product.py] and the request schemas of
    [app/schemas/product.py].

    Tables are values, a SQLAlchemy session is an explicit pair of a
    committed store and a working copy, and a handler is a function from
    a session to an outcome and a session: it returns a value or raises,
    and what it committed is in the session it leaves.

    What the sources leave to the database is fixed as follows.  An
    [Integer] column holds any integer and a [Float] column any binary64
    float; a new row gets the successor of the largest key of its table;
    [func.now()] is a parameter of the request, and so is the order in
    which an [ORDER BY] returns rows that it does not tell apart.
    Requests are served one at a time. *)

From Stdlib Require Import ZArith Floats Sorted.
From stdpp Require Import gmap strings list fin_maps pretty sorting.

Open Scope Z_scope.

(** ** Python numbers

    [int] is [Z].  [float] is IEEE binary64, the type of Rocq's primitive
    floats; a [Float] column is taken to store binary64 unchanged.
    [py_float] is the correctly rounded conversion [float(n)] of an
    [int] within the range of binary64.  Python raises [OverflowError]
    for an [int] that rounds beyond that range, those on which
    [py_float] is infinite: [float_overflows].

    [x * n], for a [float] [x] and an [int] [n], converts [n] first.  In
    [create_purchase] the operand comes from the payload as it is, and
    the conversion can raise.  In [create_sale] the operand has passed
    the stock check: it is at most a quantity read from an [Integer]
    column, and the conversion is taken to go through. *)

Definition py_float (n : Z) : float :=
  SF2Prim (binary_normalize prec emax n 0 false).

Definition float_overflows (n : Z) : bool := PrimFloat.is_infinity (py_float n).

(** [str(n)] for an [int], as used by f-strings. *)
Definition py_str (n : Z) : string := pretty n.

(** [len(s)] for a [str] held as UTF-8: the bytes that do not continue a
    code point. *)
Fixpoint py_len (s : string) : Z :=
  match s with
  | EmptyString => 0
  | String c rest =>
      let b := Z.of_N (Ascii.N_of_ascii c) in
      (if bool_decide (128 ≤ b < 192) then 0 else 1) + py_len rest
  end.

(** [Field(..., min_length=lo, max_length=hi)] and [Field(..., gt=0)] on a
    [float]. *)
Definition length_between (lo hi : Z) (s : string) : bool :=
  bool_decide (lo ≤ py_len s ≤ hi).

Definition float_gt0 (x : float) : bool := PrimFloat.ltb (py_float 0) x.

(** ** ORM classes ([app/models/product.py])

    Each class is a record with the column names of the source.  A table
    whose rows are updated in place ([Product], [Sale], [Purchase]) is a
    finite map from the primary key to the row, so the [id] of such a row
    is its key; the rows of the append-only tables carry their [id].
    [created_at] and [updated_at] of [Product] play no part in the ledger
    and are left out: a [Product.t] is the columns [name], [description],
    [price] and [quantity] of a row, and what is said of a product below
    is said of these four.  ([updated_at] is rewritten by every update
    of the row.) *)

Module Product.
Record t := mk {
  name : string;
  description : option string;
  price : float;
  quantity : Z
}.
Definition set_name (v : string) (p : t) : t :=
  mk v (description p) (price p) (quantity p).
Definition set_description (v : option string) (p : t) : t :=
  mk (name p) v (price p) (quantity p).
Definition set_price (v : float) (p : t) : t :=
  mk (name p) (description p) v (quantity p).
Definition set_quantity (v : Z) (p : t) : t :=
  mk (name p) (description p) (price p) v.
End Product.

Module StockMovement.
Record t := mk {
  id : Z;
  product_id : Z;
  quantity_change : Z;
  movement_type : string;
  reference : option string;
  notes : option string;
  created_by : option Z;
  movement_date : Z
}.
End StockMovement.

Module Sale.
Record t := mk {
  customer_name : option string;
  total_amount : float;
  payment_method : string;
  created_by : Z;
  created_at : Z
}.
Definition set_total_amount (v : float) (s : t) : t :=
  mk (customer_name s) v (payment_method s) (created_by s) (created_at s).
End Sale.

Module SaleItem.
Record t := mk {
  id : Z;
  sale_id : Z;
  product_id : Z;
  quantity : Z;
  unit_price : float;
  subtotal : float
}.
End SaleItem.

Module Purchase.
Record t := mk {
  supplier_name : string;
  total_amount : float;
  reference : option string;
  created_by : Z;
  created_at : Z
}.
Definition set_total_amount (v : float) (s : t) : t :=
  mk (supplier_name s) v (reference s) (created_by s) (created_at s).
End Purchase.

Module PurchaseItem.
Record t := mk {
  id : Z;
  purchase_id : Z;
  product_id : Z;
  quantity : Z;
  unit_price : float;
  subtotal : float
}.
End PurchaseItem.

(** ** Request schemas ([app/schemas/product.py]) *)

Module ProductCreate.
Record t := mk {
  name : string;
  description : option string;
  price : float;
  quantity : Z
}.
(** [name: str = Field(..., min_length=1, max_length=100)],
    [price: float = Field(..., gt=0)], [quantity: int = Field(0, ge=0)] *)
Definition valid (d : t) : bool :=
  length_between 1 100 (name d) && float_gt0 (price d)
  && bool_decide (0 ≤ quantity d).
End ProductCreate.

(** A field of a schema whose fields are all optional: left out of the
    payload, sent as [null], or sent with a value.  [dict(exclude_unset=True)]
    keeps the last two. *)
Inductive Field (A : Type) : Type :=
  | Unset
  | Null
  | Value (a : A).
Arguments Unset {A}.
Arguments Null {A}.
Arguments Value {A} a.

Module ProductUpdate.
Record t := mk {
  name : Field string;
  description : Field string;
  price : Field float;
  quantity : Field Z
}.
(** The constraints of the schema bind a field only when it carries a
    value: [name] of length 1 to 100, [price] above 0, [quantity] at
    least 0. *)
Definition valid (d : t) : bool :=
  match name d with Value n => length_between 1 100 n | _ => true end
  && match price d with Value x => float_gt0 x | _ => true end
  && match quantity d with Value q => bool_decide (0 ≤ q) | _ => true end.
End ProductUpdate.

Module StockMovementCreate.
Record t := mk {
  product_id : Z;
  quantity_change : Z;
  movement_type : string;
  reference : option string;
  notes : option string
}.
(** [movement_type: str = Field(..., min_length=1, max_length=50)] *)
Definition valid (d : t) : bool := length_between 1 50 (movement_type d).
End StockMovementCreate.

Module SaleItemCreate.
Record t := mk {
  product_id : Z;
  quantity : Z
}.
(** [quantity: int = Field(..., gt=0)] *)
Definition valid (i : t) : bool := bool_decide (0 < quantity i).
End SaleItemCreate.

Module SaleCreate.
Record t := mk {
  customer_name : option string;
  payment_method : string;
  items : list SaleItemCreate.t
}.
(** [payment_method: str = Field(..., min_length=1, max_length=50)] *)
Definition valid (d : t) : bool :=
  length_between 1 50 (payment_method d) && forallb SaleItemCreate.valid (items d).
End SaleCreate.

Module PurchaseItemCreate.
Record t := mk {
  product_id : Z;
  quantity : Z;
  unit_price : float
}.
(** [quantity: int = Field(..., gt=0)], [unit_price: float = Field(..., gt=0)] *)
Definition valid (i : t) : bool :=
  bool_decide (0 < quantity i) && float_gt0 (unit_price i).
End PurchaseItemCreate.

Module PurchaseCreate.
Record t := mk {
  supplier_name : string;
  reference : option string;
  items : list PurchaseItemCreate.t
}.
(** [supplier_name: str = Field(..., min_length=1, max_length=100)] *)
Definition valid (d : t) : bool :=
  length_between 1 100 (supplier_name d)
  && forallb PurchaseItemCreate.valid (items d).
End PurchaseCreate.

(** ** The relational store *)

Record DB := mkDB {
  products : gmap Z Product.t;
  stock_movements : list StockMovement.t;
  sales : gmap Z Sale.t;
  sale_items : list SaleItem.t;
  purchases : gmap Z Purchase.t;
  purchase_items : list PurchaseItem.t
}.

Definition empty_db : DB := mkDB ∅ [] ∅ [] ∅ [].

Definition set_products (v : gmap Z Product.t) (d : DB) : DB :=
  mkDB v (stock_movements d) (sales d) (sale_items d) (purchases d) (purchase_items d).
Definition set_stock_movements (v : list StockMovement.t) (d : DB) : DB :=
  mkDB (products d) v (sales d) (sale_items d) (purchases d) (purchase_items d).
Definition set_sales (v : gmap Z Sale.t) (d : DB) : DB :=
  mkDB (products d) (stock_movements d) v (sale_items d) (purchases d) (purchase_items d).
Definition set_sale_items (v : list SaleItem.t) (d : DB) : DB :=
  mkDB (products d) (stock_movements d) (sales d) v (purchases d) (purchase_items d).
Definition set_purchases (v : gmap Z Purchase.t) (d : DB) : DB :=
  mkDB (products d) (stock_movements d) (sales d) (sale_items d) v (purchase_items d).
Definition set_purchase_items (v : list PurchaseItem.t) (d : DB) : DB :=
  mkDB (products d) (stock_movements d) (sales d) (sale_items d) (purchases d) v.

(** An [Integer] primary key gets the successor of the largest key in
    use (1 on an empty table). *)
Definition next_id (ids : list Z) : Z := 1 + foldr Z.max 0 ids.

Definition next_key {A} (tbl : gmap Z A) : Z :=
  next_id ((map_to_list tbl).*1).

(** ** Sessions

    [committed] is what the database holds durably, [working] what the
    session sees: the committed rows with the session's pending inserts
    and attribute changes.  A query returns the session's own object for
    a row it has already loaded, so reads go to [working].  [commit_log]
    lists, oldest first, the stores the session made durable. *)

Record Session := mkSession {
  committed : DB;
  working : DB;
  commit_log : list DB
}.

(** Modelled from the spec: [config.db.get_db] is not among the sources.
    The spec (section 5) has request-per-call handlers with no shared
    in-process ledger state, the relational store being the single source
    of truth: a request opens a session on the committed store, and what
    it has not committed when it ends is discarded. *)
Definition get_db (d : DB) : Session := mkSession d d [].

Inductive exn : Type :=
  | HTTPException (status_code : Z) (detail : string)
  | TypeError
  | OverflowError
  | IntegrityError.

Inductive outcome (A : Type) : Type :=
  | Ok (a : A)
  | Raise (e : exn).
Arguments Ok {A} a.
Arguments Raise {A} e.

Definition handler (A : Type) : Type := Session → outcome A * Session.

Definition ret {A} (a : A) : handler A := λ s, (Ok a, s).

Definition raise {A} (e : exn) : handler A := λ s, (Raise e, s).

Definition bind {A B} (m : handler A) (k : A → handler B) : handler B :=
  λ s, match m s with
       | (Ok a, s') => k a s'
       | (Raise e, s') => (Raise e, s')
       end.

Notation "x <- m ;; k" := (bind m (λ x, k))
  (at level 100, m at next level, right associativity, only parsing).
Notation "m ;;; k" := (bind m (λ _, k))
  (at level 100, right associativity, only parsing).

(** [db.commit()], [db.rollback()], [db.flush()].  Pending rows already
    sit in [working] with their keys, so a flush changes nothing here. *)
Definition commit : handler unit :=
  λ s, (Ok tt, mkSession (working s) (working s) (commit_log s ++ [working s])).

Definition rollback : handler unit :=
  λ s, (Ok tt, mkSession (committed s) (committed s) (commit_log s)).

Definition flush : handler unit := ret tt.

Definition read {A} (f : DB → A) : handler A := λ s, (Ok (f (working s)), s).

Definition write (f : DB → DB) : handler unit :=
  λ s, (Ok tt, mkSession (committed s) (f (working s)) (commit_log s)).

(** The status codes of [fastapi.status] the handlers use. *)
Definition HTTP_400_BAD_REQUEST : Z := 400.
Definition HTTP_404_NOT_FOUND : Z := 404.

(** ** ORM operations on the session *)

(** [db.query(Product).filter(Product.id == i).first()] *)
Definition query_product (i : Z) : handler (option Product.t) :=
  read (λ d, products d !! i).

(** [db.query(Product).filter(Product.name == n).first()] *)
Definition query_product_by_name (n : string) : handler (option (Z * Product.t)) :=
  read (λ d, head (filter (λ kp, Product.name kp.2 = n) (map_to_list (products d)))).

(** [db.add(Product(...))]: the row gets its key. *)
Definition add_product (p : Product.t) : handler Z :=
  i <- read (λ d, next_key (products d)) ;;
  write (λ d, set_products (<[i := p]> (products d)) d) ;;;
  ret i.

(** An attribute assignment on a loaded [Product]. *)
Definition update_product_row (i : Z) (p : Product.t) : handler unit :=
  write (λ d, set_products (<[i := p]> (products d)) d).

(** [db.add(StockMovement(...))]; [movement_date] is the server's clock. *)
Definition add_stock_movement (product_id quantity_change : Z)
    (movement_type : string) (reference notes : option string)
    (created_by : option Z) (now : Z) : handler StockMovement.t :=
  i <- read (λ d, next_id (StockMovement.id <$> stock_movements d)) ;;
  let m := StockMovement.mk i product_id quantity_change movement_type
             reference notes created_by now in
  write (λ d, set_stock_movements (stock_movements d ++ [m]) d) ;;;
  ret m.

Definition add_sale (s : Sale.t) : handler Z :=
  i <- read (λ d, next_key (sales d)) ;;
  write (λ d, set_sales (<[i := s]> (sales d)) d) ;;;
  ret i.

Definition add_sale_item (sale_id product_id quantity : Z)
    (unit_price subtotal : float) : handler unit :=
  i <- read (λ d, next_id (SaleItem.id <$> sale_items d)) ;;
  write (λ d, set_sale_items
    (sale_items d ++ [SaleItem.mk i sale_id product_id quantity unit_price subtotal]) d).

Definition add_purchase (p : Purchase.t) : handler Z :=
  i <- read (λ d, next_key (purchases d)) ;;
  write (λ d, set_purchases (<[i := p]> (purchases d)) d) ;;;
  ret i.

Definition add_purchase_item (purchase_id product_id quantity : Z)
    (unit_price subtotal : float) : handler unit :=
  i <- read (λ d, next_id (PurchaseItem.id <$> purchase_items d)) ;;
  write (λ d, set_purchase_items
    (purchase_items d ++ [PurchaseItem.mk i purchase_id product_id quantity unit_price subtotal]) d).

(** ** Handlers ([app/routes/products.py])

    [current_user] is the id of the authenticated user and [now] the
    value the database gives [func.now()] during the request. *)

Definition create_product (product_data : ProductCreate.t)
    (current_user now : Z) : handler (Z * Product.t) :=
  existing_product <- query_product_by_name (ProductCreate.name product_data) ;;
  match existing_product with
  | Some _ =>
      raise (HTTPException HTTP_400_BAD_REQUEST "Ya existe un producto con ese nombre")
  | None =>
      let db_product := Product.mk (ProductCreate.name product_data)
                          (ProductCreate.description product_data)
                          (ProductCreate.price product_data)
                          (ProductCreate.quantity product_data) in
      product_id <- add_product db_product ;;
      commit ;;;
      (if bool_decide (0 < ProductCreate.quantity product_data) then
         add_stock_movement product_id (ProductCreate.quantity product_data)
           "inventario_inicial" None
           (Some "Inventario inicial al crear el producto")
           (Some current_user) now ;;;
         commit
       else ret tt) ;;;
      ret (product_id, db_product)
  end.

(** [product_data.name and ...]: the name, when it is a non-empty string. *)
Definition truthy_str (f : Field string) : option string :=
  match f with
  | Value s => if bool_decide (s = "") then None else Some s
  | _ => None
  end.

(** The loop [for key, value in product_data_dict.items(): setattr(...)]
    on the columns that cannot hold [None]; [name] and [price] are
    [nullable=False] and a [None] there is refused when the row is
    written. *)
Definition setattr_all (product_data : ProductUpdate.t) (p : Product.t) : Product.t :=
  let p := match ProductUpdate.name product_data with
           | Value v => Product.set_name v p | _ => p end in
  let p := match ProductUpdate.description product_data with
           | Value v => Product.set_description (Some v) p
           | Null => Product.set_description None p
           | Unset => p end in
  let p := match ProductUpdate.price product_data with
           | Value v => Product.set_price v p | _ => p end in
  match ProductUpdate.quantity product_data with
  | Value v => Product.set_quantity v p | _ => p end.

Definition violates_not_null (product_data : ProductUpdate.t) : bool :=
  match ProductUpdate.name product_data, ProductUpdate.price product_data with
  | Null, _ | _, Null => true
  | _, _ => false
  end.

Definition update_product (product_id : Z) (product_data : ProductUpdate.t)
    (current_user now : Z) : handler Product.t :=
  found <- query_product product_id ;;
  match found with
  | None => raise (HTTPException HTTP_404_NOT_FOUND "Producto no encontrado")
  | Some product =>
      name_taken <-
        match truthy_str (ProductUpdate.name product_data) with
        | Some n =>
            if bool_decide (n ≠ Product.name product) then
              existing_product <- query_product_by_name n ;;
              ret (bool_decide (is_Some existing_product))
            else ret false
        | None => ret false
        end ;;
      if name_taken : bool then
        raise (HTTPException HTTP_400_BAD_REQUEST "Ya existe un producto con ese nombre")
      else
        let old_quantity := Product.quantity product in
        let product' := setattr_all product_data product in
        update_product_row product_id product' ;;;
        (match ProductUpdate.quantity product_data with
         | Unset => ret tt
         | Null => raise TypeError
         | Value new_quantity =>
             if bool_decide (new_quantity ≠ old_quantity) then
               let quantity_change := new_quantity - old_quantity in
               if bool_decide (quantity_change ≠ 0) then
                 add_stock_movement product_id quantity_change "ajuste" None
                   (Some ("Ajuste manual: " +:+ py_str old_quantity +:+ " -> "
                            +:+ py_str new_quantity))
                   (Some current_user) now ;;;
                 ret tt
               else ret tt
             else ret tt
         end) ;;;
        (if violates_not_null product_data then raise IntegrityError else commit) ;;;
        ret product'
  end.

Definition create_stock_movement (movement_data : StockMovementCreate.t)
    (current_user now : Z) : handler StockMovement.t :=
  found <- query_product (StockMovementCreate.product_id movement_data) ;;
  match found with
  | None => raise (HTTPException HTTP_404_NOT_FOUND "Producto no encontrado")
  | Some product =>
      let quantity_change := StockMovementCreate.quantity_change movement_data in
      if bool_decide (quantity_change < 0)
         && bool_decide (Product.quantity product + quantity_change < 0) then
        raise (HTTPException HTTP_400_BAD_REQUEST
                 "No hay suficiente stock para realizar esta operación")
      else
        update_product_row (StockMovementCreate.product_id movement_data)
          (Product.set_quantity (Product.quantity product + quantity_change) product) ;;;
        db_movement <- add_stock_movement
          (StockMovementCreate.product_id movement_data)
          quantity_change
          (StockMovementCreate.movement_type movement_data)
          (StockMovementCreate.reference movement_data)
          (StockMovementCreate.notes movement_data)
          (Some current_user) now ;;
        commit ;;;
        ret db_movement
  end.

(** [query.order_by(<column>.desc())] on a timestamp column.  The rows
    come back in an order that is descending on the column.  The sources
    name no second column, so the order of rows with equal timestamps is
    the engine's choice, and the engine may choose differently from one
    query to the next.  An [ordering] is one such choice: any way to
    rearrange rows into descending order. *)
Definition key_desc {A} (key : A → Z) (a b : A) : Prop := key b ≤ key a.

#[global] Instance key_desc_dec {A} (key : A → Z) : RelDecision (key_desc key) :=
  λ a b, decide (key b ≤ key a).

#[global] Instance key_desc_total {A} (key : A → Z) : Total (key_desc key).
Proof. intros a b. unfold key_desc. lia. Qed.

#[global] Instance key_desc_trans {A} (key : A → Z) : Transitive (key_desc key).
Proof. intros a b c. unfold key_desc. lia. Qed.

Record ordering {A} (key : A → Z) : Type := Ordering {
  order_by : list A → list A;
  order_by_permutation : ∀ rows, order_by rows ≡ₚ rows;
  order_by_descending : ∀ rows, StronglySorted (key_desc key) (order_by rows)
}.
Arguments Ordering {A key} order_by order_by_permutation order_by_descending.
Arguments order_by {A key} o rows.
Arguments order_by_permutation {A key} o rows.
Arguments order_by_descending {A key} o rows.

(** Two orderings to compute with: merge sort on the rows as the table
    has them, and merge sort on the rows taken from the last to the
    first. *)
Definition merge_sorted {A} (key : A → Z) : ordering key :=
  Ordering (merge_sort (key_desc key))
    (merge_sort_Permutation (key_desc key))
    (StronglySorted_merge_sort (key_desc key)).

Definition merge_sorted_from_last {A} (key : A → Z) : ordering key :=
  Ordering (λ rows, merge_sort (key_desc key) (reverse rows))
    (λ rows, transitivity (merge_sort_Permutation (key_desc key) (reverse rows))
               (reverse_Permutation rows))
    (λ rows, StronglySorted_merge_sort (key_desc key) (reverse rows)).

(** [query.offset(skip).limit(limit).all()] *)
Definition offset_limit {A} (skip limit : Z) (rows : list A) : list A :=
  take (Z.to_nat limit) (drop (Z.to_nat skip) rows).

(** The rows the two [if] filters of [get_stock_movements] keep: a
    parameter that is absent, [0] or the empty string is falsy and
    filters nothing. *)
Definition filter_movements (product_id : option Z) (movement_type : option string)
    (rows : list StockMovement.t) : list StockMovement.t :=
  let query := rows in
  let query :=
    match product_id with
    | Some i => if bool_decide (i ≠ 0)
                then filter (λ m, StockMovement.product_id m = i) query
                else query
    | None => query
    end in
  match movement_type with
  | Some t => if bool_decide (t ≠ "")
              then filter (λ m, StockMovement.movement_type m = t) query
              else query
  | None => query
  end.

(** [skip: int = Query(0, ge=0)], [limit: int = Query(100, ge=1, le=100)] *)
Definition valid_page (skip limit : Z) : bool :=
  bool_decide (0 ≤ skip) && bool_decide (1 ≤ limit) && bool_decide (limit ≤ 100).

(** [get_stock_movements]; [order] is the order the engine gives the
    rows of this query. *)
Definition get_stock_movements (order : ordering StockMovement.movement_date)
    (product_id : option Z) (movement_type : option string)
    (skip limit : Z) : handler (list StockMovement.t) :=
  read (λ d,
    offset_limit skip limit
      (order_by order
         (filter_movements product_id movement_type (stock_movements d)))).

(** The body of [for item_data in sale_data.items:], with the running
    [total_amount] as accumulator. *)
Fixpoint create_sale_items (sale_id current_user now : Z)
    (items : list SaleItemCreate.t) (total_amount : float) : handler float :=
  match items with
  | [] => ret total_amount
  | item_data :: rest =>
      found <- query_product (SaleItemCreate.product_id item_data) ;;
      match found with
      | None =>
          rollback ;;;
          raise (HTTPException HTTP_404_NOT_FOUND
                   ("Producto con ID " +:+ py_str (SaleItemCreate.product_id item_data)
                      +:+ " no encontrado"))
      | Some product =>
          if bool_decide (Product.quantity product < SaleItemCreate.quantity item_data) then
            rollback ;;;
            raise (HTTPException HTTP_400_BAD_REQUEST
                     ("Stock insuficiente para el producto '" +:+ Product.name product
                        +:+ "'"))
          else
            let subtotal :=
              PrimFloat.mul (Product.price product)
                (py_float (SaleItemCreate.quantity item_data)) in
            let total_amount := PrimFloat.add total_amount subtotal in
            add_sale_item sale_id (SaleItemCreate.product_id item_data)
              (SaleItemCreate.quantity item_data) (Product.price product) subtotal ;;;
            update_product_row (SaleItemCreate.product_id item_data)
              (Product.set_quantity
                 (Product.quantity product - SaleItemCreate.quantity item_data) product) ;;;
            add_stock_movement (SaleItemCreate.product_id item_data)
              (- SaleItemCreate.quantity item_data) "venta"
              (Some ("Venta #" +:+ py_str sale_id)) None (Some current_user) now ;;;
            create_sale_items sale_id current_user now rest total_amount
      end
  end.

Definition create_sale (sale_data : SaleCreate.t) (current_user now : Z)
    : handler (Z * Sale.t) :=
  match SaleCreate.items sale_data with
  | [] =>
      raise (HTTPException HTTP_400_BAD_REQUEST "La venta debe tener al menos un producto")
  | _ =>
      let db_sale := Sale.mk (SaleCreate.customer_name sale_data) (py_float 0)
                       (SaleCreate.payment_method sale_data) current_user now in
      sale_id <- add_sale db_sale ;;
      flush ;;;
      total_amount <- create_sale_items sale_id current_user now
                        (SaleCreate.items sale_data) (py_float 0) ;;
      let db_sale := Sale.set_total_amount total_amount db_sale in
      write (λ d, set_sales (<[sale_id := db_sale]> (sales d)) d) ;;;
      commit ;;;
      ret (sale_id, db_sale)
  end.

(** The body of [for item_data in purchase_data.items:].
    [item_data.unit_price * item_data.quantity] converts the quantity of
    the line to a [float] and raises [OverflowError] when it does not
    fit; nothing catches it, and the request ends there. *)
Fixpoint create_purchase_items (purchase_id current_user now : Z)
    (items : list PurchaseItemCreate.t) (total_amount : float) : handler float :=
  match items with
  | [] => ret total_amount
  | item_data :: rest =>
      found <- query_product (PurchaseItemCreate.product_id item_data) ;;
      match found with
      | None =>
          rollback ;;;
          raise (HTTPException HTTP_404_NOT_FOUND
                   ("Producto con ID " +:+ py_str (PurchaseItemCreate.product_id item_data)
                      +:+ " no encontrado"))
      | Some product =>
          if float_overflows (PurchaseItemCreate.quantity item_data) then
            raise OverflowError
          else
            let subtotal :=
              PrimFloat.mul (PurchaseItemCreate.unit_price item_data)
                (py_float (PurchaseItemCreate.quantity item_data)) in
            let total_amount := PrimFloat.add total_amount subtotal in
            add_purchase_item purchase_id (PurchaseItemCreate.product_id item_data)
              (PurchaseItemCreate.quantity item_data)
              (PurchaseItemCreate.unit_price item_data) subtotal ;;;
            update_product_row (PurchaseItemCreate.product_id item_data)
              (Product.set_quantity
                 (Product.quantity product + PurchaseItemCreate.quantity item_data)
                 product) ;;;
            add_stock_movement (PurchaseItemCreate.product_id item_data)
              (PurchaseItemCreate.quantity item_data) "compra"
              (Some ("Compra #" +:+ py_str purchase_id)) None (Some current_user) now ;;;
            create_purchase_items purchase_id current_user now rest total_amount
      end
  end.

Definition create_purchase (purchase_data : PurchaseCreate.t) (current_user now : Z)
    : handler (Z * Purchase.t) :=
  match PurchaseCreate.items purchase_data with
  | [] =>
      raise (HTTPException HTTP_400_BAD_REQUEST "La compra debe tener al menos un producto")
  | _ =>
      let db_purchase := Purchase.mk (PurchaseCreate.supplier_name purchase_data)
                           (py_float 0) (PurchaseCreate.reference purchase_data)
                           current_user now in
      purchase_id <- add_purchase db_purchase ;;
      flush ;;;
      total_amount <- create_purchase_items purchase_id current_user now
                        (PurchaseCreate.items purchase_data) (py_float 0) ;;
      let db_purchase := Purchase.set_total_amount total_amount db_purchase in
      write (λ d, set_purchases (<[purchase_id := db_purchase]> (purchases d)) d) ;;;
      commit ;;;
      ret (purchase_id, db_purchase)
  end.

(** A request: a handler run on a fresh session.  What the request
    returns, the store it leaves durable, and the stores it made durable
    on the way. *)
Definition run {A} (h : handler A) (d : DB) : outcome A * DB :=
  let '(r, s) := h (get_db d) in (r, committed s).

Definition commits {A} (h : handler A) (d : DB) : list DB :=
  commit_log (h (get_db d)).2.

(** Sum of the [quantity_change] of the movements of one product. *)
Definition movements_of (i : Z) (d : DB) : list StockMovement.t :=
  filter (λ m, StockMovement.product_id m = i) (stock_movements d).

Definition movement_sum (i : Z) (d : DB) : Z :=
  foldr Z.add 0 (StockMovement.quantity_change <$> movements_of i d).

(** ** Requests

    The mutating endpoints of the ledger.  FastAPI validates the payload
    against its schema before the handler runs and answers 422 when it
    does not conform; [update_product] also has
    [product_id: int = Path(..., ge=1)]. *)
Inductive request : Type :=
  | POST_product (product_data : ProductCreate.t)
  | PUT_product (product_id : Z) (product_data : ProductUpdate.t)
  | POST_stock_movement (movement_data : StockMovementCreate.t)
  | POST_sale (sale_data : SaleCreate.t)
  | POST_purchase (purchase_data : PurchaseCreate.t).

Definition HTTP_422_UNPROCESSABLE_ENTITY : Z := 422.

Definition validated {A} (ok : bool) (h : handler A) : handler A :=
  if ok then h else raise (HTTPException HTTP_422_UNPROCESSABLE_ENTITY "Unprocessable Entity").

Definition discard {A} (h : handler A) : handler unit := h ;;; ret tt.

Definition endpoint (r : request) (current_user now : Z) : handler unit :=
  match r with
  | POST_product product_data =>
      validated (ProductCreate.valid product_data)
        (discard (create_product product_data current_user now))
  | PUT_product product_id product_data =>
      validated (bool_decide (1 ≤ product_id) && ProductUpdate.valid product_data)
        (discard (update_product product_id product_data current_user now))
  | POST_stock_movement movement_data =>
      validated (StockMovementCreate.valid movement_data)
        (discard (create_stock_movement movement_data current_user now))
  | POST_sale sale_data =>
      validated (SaleCreate.valid sale_data)
        (discard (create_sale sale_data current_user now))
  | POST_purchase purchase_data =>
      validated (PurchaseCreate.valid purchase_data)
        (discard (create_purchase purchase_data current_user now))
  end.

(** The store after a request, and after a sequence of requests, each
    with its user and its time. *)
Definition serve (d : DB) (call : request * Z * Z) : DB :=
  let '(r, current_user, now) := call in
  (run (endpoint r current_user now) d).2.

Definition serve_all (d : DB) (calls : list (request * Z * Z)) : DB :=
  foldl serve d calls.

(** The ledger invariant: the cached quantity of every product is the sum
    of its movements, and every movement belongs to a product
    ([ForeignKey('products.id')]). *)
Definition quantity_matches_ledger (d : DB) : Prop :=
  ∀ i p, products d !! i = Some p → Product.quantity p = movement_sum i d.

Definition movements_reference_products (d : DB) : Prop :=
  ∀ m, m ∈ stock_movements d → is_Some (products d !! StockMovement.product_id m).

Definition ledger_invariant (d : DB) : Prop :=
  quantity_matches_ledger d ∧ movements_reference_products d.

(** * Vocabulary of the properties *)

(** ** What the handlers leave in the working store

    The stores and rows below are those the handlers build, written out
    once so that the equations of the handlers can name them. *)

(** The header row of a sale and the session once it has been added. *)
Definition sale_header (sale_data : SaleCreate.t) (u now : Z) (total : float) : Sale.t :=
  Sale.mk (SaleCreate.customer_name sale_data) total
    (SaleCreate.payment_method sale_data) u now.

Definition sale_started (sale_data : SaleCreate.t) (u now : Z) (s : Session) : Session :=
  mkSession (committed s)
    (set_sales (<[next_key (sales (working s)) := sale_header sale_data u now (py_float 0)]>
                  (sales (working s))) (working s))
    (commit_log s).

(** The working store after the body of the loop of [create_sale] has run
    on a line whose product was found with enough stock. *)
Definition sale_line_db (sale_id current_user now : Z) (item_data : SaleItemCreate.t)
    (product : Product.t) (w : DB) : DB :=
  let subtotal := PrimFloat.mul (Product.price product)
                    (py_float (SaleItemCreate.quantity item_data)) in
  let w1 := set_sale_items
    (sale_items w ++
       [SaleItem.mk (next_id (SaleItem.id <$> sale_items w)) sale_id
          (SaleItemCreate.product_id item_data) (SaleItemCreate.quantity item_data)
          (Product.price product) subtotal]) w in
  let w2 := set_products
    (<[SaleItemCreate.product_id item_data :=
         Product.set_quantity
           (Product.quantity product - SaleItemCreate.quantity item_data) product]>
       (products w1)) w1 in
  set_stock_movements
    (stock_movements w2 ++
       [StockMovement.mk (next_id (StockMovement.id <$> stock_movements w2))
          (SaleItemCreate.product_id item_data) (- SaleItemCreate.quantity item_data)
          "venta" (Some ("Venta #" +:+ py_str sale_id)) None (Some current_user) now]) w2.

(** The same for a purchase. *)
Definition purchase_header (purchase_data : PurchaseCreate.t) (u now : Z)
    (total : float) : Purchase.t :=
  Purchase.mk (PurchaseCreate.supplier_name purchase_data) total
    (PurchaseCreate.reference purchase_data) u now.

Definition purchase_started (purchase_data : PurchaseCreate.t) (u now : Z)
    (s : Session) : Session :=
  mkSession (committed s)
    (set_purchases
       (<[next_key (purchases (working s)) := purchase_header purchase_data u now (py_float 0)]>
          (purchases (working s))) (working s))
    (commit_log s).

Definition purchase_line_db (purchase_id current_user now : Z)
    (item_data : PurchaseItemCreate.t) (product : Product.t) (w : DB) : DB :=
  let subtotal := PrimFloat.mul (PurchaseItemCreate.unit_price item_data)
                    (py_float (PurchaseItemCreate.quantity item_data)) in
  let w1 := set_purchase_items
    (purchase_items w ++
       [PurchaseItem.mk (next_id (PurchaseItem.id <$> purchase_items w)) purchase_id
          (PurchaseItemCreate.product_id item_data)
          (PurchaseItemCreate.quantity item_data)
          (PurchaseItemCreate.unit_price item_data) subtotal]) w in
  let w2 := set_products
    (<[PurchaseItemCreate.product_id item_data :=
         Product.set_quantity
           (Product.quantity product + PurchaseItemCreate.quantity item_data) product]>
       (products w1)) w1 in
  set_stock_movements
    (stock_movements w2 ++
       [StockMovement.mk (next_id (StockMovement.id <$> stock_movements w2))
          (PurchaseItemCreate.product_id item_data)
          (PurchaseItemCreate.quantity item_data)
          "compra" (Some ("Compra #" +:+ py_str purchase_id)) None
          (Some current_user) now]) w2.

(** The session after [db.rollback()]. *)
Definition rolled_back (s : Session) : Session :=
  mkSession (committed s) (committed s) (commit_log s).

(** The movement [create_stock_movement] adds to the store [w], and the
    store with it and with the quantity moved. *)
Definition stock_movement_row (movement_data : StockMovementCreate.t) (u now : Z)
    (w : DB) : StockMovement.t :=
  StockMovement.mk (next_id (StockMovement.id <$> stock_movements w))
    (StockMovementCreate.product_id movement_data)
    (StockMovementCreate.quantity_change movement_data)
    (StockMovementCreate.movement_type movement_data)
    (StockMovementCreate.reference movement_data)
    (StockMovementCreate.notes movement_data)
    (Some u) now.

Definition stock_movement_db (movement_data : StockMovementCreate.t) (u now : Z)
    (product : Product.t) (w : DB) : DB :=
  mkDB
    (<[StockMovementCreate.product_id movement_data :=
         Product.set_quantity
           (Product.quantity product + StockMovementCreate.quantity_change movement_data)
           product]> (products w))
    (stock_movements w ++ [stock_movement_row movement_data u now w])
    (sales w) (sale_items w) (purchases w) (purchase_items w).

(** The row and the first movement of a new product, and whether a name
    is that of a product of the store. *)
Definition product_of (product_data : ProductCreate.t) : Product.t :=
  Product.mk (ProductCreate.name product_data) (ProductCreate.description product_data)
    (ProductCreate.price product_data) (ProductCreate.quantity product_data).

Definition initial_movement (product_id quantity u now : Z) (w : DB) : StockMovement.t :=
  StockMovement.mk (next_id (StockMovement.id <$> stock_movements w)) product_id
    quantity "inventario_inicial" None
    (Some "Inventario inicial al crear el producto") (Some u) now.

Definition name_taken (n : string) (w : DB) : bool :=
  bool_decide (is_Some (head (filter (λ kp : Z * Product.t, Product.name kp.2 = n)
                                (map_to_list (products w))))).

(** The name check of [update_product] stops the request. *)
Definition rename_refused (product_data : ProductUpdate.t) (product : Product.t)
    (w : DB) : bool :=
  match truthy_str (ProductUpdate.name product_data) with
  | Some n => bool_decide (n ≠ Product.name product) && name_taken n w
  | None => false
  end.

(** The movements [update_product] adds to the store [w], and the store
    with them and with the attributes set. *)
Definition adjustment_movement (product_id old_quantity new_quantity u now : Z)
    (w : DB) : StockMovement.t :=
  StockMovement.mk (next_id (StockMovement.id <$> stock_movements w)) product_id
    (new_quantity - old_quantity) "ajuste" None
    (Some ("Ajuste manual: " +:+ py_str old_quantity +:+ " -> " +:+ py_str new_quantity))
    (Some u) now.

Definition adjustment_movements (product_id : Z) (product_data : ProductUpdate.t)
    (product : Product.t) (u now : Z) (w : DB) : list StockMovement.t :=
  match ProductUpdate.quantity product_data with
  | Value new_quantity =>
      if bool_decide (new_quantity ≠ Product.quantity product)
      then [adjustment_movement product_id (Product.quantity product) new_quantity u now w]
      else []
  | _ => []
  end.

Definition update_product_db (product_id : Z) (product_data : ProductUpdate.t)
    (product : Product.t) (u now : Z) (w : DB) : DB :=
  mkDB (<[product_id := setattr_all product_data product]> (products w))
    (stock_movements w ++ adjustment_movements product_id product_data product u now w)
    (sales w) (sale_items w) (purchases w) (purchase_items w).

(** ** Lines, rows and sums *)

(** The sum of the [quantity_change] of the movements of product [i] in a
    list; the quantity a list of sale lines asks of product [i], and the
    quantity a list of purchase lines brings it. *)
Definition msum (i : Z) (l : list StockMovement.t) : Z :=
  foldr Z.add 0
    (StockMovement.quantity_change <$> filter (λ m, StockMovement.product_id m = i) l).

Definition sold (i : Z) (items : list SaleItemCreate.t) : Z :=
  foldr Z.add 0
    (SaleItemCreate.quantity <$> filter (λ it, SaleItemCreate.product_id it = i) items).

Definition bought (i : Z) (items : list PurchaseItemCreate.t) : Z :=
  foldr Z.add 0
    (PurchaseItemCreate.quantity
       <$> filter (λ it, PurchaseItemCreate.product_id it = i) items).

(** What a line of a sale leaves in [sale_items] and in
    [stock_movements], read against the store [w] the sale started on. *)
Definition sale_line_item (sale_id : Z) (w : DB) (it : SaleItemCreate.t)
    (row : SaleItem.t) : Prop :=
  SaleItem.sale_id row = sale_id
  ∧ SaleItem.product_id row = SaleItemCreate.product_id it
  ∧ SaleItem.quantity row = SaleItemCreate.quantity it
  ∧ ∃ p, products w !! SaleItemCreate.product_id it = Some p
         ∧ SaleItem.unit_price row = Product.price p
         ∧ SaleItem.subtotal row
           = PrimFloat.mul (Product.price p) (py_float (SaleItemCreate.quantity it)).

Definition sale_line_movement (sale_id current_user now : Z) (it : SaleItemCreate.t)
    (m : StockMovement.t) : Prop :=
  StockMovement.product_id m = SaleItemCreate.product_id it
  ∧ StockMovement.quantity_change m = - SaleItemCreate.quantity it
  ∧ StockMovement.movement_type m = "venta"
  ∧ StockMovement.reference m = Some ("Venta #" +:+ py_str sale_id)
  ∧ StockMovement.created_by m = Some current_user
  ∧ StockMovement.movement_date m = now.

(** What a line of a purchase leaves in [purchase_items] and in
    [stock_movements]. *)
Definition purchase_line_item (purchase_id : Z) (it : PurchaseItemCreate.t)
    (row : PurchaseItem.t) : Prop :=
  PurchaseItem.purchase_id row = purchase_id
  ∧ PurchaseItem.product_id row = PurchaseItemCreate.product_id it
  ∧ PurchaseItem.quantity row = PurchaseItemCreate.quantity it
  ∧ PurchaseItem.unit_price row = PurchaseItemCreate.unit_price it
  ∧ PurchaseItem.subtotal row
    = PrimFloat.mul (PurchaseItemCreate.unit_price it)
        (py_float (PurchaseItemCreate.quantity it)).

Definition purchase_line_movement (purchase_id current_user now : Z)
    (it : PurchaseItemCreate.t) (m : StockMovement.t) : Prop :=
  StockMovement.product_id m = PurchaseItemCreate.product_id it
  ∧ StockMovement.quantity_change m = PurchaseItemCreate.quantity it
  ∧ StockMovement.movement_type m = "compra"
  ∧ StockMovement.reference m = Some ("Compra #" +:+ py_str purchase_id)
  ∧ StockMovement.created_by m = Some current_user
  ∧ StockMovement.movement_date m = now.

(** The lines of a sale can all be served from the store [w]: the product
    of every line exists, and its stock covers what the lines ask of it
    in total.  [covers] is the same as a test. *)
Definition can_sell (w : DB) (items : list SaleItemCreate.t) : Prop :=
  ∀ it, it ∈ items →
    ∃ p, products w !! SaleItemCreate.product_id it = Some p
         ∧ sold (SaleItemCreate.product_id it) items ≤ Product.quantity p.

Definition covers (w : DB) (items : list SaleItemCreate.t) : bool :=
  forallb (λ it,
    match products w !! SaleItemCreate.product_id it with
    | Some p => bool_decide (sold (SaleItemCreate.product_id it) items ≤ Product.quantity p)
    | None => false
    end) items.

(** The products of all the lines of a purchase are in the store, and
    the quantities of all its lines convert to a [float]. *)
Definition all_in_store (w : DB) (items : list PurchaseItemCreate.t) : bool :=
  forallb (λ it, bool_decide (is_Some (products w !! PurchaseItemCreate.product_id it)))
    items.

Definition quantities_convert (items : list PurchaseItemCreate.t) : bool :=
  forallb (λ it, negb (float_overflows (PurchaseItemCreate.quantity it))) items.

Definition is_empty {A} (l : list A) : bool :=
  match l with [] => true | _ => false end.

(** A line fails when its product is not in the store, or when the stock
    left by the lines before it is below what it asks. *)
Definition line_fails (d : DB) (pre : list SaleItemCreate.t) (it : SaleItemCreate.t)
    : Prop :=
  match products d !! SaleItemCreate.product_id it with
  | None => True
  | Some p =>
      Product.quantity p - sold (SaleItemCreate.product_id it) pre
      < SaleItemCreate.quantity it
  end.

(** The exceptions the loop of a sale raises: 404 for a line whose
    product is not in the store, 400 for a line the stock does not
    cover. *)
Definition insufficient_stock (e : exn) : Prop :=
  ∃ name, e = HTTPException HTTP_400_BAD_REQUEST
                ("Stock insuficiente para el producto '" +:+ name +:+ "'").

Definition not_found (e : exn) : Prop :=
  ∃ detail, e = HTTPException HTTP_404_NOT_FOUND detail.

(** ** The history as the specification has it

    The history query as the specification words it, to compare
    [get_stock_movements] with: filterable by product id, by movement
    kind and by time range, each filter applied when it is given. *)
Definition history_as_specified (order : ordering StockMovement.movement_date)
    (product_id : option Z) (movement_type : option string)
    (start_date end_date : option Z) (skip limit : Z) (d : DB) : list StockMovement.t :=
  let wanted (m : StockMovement.t) : bool :=
    match product_id with
    | Some i => bool_decide (StockMovement.product_id m = i) | None => true end
    && match movement_type with
       | Some t => bool_decide (StockMovement.movement_type m = t) | None => true end
    && match start_date with
       | Some t => bool_decide (t ≤ StockMovement.movement_date m) | None => true end
    && match end_date with
       | Some t => bool_decide (StockMovement.movement_date m ≤ t) | None => true end in
  offset_limit skip limit (order_by order (List.filter wanted (stock_movements d))).

(** ** The stores of the worked instances

    A shop with product A (price 10, quantity 3) and product B (price 5,
    quantity 10), built by two requests on the empty store; user 7. *)

Definition product_A : ProductCreate.t := ProductCreate.mk "A" None (py_float 10) 3.
Definition product_B : ProductCreate.t := ProductCreate.mk "B" None (py_float 5) 10.

Definition shop_calls : list (request * Z * Z) :=
  [(POST_product product_A, 7, 100); (POST_product product_B, 7, 101)].

Definition shop : DB := serve_all empty_db shop_calls.

(** Lines (A, 2) and (B, 1). *)
Definition sale_A2_B1 : SaleCreate.t :=
  SaleCreate.mk (Some "Ana") "efectivo" [SaleItemCreate.mk 1 2; SaleItemCreate.mk 2 1].

(** Lines (A, 2) and (A, 2), against the 3 units of A. *)
Definition sale_A2_A2 : SaleCreate.t :=
  SaleCreate.mk None "efectivo" [SaleItemCreate.mk 1 2; SaleItemCreate.mk 1 2].

(** Lines (B, 1) and (A, 5): the second line asks more than the 3 units
    of A. *)
Definition sale_B1_A5 : SaleCreate.t :=
  SaleCreate.mk None "efectivo" [SaleItemCreate.mk 2 1; SaleItemCreate.mk 1 5].

(** 4 units of A bought at 7.5 each. *)
Definition purchase_A4 : PurchaseCreate.t :=
  PurchaseCreate.mk "Proveedor" None [PurchaseItemCreate.mk 1 4 7.5%float].

(** A delta of -5 on the 3 units of A. *)
Definition delta_A_minus5 : StockMovementCreate.t :=
  StockMovementCreate.mk 1 (-5) "ajuste" None None.

(** The payload of a manual adjustment: the quantity alone. *)
Definition set_quantity_to (q : Z) : ProductUpdate.t :=
  ProductUpdate.mk Unset Unset Unset (Value q).

(** Product A with movements at times 1, 2 and 3. *)
Definition three_movements : DB :=
  serve_all empty_db
    [(POST_product product_A, 7, 1);
     (POST_stock_movement (StockMovementCreate.mk 1 2 "ajuste" None None), 7, 2);
     (POST_stock_movement (StockMovementCreate.mk 1 (-1) "ajuste" None None), 7, 3)].

(** * The rest of the router and the reports

    The handlers of [app/routes/products.py] the ledger does not need,
    the admin gate of [app/routes/auth.py] in front of [delete_product],
    and the reports of [app/routes/reports.py] on sales and movements. *)

(** ** Users ([app/models/user.py]) and the admin gate *)

Inductive UserRole : Type := ADMIN | CASHIER.

#[global] Instance UserRole_eq_dec : EqDecision UserRole.
Proof. solve_decision. Defined.

Module User.
Record t := mk {
  id : Z;
  username : string;
  email : string;
  role : UserRole;
  is_active : bool
}.
End User.

Definition HTTP_403_FORBIDDEN : Z := 403.

(** [get_admin_user], on the user [get_current_user] has authenticated. *)
Definition get_admin_user (current_user : User.t) : outcome User.t :=
  if bool_decide (User.role current_user ≠ ADMIN) then
    Raise (HTTPException HTTP_403_FORBIDDEN "No tienes permisos suficientes")
  else Ok current_user.

(** ** Reading and deleting a product *)

Definition get_product (product_id : Z) : handler Product.t :=
  found <- query_product product_id ;;
  match found with
  | None => raise (HTTPException HTTP_404_NOT_FOUND "Producto no encontrado")
  | Some product => ret product
  end.

(** [db.delete(product)]: the row goes, and with it the rows of the
    relationships of [Product] that cascade, [movements] and
    [sale_items].  [PurchaseItem] has no such relationship: its rows
    stay. *)
Definition delete_cascade (product_id : Z) (d : DB) : DB :=
  mkDB (delete product_id (products d))
    (filter (λ m, StockMovement.product_id m ≠ product_id) (stock_movements d))
    (sales d)
    (filter (λ r, SaleItem.product_id r ≠ product_id) (sale_items d))
    (purchases d)
    (purchase_items d).

Definition purchased (product_id : Z) (d : DB) : bool :=
  bool_decide (Exists (λ r, PurchaseItem.product_id r = product_id) (purchase_items d)).

(** [delete_product].  Whether the engine checks
    [ForeignKey('products.id')] of [purchase_items] when the product row
    is deleted is a matter of the engine, here the parameter
    [foreign_keys_enforced]: an engine that checks refuses, at the
    commit, to delete a product that a purchase item names. *)
Definition delete_product (foreign_keys_enforced : bool) (product_id : Z)
    : handler string :=
  found <- query_product product_id ;;
  match found with
  | None => raise (HTTPException HTTP_404_NOT_FOUND "Producto no encontrado")
  | Some product =>
      referenced <- read (purchased product_id) ;;
      write (delete_cascade product_id) ;;;
      (if foreign_keys_enforced && referenced then raise IntegrityError else commit) ;;;
      ret "Producto eliminado exitosamente"
  end.

(** ** Reading sales and purchases *)

(** A [Sale] or a [Purchase] as it is returned: its key, its row and the
    rows of its [items] relationship. *)
Definition items_of_sale (sale_id : Z) (d : DB) : list SaleItem.t :=
  filter (λ r, SaleItem.sale_id r = sale_id) (sale_items d).

Definition items_of_purchase (purchase_id : Z) (d : DB) : list PurchaseItem.t :=
  filter (λ r, PurchaseItem.purchase_id r = purchase_id) (purchase_items d).

Definition get_sale (sale_id : Z) : handler (Sale.t * list SaleItem.t) :=
  found <- read (λ d, sales d !! sale_id) ;;
  match found with
  | None => raise (HTTPException HTTP_404_NOT_FOUND "Venta no encontrada")
  | Some sale =>
      items <- read (items_of_sale sale_id) ;;
      ret (sale, items)
  end.

Definition get_purchase (purchase_id : Z) : handler (Purchase.t * list PurchaseItem.t) :=
  found <- read (λ d, purchases d !! purchase_id) ;;
  match found with
  | None => raise (HTTPException HTTP_404_NOT_FOUND "Compra no encontrada")
  | Some purchase =>
      items <- read (items_of_purchase purchase_id) ;;
      ret (purchase, items)
  end.

(** The timestamp [get_sales] and [get_purchases] order by. *)
Definition sale_date (kv : Z * Sale.t) : Z := Sale.created_at kv.2.
Definition purchase_date (kv : Z * Purchase.t) : Z := Purchase.created_at kv.2.

(** The two [if] filters of [get_sales], [get_purchases] and the reports
    on a timestamp: a bound that is given is applied. *)
Definition in_dates {A} (key : A → Z) (start_date end_date : option Z) (a : A) : bool :=
  match start_date with Some t => bool_decide (t ≤ key a) | None => true end
  && match end_date with Some t => bool_decide (key a ≤ t) | None => true end.

Definition sales_between (start_date end_date : option Z) (d : DB)
    : list (Z * Sale.t) :=
  List.filter (in_dates sale_date start_date end_date) (map_to_list (sales d)).

(** A sale as it is returned, with the rows of its [items]. *)
Definition with_sale_items (d : DB) (kv : Z * Sale.t) : Z * Sale.t * list SaleItem.t :=
  (kv, items_of_sale kv.1 d).

(** [get_sales]; [order] is the order the engine gives the rows of this
    query. *)
Definition get_sales (order : ordering sale_date) (skip limit : Z)
    (start_date end_date : option Z) : handler (list (Z * Sale.t * list SaleItem.t)) :=
  read (λ d,
    with_sale_items d
      <$> offset_limit skip limit (order_by order (sales_between start_date end_date d))).

Definition purchases_between (start_date end_date : option Z) (d : DB)
    : list (Z * Purchase.t) :=
  List.filter (in_dates purchase_date start_date end_date) (map_to_list (purchases d)).

Definition with_purchase_items (d : DB) (kv : Z * Purchase.t)
    : Z * Purchase.t * list PurchaseItem.t :=
  (kv, items_of_purchase kv.1 d).

Definition get_purchases (order : ordering purchase_date) (skip limit : Z)
    (start_date end_date : option Z)
    : handler (list (Z * Purchase.t * list PurchaseItem.t)) :=
  read (λ d,
    with_purchase_items d
      <$> offset_limit skip limit
            (order_by order (purchases_between start_date end_date d))).

(** ** Reports ([app/routes/reports.py])

    The rows are the dictionaries the handlers build; [isoformat] stands
    for [datetime.isoformat] on the timestamps. *)

Module MovementReport.
Record t := mk {
  id : Z;
  product_id : Z;
  quantity : Z;
  type : string;
  date : string
}.
End MovementReport.

Definition movement_report_row (isoformat : Z → string) (mov : StockMovement.t)
    : MovementReport.t :=
  MovementReport.mk (StockMovement.id mov) (StockMovement.product_id mov)
    (StockMovement.quantity_change mov) (StockMovement.movement_type mov)
    (isoformat (StockMovement.movement_date mov)).

Definition stock_movements_report (isoformat : Z → string) (product_id : option Z)
    (start_date end_date : option Z) : handler (list MovementReport.t) :=
  read (λ d,
    let query := stock_movements d in
    let query :=
      match product_id with
      | Some i => if bool_decide (i ≠ 0)
                  then filter (λ m, StockMovement.product_id m = i) query
                  else query
      | None => query
      end in
    let query :=
      match start_date with
      | Some t => filter (λ m, t ≤ StockMovement.movement_date m) query
      | None => query
      end in
    let query :=
      match end_date with
      | Some t => filter (λ m, StockMovement.movement_date m ≤ t) query
      | None => query
      end in
    movement_report_row isoformat <$> query).

(** The movements [stock_movements_report] keeps. *)
Definition in_movement_report (product_id : option Z) (start_date end_date : option Z)
    (m : StockMovement.t) : bool :=
  match product_id with
  | Some i => bool_decide (i = 0) || bool_decide (StockMovement.product_id m = i)
  | None => true
  end
  && in_dates StockMovement.movement_date start_date end_date m.

Module SaleReport.
Record t := mk {
  id : Z;
  total : float;
  date : string;
  items : Z
}.
End SaleReport.

Definition sale_report_row (isoformat : Z → string) (sale_id : Z) (sale : Sale.t)
    (items : list SaleItem.t) : SaleReport.t :=
  SaleReport.mk sale_id (Sale.total_amount sale) (isoformat (Sale.created_at sale))
    (Z.of_nat (length items)).

Definition sales_report (isoformat : Z → string) (start_date end_date : option Z)
    : handler (list SaleReport.t) :=
  read (λ d,
    (λ kv : Z * Sale.t, sale_report_row isoformat kv.1 kv.2 (items_of_sale kv.1 d))
      <$> sales_between start_date end_date d).

(** ** The routes of the router, in the order of their decorators

    A path is the list of its segments below the prefix of the router.
    The routes are tried in order: the first whose pattern matches the
    path and whose method is that of the request handles it; when only
    patterns of other methods match, the answer is 405, and 404 when none
    does.  A parameter of a pattern matches any non-empty segment. *)

Inductive http_method : Type := GET | POST | PUT | DELETE.

#[global] Instance http_method_eq_dec : EqDecision http_method.
Proof. solve_decision. Defined.

Inductive segment : Type :=
  | Lit (s : string)
  | Param (name : string).

Inductive operation : Type :=
  | Op_create_product
  | Op_get_products
  | Op_get_product
  | Op_update_product
  | Op_delete_product
  | Op_create_stock_movement
  | Op_get_stock_movements
  | Op_create_sale
  | Op_get_sales
  | Op_get_sale
  | Op_create_purchase
  | Op_get_purchases
  | Op_get_purchase
  | Op_get_inventory_summary.

#[global] Instance operation_eq_dec : EqDecision operation.
Proof. solve_decision. Defined.

Definition router : list (http_method * list segment * operation) :=
  [ (POST, [], Op_create_product);
    (GET, [], Op_get_products);
    (GET, [Param "product_id"], Op_get_product);
    (PUT, [Param "product_id"], Op_update_product);
    (DELETE, [Param "product_id"], Op_delete_product);
    (POST, [Lit "stock-movements"], Op_create_stock_movement);
    (GET, [Lit "stock-movements"], Op_get_stock_movements);
    (POST, [Lit "sales"], Op_create_sale);
    (GET, [Lit "sales"], Op_get_sales);
    (GET, [Lit "sales"; Param "sale_id"], Op_get_sale);
    (POST, [Lit "purchases"], Op_create_purchase);
    (GET, [Lit "purchases"], Op_get_purchases);
    (GET, [Lit "purchases"; Param "purchase_id"], Op_get_purchase);
    (GET, [Lit "summary"], Op_get_inventory_summary) ].

Definition segment_matches (p : segment) (s : string) : bool :=
  match p with
  | Lit l => bool_decide (l = s)
  | Param _ => bool_decide (s ≠ "")
  end.

Fixpoint path_matches (pattern : list segment) (path : list string) : bool :=
  match pattern, path with
  | [], [] => true
  | p :: pattern, s :: path => segment_matches p s && path_matches pattern path
  | _, _ => false
  end.

Inductive dispatched : Type :=
  | Handled (op : operation)
  | MethodNotAllowed
  | NotFound.

Fixpoint dispatch_in (routes : list (http_method * list segment * operation))
    (partial : bool) (m : http_method) (path : list string) : dispatched :=
  match routes with
  | [] => if partial then MethodNotAllowed else NotFound
  | (m', pattern, op) :: routes =>
      if path_matches pattern path then
        if bool_decide (m' = m) then Handled op
        else dispatch_in routes true m path
      else dispatch_in routes partial m path
  end.

Definition dispatch (m : http_method) (path : list string) : dispatched :=
  dispatch_in router false m path.

(** ** All the requests that write

    The requests of the ledger and the deletion of a product, each by an
    authenticated user.  [delete_product] is behind [get_admin_user],
    a dependency, which FastAPI runs before it answers 422 for the
    parameters of the handler itself. *)

Inductive any_request : Type :=
  | Ledger (r : request)
  | DELETE_product (product_id : Z).

Definition endpoint_any (foreign_keys_enforced : bool) (r : any_request)
    (current_user : User.t) (now : Z) : handler unit :=
  match r with
  | Ledger r => endpoint r (User.id current_user) now
  | DELETE_product product_id =>
      match get_admin_user current_user with
      | Raise e => raise e
      | Ok _ =>
          validated (bool_decide (1 ≤ product_id))
            (discard (delete_product foreign_keys_enforced product_id))
      end
  end.

Definition serve_any (foreign_keys_enforced : bool) (d : DB)
    (call : any_request * User.t * Z) : DB :=
  let '(r, current_user, now) := call in
  (run (endpoint_any foreign_keys_enforced r current_user now) d).2.

Definition serve_any_all (foreign_keys_enforced : bool) (d : DB)
    (calls : list (any_request * User.t * Z)) : DB :=
  foldl (serve_any foreign_keys_enforced) d calls.

(** ** Invariants of the store *)

(** No two products share a name ([unique=True]). *)
Definition names_unique (d : DB) : Prop :=
  ∀ i j p q, products d !! i = Some p → products d !! j = Some q →
    Product.name p = Product.name q → i = j.

(** No product has a negative quantity. *)
Definition quantities_nonneg (d : DB) : Prop :=
  ∀ i p, products d !! i = Some p → 0 ≤ Product.quantity p.

(** Every line item belongs to a header ([ForeignKey('sales.id')],
    [ForeignKey('purchases.id')]). *)
Definition items_reference_headers (d : DB) : Prop :=
  (∀ r, r ∈ sale_items d → is_Some (sales d !! SaleItem.sale_id r))
  ∧ (∀ r, r ∈ purchase_items d → is_Some (purchases d !! PurchaseItem.purchase_id r)).

(** The lines of a purchase read as the lines of a sale of the same
    products and quantities. *)
Definition as_sale_lines (items : list PurchaseItemCreate.t) : list SaleItemCreate.t :=
  (λ it, SaleItemCreate.mk (PurchaseItemCreate.product_id it)
           (PurchaseItemCreate.quantity it)) <$> items.

(** The store [create_product] leaves when the name is free. *)
Definition create_product_db (product_data : ProductCreate.t) (u now : Z) (d : DB) : DB :=
  let i := next_key (products d) in
  mkDB (<[i := product_of product_data]> (products d))
    (stock_movements d ++
       if bool_decide (0 < ProductCreate.quantity product_data)
       then [initial_movement i (ProductCreate.quantity product_data) u now d]
       else [])
    (sales d) (sale_items d) (purchases d) (purchase_items d).

(** ** More stores for the worked instances

    A cashier and an administrator; the shop as a sequence of requests
    of the cashier; the shop after the sale of 2 A and 1 B, and after the
    purchase of 4 A. *)

Definition cashier : User.t := User.mk 7 "caja" "caja@example.com" CASHIER true.
Definition admin : User.t := User.mk 1 "admin" "admin@example.com" ADMIN true.

Definition shop_requests : list (any_request * User.t * Z) :=
  [(Ledger (POST_product product_A), cashier, 100);
   (Ledger (POST_product product_B), cashier, 101)].

Definition sold_requests : list (any_request * User.t * Z) :=
  shop_requests ++ [(Ledger (POST_sale sale_A2_B1), cashier, 102)].

Definition shop_A : DB := serve_all empty_db [(POST_product product_A, 7, 100)].
Definition shop_sold : DB := serve_all shop [(POST_sale sale_A2_B1, 7, 102)].
Definition shop_bought : DB := serve_all shop [(POST_purchase purchase_A4, 7, 102)].

(** The sale of what [purchase_A4] bought. *)
Definition sale_A4 : SaleCreate.t :=
  SaleCreate.mk None "efectivo" (as_sale_lines (PurchaseCreate.items purchase_A4)).

Definition delta_A_plus4 : StockMovementCreate.t :=
  StockMovementCreate.mk 1 4 "entrada" (Some "F-1") None.

Definition rename_to_B : ProductUpdate.t :=
  ProductUpdate.mk (Value "B") Unset Unset Unset.

Definition reprice : ProductUpdate.t :=
  ProductUpdate.mk (Value "A2") Unset (Value 12.5%float) Unset.

Definition null_quantity : ProductUpdate.t :=
  ProductUpdate.mk Unset Unset Unset Null.

(** * Properties *)

(** ** Keys *)

Lemma next_id_above (ids : list Z) (i : Z) : i ∈ ids → i < next_id ids.
Proof.
  unfold next_id. induction ids as [|j ids IH]; intros Hin.
  - by apply elem_of_nil in Hin.
  - apply elem_of_cons in Hin as [->|Hin]; simpl; [lia|].
    specialize (IH Hin). lia.
Qed.

Lemma next_key_fresh {A} (tbl : gmap Z A) : tbl !! next_key tbl = None.
Proof.
  destruct (tbl !! next_key tbl) as [x|] eqn:Hx; [|done].
  assert (next_key tbl ∈ (map_to_list tbl).*1) as Hin.
  { apply list_elem_of_fmap. exists (next_key tbl, x). split; [done|].
    by apply elem_of_map_to_list. }
  apply next_id_above in Hin. unfold next_key in Hin at 1. lia.
Qed.

(** ** One line of a sale or of a purchase: the equations of the loops *)

Lemma products_sale_line_db sale_id u now it product w :
  products (sale_line_db sale_id u now it product w)
  = <[SaleItemCreate.product_id it :=
        Product.set_quantity (Product.quantity product - SaleItemCreate.quantity it)
          product]> (products w).
Proof. reflexivity. Qed.

Lemma products_purchase_line_db purchase_id u now it product w :
  products (purchase_line_db purchase_id u now it product w)
  = <[PurchaseItemCreate.product_id it :=
        Product.set_quantity (Product.quantity product + PurchaseItemCreate.quantity it)
          product]> (products w).
Proof. reflexivity. Qed.

Lemma create_sale_items_cons sale_id u now it rest tot s :
  create_sale_items sale_id u now (it :: rest) tot s =
  match products (working s) !! SaleItemCreate.product_id it with
  | None =>
      (Raise (HTTPException HTTP_404_NOT_FOUND
                ("Producto con ID " +:+ py_str (SaleItemCreate.product_id it)
                   +:+ " no encontrado")),
       rolled_back s)
  | Some product =>
      if bool_decide (Product.quantity product < SaleItemCreate.quantity it) then
        (Raise (HTTPException HTTP_400_BAD_REQUEST
                  ("Stock insuficiente para el producto '" +:+ Product.name product
                     +:+ "'")),
         rolled_back s)
      else
        create_sale_items sale_id u now rest
          (PrimFloat.add tot
             (PrimFloat.mul (Product.price product)
                (py_float (SaleItemCreate.quantity it))))
          (mkSession (committed s) (sale_line_db sale_id u now it product (working s))
             (commit_log s))
  end.
Proof.
  cbn [create_sale_items]. unfold bind at 1, query_product, read.
  destruct (products (working s) !! SaleItemCreate.product_id it) as [product|];
    [|reflexivity].
  case_bool_decide; reflexivity.
Qed.

Lemma create_purchase_items_cons purchase_id u now it rest tot s :
  create_purchase_items purchase_id u now (it :: rest) tot s =
  match products (working s) !! PurchaseItemCreate.product_id it with
  | None =>
      (Raise (HTTPException HTTP_404_NOT_FOUND
                ("Producto con ID " +:+ py_str (PurchaseItemCreate.product_id it)
                   +:+ " no encontrado")),
       rolled_back s)
  | Some product =>
      if float_overflows (PurchaseItemCreate.quantity it) then (Raise OverflowError, s)
      else
        create_purchase_items purchase_id u now rest
          (PrimFloat.add tot
             (PrimFloat.mul (PurchaseItemCreate.unit_price it)
                (py_float (PurchaseItemCreate.quantity it))))
          (mkSession (committed s)
             (purchase_line_db purchase_id u now it product (working s))
             (commit_log s))
  end.
Proof.
  cbn [create_purchase_items]. unfold bind at 1, query_product, read.
  destruct (products (working s) !! PurchaseItemCreate.product_id it) as [product|];
    [|reflexivity].
  destruct (float_overflows (PurchaseItemCreate.quantity it)); reflexivity.
Qed.

(** ** The loop of [create_sale] *)

Lemma sold_cons i it items :
  sold i (it :: items) =
  (if bool_decide (SaleItemCreate.product_id it = i) then SaleItemCreate.quantity it else 0)
  + sold i items.
Proof.
  unfold sold. rewrite filter_cons.
  case_bool_decide; case_decide; try done; simpl; lia.
Qed.

Lemma sold_nonneg i items :
  forallb SaleItemCreate.valid items = true → 0 ≤ sold i items.
Proof.
  induction items as [|it items IH]; [done|].
  simpl. intros [Hv Hvs]%andb_prop. rewrite sold_cons. specialize (IH Hvs).
  unfold SaleItemCreate.valid in Hv. apply bool_decide_eq_true in Hv.
  case_bool_decide; lia.
Qed.

Lemma create_sale_items_session sale_id u now items : ∀ tot s r s',
  create_sale_items sale_id u now items tot s = (r, s') →
  committed s' = committed s ∧ commit_log s' = commit_log s
  ∧ (∀ e, r = Raise e → working s' = committed s).
Proof.
  induction items as [|it rest IH]; intros tot s r s' Hrun.
  - injection Hrun as <- <-. done.
  - rewrite create_sale_items_cons in Hrun.
    destruct (products (working s) !! SaleItemCreate.product_id it) as [product|].
    + case_bool_decide.
      * injection Hrun as <- <-. done.
      * apply IH in Hrun. done.
    + injection Hrun as <- <-. done.
Qed.

Lemma create_sale_items_ok sale_id u now items : ∀ tot s tot' s',
  create_sale_items sale_id u now items tot s = (Ok tot', s') →
  sales (working s') = sales (working s)
  ∧ purchases (working s') = purchases (working s)
  ∧ purchase_items (working s') = purchase_items (working s)
  ∧ (∀ i, products (working s') !! i
          = (λ p, Product.set_quantity (Product.quantity p - sold i items) p)
              <$> products (working s) !! i)
  ∧ ∃ new_items new_movements,
      sale_items (working s') = sale_items (working s) ++ new_items
      ∧ stock_movements (working s') = stock_movements (working s) ++ new_movements
      ∧ Forall2 (sale_line_item sale_id (working s)) items new_items
      ∧ Forall2 (sale_line_movement sale_id u now) items new_movements
      ∧ tot' = foldl PrimFloat.add tot (SaleItem.subtotal <$> new_items).
Proof.
  induction items as [|it rest IH]; intros tot s tot' s' Hrun.
  - injection Hrun as <- <-. repeat split; try done.
    + intros i. destruct (products (working s) !! i) as [[]|]; simpl; [|done].
      unfold Product.set_quantity, sold. simpl. do 2 f_equal. lia.
    + exists [], []. rewrite !app_nil_r. repeat split; constructor.
  - rewrite create_sale_items_cons in Hrun.
    destruct (products (working s) !! SaleItemCreate.product_id it) as [product|] eqn:Hp;
      [|done].
    case_bool_decide as Hq; [done|].
    apply IH in Hrun as (Hs & Hpu & Hpi & Hprod & new_items & new_movs
                         & Hitems & Hmovs & Hfi & Hfm & Htot).
    simpl in *. repeat split; try done.
    + intros i. rewrite Hprod, sold_cons.
      destruct (decide (SaleItemCreate.product_id it = i)) as [<-|Hne].
      * rewrite lookup_insert_eq, Hp, bool_decide_true by done. simpl.
        unfold Product.set_quantity. simpl. do 2 f_equal. lia.
      * rewrite lookup_insert_ne, bool_decide_false by done.
        destruct (products (working s) !! i) as [p|]; simpl; [|done].
        do 2 f_equal.
    + eexists (_ :: new_items), (_ :: new_movs).
      rewrite Hitems, Hmovs, <- !app_assoc. simpl.
      split; [reflexivity|]. split; [reflexivity|].
      split; [|split].
      * constructor.
        { repeat split; try done. exists product. done. }
        eapply Forall2_impl; [exact Hfi|].
        intros it' row (H1 & H2 & H3 & p & Hl & H4 & H5).
        repeat split; try done.
        destruct (decide (SaleItemCreate.product_id it = SaleItemCreate.product_id it'))
          as [Heq|Hne].
        { rewrite products_sale_line_db, <- Heq, lookup_insert_eq in Hl.
          injection Hl as <-. rewrite <- Heq. exists product. done. }
        { rewrite products_sale_line_db, lookup_insert_ne in Hl by done.
          exists p. done. }
      * constructor; [done|exact Hfm].
      * exact Htot.
Qed.

Lemma sold_absent i items :
  Forall (λ it, SaleItemCreate.product_id it ≠ i) items → sold i items = 0.
Proof.
  induction 1 as [|it items Hne _ IH]; [done|].
  rewrite sold_cons, bool_decide_false by done. lia.
Qed.

Lemma create_sale_items_succeeds sale_id u now items :
  forallb SaleItemCreate.valid items = true →
  ∀ tot s,
    (∃ tot' s', create_sale_items sale_id u now items tot s = (Ok tot', s'))
    ↔ can_sell (working s) items.
Proof.
  induction items as [|it rest IH]; intros Hvalid tot s.
  - split; [|by eexists _, _]. by intros _ it ?%elem_of_nil.
  - simpl in Hvalid. apply andb_prop in Hvalid as [Hv Hvs].
    specialize (IH Hvs).
    unfold SaleItemCreate.valid in Hv. apply bool_decide_eq_true in Hv.
    rewrite create_sale_items_cons. split.
    + intros (tot' & s' & Hrun).
      destruct (products (working s) !! SaleItemCreate.product_id it)
        as [product|] eqn:Hp; [|done].
      case_bool_decide as Hq; [done|].
      pose proof (proj1 (IH _ _) (ex_intro _ _ (ex_intro _ _ Hrun))) as Hrest.
      simpl in Hrest.
      assert (sold (SaleItemCreate.product_id it) rest
              ≤ Product.quantity product - SaleItemCreate.quantity it) as Hsold.
      { destruct (decide (Exists (λ it', SaleItemCreate.product_id it'
                                          = SaleItemCreate.product_id it) rest))
          as [Hex|Hnex].
        - apply Exists_exists in Hex as (it' & Hin & Heq).
          destruct (Hrest it' Hin) as (p & Hl & Hle).
          rewrite products_sale_line_db, Heq, lookup_insert_eq in Hl.
          injection Hl as <-. rewrite Heq in Hle. exact Hle.
        - apply not_Exists_Forall in Hnex; [|intros ?; apply _].
          rewrite sold_absent; [lia|].
          eapply Forall_impl; [exact Hnex|]. simpl. intros ? ?. done. }
      intros it' [->|Hin]%elem_of_cons.
      * exists product. split; [done|].
        rewrite sold_cons, bool_decide_true by done. lia.
      * destruct (Hrest it' Hin) as (p & Hl & Hle).
        rewrite products_sale_line_db in Hl. rewrite sold_cons.
        destruct (decide (SaleItemCreate.product_id it = SaleItemCreate.product_id it'))
          as [Heq|Hne].
        { rewrite <- Heq. exists product. split; [done|].
          rewrite bool_decide_true by done. lia. }
        { rewrite lookup_insert_ne in Hl by done. exists p. split; [done|].
          rewrite bool_decide_false by done. lia. }
    + intros Hcan.
      destruct (Hcan it) as (product & Hp & Hle); [by left|].
      rewrite Hp. rewrite sold_cons, bool_decide_true in Hle by done.
      pose proof (sold_nonneg (SaleItemCreate.product_id it) rest Hvs).
      rewrite bool_decide_false by lia.
      apply IH. simpl. intros it' Hin.
      destruct (Hcan it') as (p & Hl & Hle'); [by right|].
      rewrite products_sale_line_db. rewrite sold_cons in Hle'.
      destruct (decide (SaleItemCreate.product_id it = SaleItemCreate.product_id it'))
        as [Heq|Hne].
      * rewrite <- Heq in *. rewrite lookup_insert_eq.
        rewrite bool_decide_true in Hle' by done.
        assert (p = product) as -> by congruence.
        eexists. split; [done|]. simpl. lia.
      * rewrite lookup_insert_ne by done. rewrite bool_decide_false in Hle' by done.
        exists p. split; [done|lia].
Qed.

(** ** [create_sale] as a whole *)

Lemma create_sale_unfold sale_data u now s :
  SaleCreate.items sale_data ≠ [] →
  create_sale sale_data u now s =
  let sale_id := next_key (sales (working s)) in
  match create_sale_items sale_id u now (SaleCreate.items sale_data) (py_float 0)
          (sale_started sale_data u now s) with
  | (Ok total, s1) =>
      let w := set_sales (<[sale_id := sale_header sale_data u now total]>
                            (sales (working s1))) (working s1) in
      (Ok (sale_id, sale_header sale_data u now total),
       mkSession w w (commit_log s1 ++ [w]))
  | (Raise e, s1) => (Raise e, s1)
  end.
Proof.
  intros Hne. unfold create_sale, sale_started.
  destruct (SaleCreate.items sale_data) as [|it rest]; [done|].
  clear Hne. generalize (it :: rest). intros items.
  unfold bind, add_sale, read, write, ret, flush, commit. simpl.
  destruct (create_sale_items _ _ _ _ _ _) as [[total|e] s1]; reflexivity.
Qed.

Lemma create_sale_raise sale_data u now d e d' :
  run (create_sale sale_data u now) d = (Raise e, d') →
  d' = d ∧ commits (create_sale sale_data u now) d = [].
Proof.
  unfold run, commits.
  destruct (decide (SaleCreate.items sale_data = [])) as [Hnil|Hne].
  - unfold create_sale. rewrite Hnil. simpl. intros [= <- <-]. done.
  - rewrite create_sale_unfold by done. simpl.
    destruct (create_sale_items _ _ _ _ _ _) as [[total|e0] s1] eqn:Hloop; [done|].
    apply create_sale_items_session in Hloop as (Hc & Hl & _).
    simpl in *. intros [= <- <-]. done.
Qed.

Lemma create_sale_ok sale_data u now d sale_id sale d' :
  run (create_sale sale_data u now) d = (Ok (sale_id, sale), d') →
  SaleCreate.items sale_data ≠ []
  ∧ sale_id = next_key (sales d)
  ∧ sales d' = <[sale_id := sale]> (sales d)
  ∧ purchases d' = purchases d
  ∧ purchase_items d' = purchase_items d
  ∧ (∀ i, products d' !! i
          = (λ p, Product.set_quantity
                    (Product.quantity p - sold i (SaleCreate.items sale_data)) p)
              <$> products d !! i)
  ∧ commits (create_sale sale_data u now) d = [d']
  ∧ ∃ new_items new_movements,
      sale_items d' = sale_items d ++ new_items
      ∧ stock_movements d' = stock_movements d ++ new_movements
      ∧ Forall2 (sale_line_item sale_id d) (SaleCreate.items sale_data) new_items
      ∧ Forall2 (sale_line_movement sale_id u now) (SaleCreate.items sale_data)
          new_movements
      ∧ sale = sale_header sale_data u now
                 (foldl PrimFloat.add (py_float 0) (SaleItem.subtotal <$> new_items)).
Proof.
  unfold run, commits.
  destruct (decide (SaleCreate.items sale_data = [])) as [Hnil|Hne].
  { unfold create_sale. rewrite Hnil. done. }
  rewrite create_sale_unfold by done. simpl.
  destruct (create_sale_items _ _ _ _ _ _) as [[total|e0] s1] eqn:Hloop; [|done].
  pose proof (create_sale_items_session _ _ _ _ _ _ _ _ Hloop) as (Hc & Hl & _).
  apply create_sale_items_ok in Hloop
    as (Hs & Hpu & Hpi & Hprod & new_items & new_movs & Hitems & Hmovs & Hfi & Hfm & Htot).
  simpl in *. intros [= <- <- <-]. simpl.
  split; [done|]. split; [done|].
  split; [by rewrite Hs, insert_insert_eq|].
  repeat (split; [done|]).
  split; [by rewrite Hl|].
  exists new_items, new_movs. repeat (split; [done|]). by rewrite Htot.
Qed.

Lemma create_sale_succeeds sale_data u now d :
  SaleCreate.valid sale_data = true →
  (∃ r d', run (create_sale sale_data u now) d = (Ok r, d'))
  ↔ SaleCreate.items sale_data ≠ [] ∧ can_sell d (SaleCreate.items sale_data).
Proof.
  intros [_ Hvalid]%andb_prop. split.
  - intros ([sale_id sale] & d' & Hrun).
    pose proof (create_sale_ok _ _ _ _ _ _ _ Hrun) as (Hne & _).
    split; [done|]. unfold run in Hrun.
    rewrite create_sale_unfold in Hrun by done. simpl in Hrun.
    destruct (create_sale_items _ _ _ _ _ _) as [[total|e0] s1] eqn:Hloop; [|done].
    pose proof (proj1 (create_sale_items_succeeds _ _ _ _ Hvalid _ _)
                  (ex_intro _ _ (ex_intro _ _ Hloop))) as Hcan.
    exact Hcan.
  - intros [Hne Hcan]. unfold run. rewrite create_sale_unfold by done. simpl.
    destruct (proj2 (create_sale_items_succeeds (next_key (sales d)) u now _ Hvalid
                       (py_float 0) (sale_started sale_data u now (get_db d))) Hcan)
      as (total & s1 & Hloop).
    simpl in Hloop. rewrite Hloop. by eexists _, _.
Qed.

(** The loop on two lists in a row. *)
Lemma create_sale_items_app sale_id u now pre post : ∀ tot s,
  create_sale_items sale_id u now (pre ++ post) tot s =
  match create_sale_items sale_id u now pre tot s with
  | (Ok tot1, s1) => create_sale_items sale_id u now post tot1 s1
  | (Raise e, s1) => (Raise e, s1)
  end.
Proof.
  induction pre as [|it pre IH]; intros tot s; [done|].
  rewrite <- app_comm_cons, !create_sale_items_cons.
  destruct (products (working s) !! SaleItemCreate.product_id it) as [product|]; [|done].
  case_bool_decide; [done|]. apply IH.
Qed.

Lemma create_sale_items_raise sale_id u now items : ∀ tot s e s',
  create_sale_items sale_id u now items tot s = (Raise e, s') →
  (not_found e
   ∧ ∃ it, it ∈ items ∧ products (working s) !! SaleItemCreate.product_id it = None)
  ∨ insufficient_stock e.
Proof.
  induction items as [|it rest IH]; intros tot s e s' Hrun; [done|].
  rewrite create_sale_items_cons in Hrun.
  destruct (products (working s) !! SaleItemCreate.product_id it) as [product|] eqn:Hp.
  - case_bool_decide.
    + injection Hrun as <- <-. right. by eexists.
    + apply IH in Hrun as [(Hnf & it' & Hin & Hnone)|Hins]; [|by right].
      left. split; [done|]. exists it'. split; [by right|].
      simpl in Hnone.
      apply lookup_insert_None in Hnone as [Hnone _]. exact Hnone.
  - injection Hrun as <- <-. left. split; [by eexists|].
    exists it. split; [by left|done].
Qed.

(** ** The loop of [create_purchase] *)

Lemma bought_cons i it items :
  bought i (it :: items) =
  (if bool_decide (PurchaseItemCreate.product_id it = i)
   then PurchaseItemCreate.quantity it else 0)
  + bought i items.
Proof.
  unfold bought. rewrite filter_cons.
  case_bool_decide; case_decide; try done; simpl; lia.
Qed.

Lemma create_purchase_items_session purchase_id u now items : ∀ tot s r s',
  create_purchase_items purchase_id u now items tot s = (r, s') →
  committed s' = committed s ∧ commit_log s' = commit_log s.
Proof.
  induction items as [|it rest IH]; intros tot s r s' Hrun.
  - injection Hrun as <- <-. done.
  - rewrite create_purchase_items_cons in Hrun.
    destruct (products (working s) !! PurchaseItemCreate.product_id it) as [product|].
    + destruct (float_overflows (PurchaseItemCreate.quantity it)).
      * injection Hrun as <- <-. done.
      * apply IH in Hrun. done.
    + injection Hrun as <- <-. done.
Qed.

Lemma create_purchase_items_ok purchase_id u now items : ∀ tot s tot' s',
  create_purchase_items purchase_id u now items tot s = (Ok tot', s') →
  sales (working s') = sales (working s)
  ∧ purchases (working s') = purchases (working s)
  ∧ sale_items (working s') = sale_items (working s)
  ∧ (∀ i, products (working s') !! i
          = (λ p, Product.set_quantity (Product.quantity p + bought i items) p)
              <$> products (working s) !! i)
  ∧ ∃ new_items new_movements,
      purchase_items (working s') = purchase_items (working s) ++ new_items
      ∧ stock_movements (working s') = stock_movements (working s) ++ new_movements
      ∧ Forall2 (purchase_line_item purchase_id) items new_items
      ∧ Forall2 (purchase_line_movement purchase_id u now) items new_movements
      ∧ tot' = foldl PrimFloat.add tot (PurchaseItem.subtotal <$> new_items).
Proof.
  induction items as [|it rest IH]; intros tot s tot' s' Hrun.
  - injection Hrun as <- <-. repeat split; try done.
    + intros i. destruct (products (working s) !! i) as [[]|]; simpl; [|done].
      unfold Product.set_quantity, bought. simpl. do 2 f_equal. lia.
    + exists [], []. rewrite !app_nil_r. repeat split; constructor.
  - rewrite create_purchase_items_cons in Hrun.
    destruct (products (working s) !! PurchaseItemCreate.product_id it)
      as [product|] eqn:Hp; [|done].
    destruct (float_overflows (PurchaseItemCreate.quantity it)); [done|].
    apply IH in Hrun as (Hs & Hpu & Hsi & Hprod & new_items & new_movs
                         & Hitems & Hmovs & Hfi & Hfm & Htot).
    simpl in *. repeat split; try done.
    + intros i. rewrite Hprod, bought_cons.
      destruct (decide (PurchaseItemCreate.product_id it = i)) as [<-|Hne].
      * rewrite lookup_insert_eq, Hp, bool_decide_true by done. simpl.
        unfold Product.set_quantity. simpl. do 2 f_equal. lia.
      * rewrite lookup_insert_ne, bool_decide_false by done.
        destruct (products (working s) !! i) as [p|]; simpl; [|done].
        do 2 f_equal.
    + eexists (_ :: new_items), (_ :: new_movs).
      rewrite Hitems, Hmovs, <- !app_assoc. simpl.
      split; [reflexivity|]. split; [reflexivity|].
      split; [|split].
      * constructor; [done|exact Hfi].
      * constructor; [done|exact Hfm].
      * exact Htot.
Qed.

Lemma create_purchase_items_succeeds purchase_id u now items : ∀ tot s,
  (∃ tot' s', create_purchase_items purchase_id u now items tot s = (Ok tot', s'))
  ↔ ∀ it, it ∈ items →
      is_Some (products (working s) !! PurchaseItemCreate.product_id it)
      ∧ float_overflows (PurchaseItemCreate.quantity it) = false.
Proof.
  induction items as [|it rest IH]; intros tot s.
  - split; [|by eexists _, _]. by intros _ it ?%elem_of_nil.
  - rewrite create_purchase_items_cons. split.
    + intros (tot' & s' & Hrun).
      destruct (products (working s) !! PurchaseItemCreate.product_id it)
        as [product|] eqn:Hp; [|done].
      destruct (float_overflows (PurchaseItemCreate.quantity it)) eqn:Hfit; [done|].
      pose proof (proj1 (IH _ _) (ex_intro _ _ (ex_intro _ _ Hrun))) as Hrest.
      simpl in Hrest.
      intros it' [->|Hin]%elem_of_cons; [by rewrite Hp|].
      destruct (Hrest it' Hin) as [Hsome Hfit']. split; [|done].
      apply lookup_insert_is_Some in Hsome as [<-|[_ ?]]; [by rewrite Hp|done].
    + intros Hall. destruct (Hall it) as [[product Hp] Hfit]; [by left|].
      rewrite Hp, Hfit. apply IH. simpl. intros it' Hin.
      destruct (Hall it') as [Hsome Hfit']; [by right|]. split; [|done].
      apply lookup_insert_is_Some'. by right.
Qed.

Lemma create_purchase_items_raise purchase_id u now items : ∀ tot s e s',
  create_purchase_items purchase_id u now items tot s = (Raise e, s') →
  e = OverflowError
  ∨ (not_found e
     ∧ ∃ it, it ∈ items
             ∧ products (working s) !! PurchaseItemCreate.product_id it = None).
Proof.
  induction items as [|it rest IH]; intros tot s e s' Hrun; [done|].
  rewrite create_purchase_items_cons in Hrun.
  destruct (products (working s) !! PurchaseItemCreate.product_id it) as [product|] eqn:Hp.
  - destruct (float_overflows (PurchaseItemCreate.quantity it)).
    + injection Hrun as <- _. by left.
    + apply IH in Hrun as [->|(Hnf & it' & Hin & Hnone)]; [by left|].
      right. split; [done|]. exists it'. split; [by right|].
      simpl in Hnone. apply lookup_insert_None in Hnone as [Hnone _]. exact Hnone.
  - injection Hrun as <- _. right. split; [by eexists|].
    exists it. split; [by left|done].
Qed.

(** ** [create_purchase] as a whole *)

Lemma create_purchase_unfold purchase_data u now s :
  PurchaseCreate.items purchase_data ≠ [] →
  create_purchase purchase_data u now s =
  let purchase_id := next_key (purchases (working s)) in
  match create_purchase_items purchase_id u now (PurchaseCreate.items purchase_data)
          (py_float 0) (purchase_started purchase_data u now s) with
  | (Ok total, s1) =>
      let w := set_purchases (<[purchase_id := purchase_header purchase_data u now total]>
                                (purchases (working s1))) (working s1) in
      (Ok (purchase_id, purchase_header purchase_data u now total),
       mkSession w w (commit_log s1 ++ [w]))
  | (Raise e, s1) => (Raise e, s1)
  end.
Proof.
  intros Hne. unfold create_purchase, purchase_started.
  destruct (PurchaseCreate.items purchase_data) as [|it rest]; [done|].
  clear Hne. generalize (it :: rest). intros items.
  unfold bind, add_purchase, read, write, ret, flush, commit. simpl.
  destruct (create_purchase_items _ _ _ _ _ _) as [[total|e] s1]; reflexivity.
Qed.

Lemma create_purchase_raise purchase_data u now d e d' :
  run (create_purchase purchase_data u now) d = (Raise e, d') →
  d' = d ∧ commits (create_purchase purchase_data u now) d = [].
Proof.
  unfold run, commits.
  destruct (decide (PurchaseCreate.items purchase_data = [])) as [Hnil|Hne].
  - unfold create_purchase. rewrite Hnil. simpl. intros [= <- <-]. done.
  - rewrite create_purchase_unfold by done. simpl.
    destruct (create_purchase_items _ _ _ _ _ _) as [[total|e0] s1] eqn:Hloop; [done|].
    apply create_purchase_items_session in Hloop as (Hc & Hl).
    simpl in *. intros [= <- <-]. done.
Qed.

Lemma create_purchase_ok purchase_data u now d purchase_id purchase d' :
  run (create_purchase purchase_data u now) d = (Ok (purchase_id, purchase), d') →
  PurchaseCreate.items purchase_data ≠ []
  ∧ (∀ it, it ∈ PurchaseCreate.items purchase_data →
       is_Some (products d !! PurchaseItemCreate.product_id it)
       ∧ float_overflows (PurchaseItemCreate.quantity it) = false)
  ∧ purchase_id = next_key (purchases d)
  ∧ purchases d' = <[purchase_id := purchase]> (purchases d)
  ∧ sales d' = sales d
  ∧ sale_items d' = sale_items d
  ∧ (∀ i, products d' !! i
          = (λ p, Product.set_quantity
                    (Product.quantity p + bought i (PurchaseCreate.items purchase_data)) p)
              <$> products d !! i)
  ∧ commits (create_purchase purchase_data u now) d = [d']
  ∧ ∃ new_items new_movements,
      purchase_items d' = purchase_items d ++ new_items
      ∧ stock_movements d' = stock_movements d ++ new_movements
      ∧ Forall2 (purchase_line_item purchase_id) (PurchaseCreate.items purchase_data)
          new_items
      ∧ Forall2 (purchase_line_movement purchase_id u now)
          (PurchaseCreate.items purchase_data) new_movements
      ∧ purchase = purchase_header purchase_data u now
                     (foldl PrimFloat.add (py_float 0)
                        (PurchaseItem.subtotal <$> new_items)).
Proof.
  unfold run, commits.
  destruct (decide (PurchaseCreate.items purchase_data = [])) as [Hnil|Hne].
  { unfold create_purchase. rewrite Hnil. done. }
  rewrite create_purchase_unfold by done. simpl.
  destruct (create_purchase_items _ _ _ _ _ _) as [[total|e0] s1] eqn:Hloop; [|done].
  pose proof (create_purchase_items_session _ _ _ _ _ _ _ _ Hloop) as (Hc & Hl).
  pose proof (proj1 (create_purchase_items_succeeds _ _ _ _ _ _)
                (ex_intro _ _ (ex_intro _ _ Hloop))) as Hall.
  apply create_purchase_items_ok in Hloop
    as (Hs & Hpu & Hsi & Hprod & new_items & new_movs & Hitems & Hmovs & Hfi & Hfm & Htot).
  simpl in *. intros [= <- <- <-]. simpl.
  split; [done|]. split; [done|]. split; [done|].
  split; [by rewrite Hpu, insert_insert_eq|].
  repeat (split; [done|]).
  split; [by rewrite Hl|].
  exists new_items, new_movs. repeat (split; [done|]). by rewrite Htot.
Qed.

(** ** The single-row handlers, unfolded *)

Lemma create_stock_movement_unfold movement_data u now s :
  create_stock_movement movement_data u now s =
  match products (working s) !! StockMovementCreate.product_id movement_data with
  | None => (Raise (HTTPException HTTP_404_NOT_FOUND "Producto no encontrado"), s)
  | Some product =>
      if bool_decide (StockMovementCreate.quantity_change movement_data < 0)
         && bool_decide (Product.quantity product
                         + StockMovementCreate.quantity_change movement_data < 0)
      then (Raise (HTTPException HTTP_400_BAD_REQUEST
                     "No hay suficiente stock para realizar esta operación"), s)
      else
        let w := stock_movement_db movement_data u now product (working s) in
        (Ok (stock_movement_row movement_data u now (working s)),
         mkSession w w (commit_log s ++ [w]))
  end.
Proof.
  unfold create_stock_movement. unfold bind at 1, query_product, read.
  destruct (products (working s) !! StockMovementCreate.product_id movement_data)
    as [product|]; [|reflexivity].
  destruct (bool_decide _ && bool_decide _); reflexivity.
Qed.

Lemma create_product_unfold product_data u now s :
  create_product product_data u now s =
  if name_taken (ProductCreate.name product_data) (working s) then
    (Raise (HTTPException HTTP_400_BAD_REQUEST "Ya existe un producto con ese nombre"), s)
  else
    let i := next_key (products (working s)) in
    let w1 := set_products (<[i := product_of product_data]> (products (working s)))
                (working s) in
    if bool_decide (0 < ProductCreate.quantity product_data) then
      let w2 := set_stock_movements
                  (stock_movements w1
                     ++ [initial_movement i (ProductCreate.quantity product_data) u now w1])
                  w1 in
      (Ok (i, product_of product_data), mkSession w2 w2 (commit_log s ++ [w1; w2]))
    else
      (Ok (i, product_of product_data), mkSession w1 w1 (commit_log s ++ [w1])).
Proof.
  unfold create_product, name_taken. unfold bind at 1, query_product_by_name, read.
  destruct (head _) as [kp|]; simpl; [reflexivity|].
  - case_bool_decide; unfold bind, add_product, read, write, ret, commit,
      add_stock_movement; simpl; rewrite <- ?app_assoc; reflexivity.
Qed.

Lemma update_product_unfold product_id product_data u now s :
  update_product product_id product_data u now s =
  match products (working s) !! product_id with
  | None => (Raise (HTTPException HTTP_404_NOT_FOUND "Producto no encontrado"), s)
  | Some product =>
      if rename_refused product_data product (working s) then
        (Raise (HTTPException HTTP_400_BAD_REQUEST "Ya existe un producto con ese nombre"),
         s)
      else
        let w := update_product_db product_id product_data product u now (working s) in
        match ProductUpdate.quantity product_data with
        | Null => (Raise TypeError, mkSession (committed s) w (commit_log s))
        | _ => if violates_not_null product_data
               then (Raise IntegrityError, mkSession (committed s) w (commit_log s))
               else (Ok (setattr_all product_data product),
                     mkSession w w (commit_log s ++ [w]))
        end
  end.
Proof.
  unfold update_product, rename_refused, name_taken, update_product_db,
    adjustment_movements.
  unfold bind, query_product, query_product_by_name, read, write, ret, raise, commit,
    update_product_row, add_stock_movement.
  destruct (products (working s) !! product_id) as [product|]; [|reflexivity].
  assert (∀ new_quantity,
    bool_decide (new_quantity - Product.quantity product ≠ 0)
    = bool_decide (new_quantity ≠ Product.quantity product)) as Hdelta.
  { intros. apply bool_decide_ext. lia. }
  destruct (truthy_str (ProductUpdate.name product_data)) as [n|];
    [case_bool_decide; simpl; [destruct (head _); simpl; [reflexivity|]|]|];
    (destruct (ProductUpdate.quantity product_data) as [| |new_quantity]; simpl;
     [ destruct (violates_not_null product_data); simpl; rewrite ?app_nil_r; reflexivity
     | rewrite ?app_nil_r; reflexivity
     | rewrite Hdelta; case_bool_decide;
       destruct (violates_not_null product_data); simpl; rewrite ?app_nil_r;
       reflexivity ]).
Qed.

(** ** The ledger invariant *)

Lemma msum_cons i m l :
  msum i (m :: l) =
  (if bool_decide (StockMovement.product_id m = i)
   then StockMovement.quantity_change m else 0) + msum i l.
Proof.
  unfold msum. rewrite filter_cons.
  case_bool_decide; case_decide; try done; simpl; lia.
Qed.

Lemma msum_app i l1 l2 : msum i (l1 ++ l2) = msum i l1 + msum i l2.
Proof.
  induction l1 as [|m l1 IH]; [done|].
  rewrite <- app_comm_cons, !msum_cons, IH. lia.
Qed.

Lemma msum_absent i l :
  (∀ m, m ∈ l → StockMovement.product_id m ≠ i) → msum i l = 0.
Proof.
  induction l as [|m l IH]; intros Hall; [done|].
  rewrite msum_cons, bool_decide_false, IH; [lia| |].
  - intros m' Hin. apply Hall. by right.
  - apply Hall. by left.
Qed.

Lemma movement_sum_msum i d : movement_sum i d = msum i (stock_movements d).
Proof. reflexivity. Qed.

Lemma msum_sale_lines sale_id u now i items new_movements :
  Forall2 (sale_line_movement sale_id u now) items new_movements →
  msum i new_movements = - sold i items.
Proof.
  induction 1 as [|it m items movs (Hpid & Hqc & _) _ IH]; [done|].
  rewrite msum_cons, sold_cons, IH, Hpid, Hqc. case_bool_decide; lia.
Qed.

Lemma msum_purchase_lines purchase_id u now i items new_movements :
  Forall2 (purchase_line_movement purchase_id u now) items new_movements →
  msum i new_movements = bought i items.
Proof.
  induction 1 as [|it m items movs (Hpid & Hqc & _) _ IH]; [done|].
  rewrite msum_cons, bought_cons, IH, Hpid, Hqc. case_bool_decide; lia.
Qed.

(** A step of the ledger: movements [new] are appended, every product
    that was there moves by the sum of its new movements, and a product
    that was not there starts at that sum. *)
Lemma ledger_step d d' new :
  ledger_invariant d →
  stock_movements d' = stock_movements d ++ new →
  (∀ i p', products d' !! i = Some p' →
     match products d !! i with
     | Some p => Product.quantity p' = Product.quantity p + msum i new
     | None => Product.quantity p' = msum i new
     end) →
  (∀ i, is_Some (products d !! i) → is_Some (products d' !! i)) →
  (∀ m, m ∈ new → is_Some (products d' !! StockMovement.product_id m)) →
  ledger_invariant d'.
Proof.
  intros [Hq Hfk] Hmovs Hprod Hkeep Hnew. split.
  - intros i p' Hp'. rewrite movement_sum_msum, Hmovs, msum_app.
    specialize (Hprod i p' Hp').
    destruct (products d !! i) as [p|] eqn:Hp.
    + rewrite Hprod, (Hq i p Hp). reflexivity.
    + rewrite Hprod, (msum_absent i (stock_movements d)); [lia|].
      intros m Hin Heq. apply Hfk in Hin. rewrite Heq, Hp in Hin. by destruct Hin.
  - intros m. rewrite Hmovs. intros [Hin|Hin]%elem_of_app; [|by apply Hnew].
    apply Hkeep, Hfk, Hin.
Qed.

Lemma ledger_invariant_empty : ledger_invariant empty_db.
Proof.
  split.
  - intros i p Hp. unfold empty_db in Hp. simpl in Hp.
    rewrite ?lookup_empty in Hp. done.
  - intros m Hin. by apply elem_of_nil in Hin.
Qed.

Lemma create_product_invariant product_data u now d :
  ProductCreate.valid product_data = true →
  ledger_invariant d →
  ledger_invariant (run (create_product product_data u now) d).2.
Proof.
  intros Hvalid Hinv. unfold run. rewrite create_product_unfold.
  destruct (name_taken _ _); [done|]. simpl.
  unfold ProductCreate.valid in Hvalid.
  apply andb_prop in Hvalid as [_ Hq%bool_decide_eq_true].
  pose proof (next_key_fresh (products d)) as Hfresh.
  case_bool_decide as Hpos; simpl.
  - eapply ledger_step; [exact Hinv|reflexivity| | |]; simpl.
    + intros i p'. destruct (decide (next_key (products d) = i)) as [<-|Hne].
      * rewrite lookup_insert_eq, Hfresh. intros [= <-].
        rewrite msum_cons, bool_decide_true by done. simpl. unfold msum. simpl. lia.
      * rewrite lookup_insert_ne by done. intros Hp. rewrite Hp.
        rewrite msum_cons, bool_decide_false by done. unfold msum. simpl. lia.
    + intros i Hi. apply lookup_insert_is_Some'. by right.
    + intros m ->%list_elem_of_singleton. simpl. by rewrite lookup_insert_eq.
  - eapply (ledger_step d _ []); [exact Hinv|by rewrite app_nil_r| | |]; simpl.
    + intros i p'. destruct (decide (next_key (products d) = i)) as [<-|Hne].
      * rewrite lookup_insert_eq, Hfresh. intros [= <-]. simpl. unfold msum. simpl. lia.
      * rewrite lookup_insert_ne by done. intros Hp. rewrite Hp. unfold msum. simpl. lia.
    + intros i Hi. apply lookup_insert_is_Some'. by right.
    + by intros m ?%elem_of_nil.
Qed.

Lemma quantity_setattr_all product_data product :
  Product.quantity (setattr_all product_data product) =
  match ProductUpdate.quantity product_data with
  | Value v => v
  | _ => Product.quantity product
  end.
Proof.
  unfold setattr_all.
  destruct (ProductUpdate.name product_data), (ProductUpdate.description product_data),
    (ProductUpdate.price product_data), (ProductUpdate.quantity product_data);
    reflexivity.
Qed.

Lemma update_product_invariant product_id product_data u now d :
  ledger_invariant d →
  ledger_invariant (run (update_product product_id product_data u now) d).2.
Proof.
  intros Hinv. unfold run. rewrite update_product_unfold. simpl.
  destruct (products d !! product_id) as [product|] eqn:Hp; [|done].
  destruct (rename_refused _ _ _); [done|].
  assert (ledger_invariant (update_product_db product_id product_data product u now d))
    as Hstep.
  { eapply ledger_step; [exact Hinv|reflexivity| | |]; simpl.
    - intros i p'. destruct (decide (product_id = i)) as [<-|Hne].
      + rewrite lookup_insert_eq, Hp. intros [= <-].
        rewrite quantity_setattr_all. unfold adjustment_movements.
        destruct (ProductUpdate.quantity product_data) as [| |v];
          try (unfold msum; simpl; lia).
        case_bool_decide.
        * rewrite msum_cons, bool_decide_true by done. unfold msum. simpl. lia.
        * unfold msum. simpl. lia.
      + rewrite lookup_insert_ne by done. intros Hi. rewrite Hi.
        rewrite msum_absent; [lia|]. unfold adjustment_movements.
        destruct (ProductUpdate.quantity product_data) as [| |v];
          try (by intros m ?%elem_of_nil).
        case_bool_decide; [|by intros m ?%elem_of_nil].
        by intros m ->%list_elem_of_singleton.
    - intros i Hi. apply lookup_insert_is_Some'. by right.
    - intros m Hin. apply lookup_insert_is_Some'. left.
      unfold adjustment_movements in Hin.
      destruct (ProductUpdate.quantity product_data) as [| |v];
        try (by apply elem_of_nil in Hin).
      case_bool_decide; [|by apply elem_of_nil in Hin].
      by apply list_elem_of_singleton in Hin as ->. }
  destruct (ProductUpdate.quantity product_data); [|done|];
    destruct (violates_not_null product_data); done.
Qed.

Lemma create_stock_movement_invariant movement_data u now d :
  ledger_invariant d →
  ledger_invariant (run (create_stock_movement movement_data u now) d).2.
Proof.
  intros Hinv. unfold run. rewrite create_stock_movement_unfold. simpl.
  destruct (products d !! StockMovementCreate.product_id movement_data)
    as [product|] eqn:Hp; [|done].
  destruct (bool_decide _ && bool_decide _); [done|]. simpl.
  eapply ledger_step; [exact Hinv|reflexivity| | |]; simpl.
  - intros i p'.
    destruct (decide (StockMovementCreate.product_id movement_data = i)) as [<-|Hne].
    + rewrite lookup_insert_eq, Hp. intros [= <-].
      rewrite msum_cons, bool_decide_true by done. unfold msum. simpl. lia.
    + rewrite lookup_insert_ne by done. intros Hi. rewrite Hi.
      rewrite msum_cons, bool_decide_false by done. unfold msum. simpl. lia.
  - intros i Hi. apply lookup_insert_is_Some'. by right.
  - intros m ->%list_elem_of_singleton. simpl. by rewrite lookup_insert_eq.
Qed.

Lemma Forall2_elem_of_r {A B} (P : A → B → Prop) l k y :
  Forall2 P l k → y ∈ k → ∃ x, x ∈ l ∧ P x y.
Proof.
  induction 1 as [|x y' l k HP _ IH]; intros Hin; [by apply elem_of_nil in Hin|].
  apply elem_of_cons in Hin as [->|Hin].
  - exists x. split; [by left|done].
  - destruct (IH Hin) as (x' & Hx' & HP'). exists x'. split; [by right|done].
Qed.

Lemma Forall2_elem_of_l {A B} (P : A → B → Prop) l k x :
  Forall2 P l k → x ∈ l → ∃ y, y ∈ k ∧ P x y.
Proof.
  induction 1 as [|x' y l k HP _ IH]; intros Hin; [by apply elem_of_nil in Hin|].
  apply elem_of_cons in Hin as [->|Hin].
  - exists y. split; [by left|done].
  - destruct (IH Hin) as (y' & Hy' & HP'). exists y'. split; [by right|done].
Qed.

Lemma create_sale_invariant sale_data u now d :
  ledger_invariant d →
  ledger_invariant (run (create_sale sale_data u now) d).2.
Proof.
  intros Hinv.
  destruct (run (create_sale sale_data u now) d) as [[[sale_id sale]|e] d'] eqn:Hrun.
  - apply create_sale_ok in Hrun
      as (_ & _ & _ & _ & _ & Hprod & _ & new_items & new_movs & _ & Hmovs & Hfi & Hfm & _).
    simpl. eapply ledger_step; [exact Hinv|exact Hmovs| | |].
    + intros i p'. rewrite Hprod.
      destruct (products d !! i) as [p|]; simpl; [|done].
      intros [= <-]. simpl. rewrite (msum_sale_lines _ _ _ _ _ _ Hfm). lia.
    + intros i [p Hp]. rewrite Hprod, Hp. by eexists.
    + intros m Hin.
      destruct (Forall2_elem_of_r _ _ _ _ Hfm Hin) as (it & Hit & Hpid & _).
      destruct (Forall2_elem_of_l _ _ _ _ Hfi Hit) as (row & _ & _ & _ & _ & p & Hp & _).
      rewrite Hprod, Hpid, Hp. by eexists.
  - apply create_sale_raise in Hrun as [-> _]. exact Hinv.
Qed.

Lemma create_purchase_invariant purchase_data u now d :
  ledger_invariant d →
  ledger_invariant (run (create_purchase purchase_data u now) d).2.
Proof.
  intros Hinv.
  destruct (run (create_purchase purchase_data u now) d)
    as [[[purchase_id purchase]|e] d'] eqn:Hrun.
  - apply create_purchase_ok in Hrun
      as (_ & Hall & _ & _ & _ & _ & Hprod & _ & new_items & new_movs & _ & Hmovs
          & Hfi & Hfm & _).
    simpl. eapply ledger_step; [exact Hinv|exact Hmovs| | |].
    + intros i p'. rewrite Hprod.
      destruct (products d !! i) as [p|]; simpl; [|done].
      intros [= <-]. simpl. rewrite (msum_purchase_lines _ _ _ _ _ _ Hfm). lia.
    + intros i [p Hp]. rewrite Hprod, Hp. by eexists.
    + intros m Hin.
      destruct (Forall2_elem_of_r _ _ _ _ Hfm Hin) as (it & Hit & Hpid & _).
      destruct (Hall it Hit) as [[p Hp] _].
      rewrite Hprod, Hpid, Hp. by eexists.
  - apply create_purchase_raise in Hrun as [-> _]. exact Hinv.
Qed.

Lemma run_discard {A} (h : handler A) d : (run (discard h) d).2 = (run h d).2.
Proof.
  unfold run, discard, bind, ret. destruct (h (get_db d)) as [[a|e] s]; reflexivity.
Qed.

Lemma serve_invariant d call : ledger_invariant d → ledger_invariant (serve d call).
Proof.
  intros Hinv. destruct call as [[r u] now]. unfold serve, endpoint, validated.
  destruct r as [product_data|product_id product_data|movement_data|sale_data
                 |purchase_data].
  - destruct (ProductCreate.valid product_data) eqn:Hvalid; [|exact Hinv].
    rewrite run_discard. by apply create_product_invariant.
  - destruct (bool_decide _ && _); [|exact Hinv].
    rewrite run_discard. by apply update_product_invariant.
  - destruct (StockMovementCreate.valid movement_data); [|exact Hinv].
    rewrite run_discard. by apply create_stock_movement_invariant.
  - destruct (SaleCreate.valid sale_data); [|exact Hinv].
    rewrite run_discard. by apply create_sale_invariant.
  - destruct (PurchaseCreate.valid purchase_data); [|exact Hinv].
    rewrite run_discard. by apply create_purchase_invariant.
Qed.

Lemma serve_all_invariant calls : ∀ d,
  ledger_invariant d → ledger_invariant (serve_all d calls).
Proof.
  induction calls as [|call calls IH]; intros d Hinv; [exact Hinv|].
  simpl. apply IH, serve_invariant, Hinv.
Qed.

(** ** Recording a sale *)

Lemma covers_can_sell w items : covers w items = true ↔ can_sell w items.
Proof.
  unfold covers, can_sell. rewrite forallb_forall. split.
  - intros Hall it Hin. specialize (Hall it (proj1 (list_elem_of_In _ _) Hin)).
    destruct (products w !! SaleItemCreate.product_id it) as [p|]; [|done].
    exists p. split; [done|]. by apply bool_decide_eq_true in Hall.
  - intros Hall it Hin. destruct (Hall it (proj2 (list_elem_of_In _ _) Hin))
      as (p & -> & Hle).
    by apply bool_decide_eq_true.
Qed.

Lemma is_empty_false {A} (l : list A) : is_empty l = false ↔ l ≠ [].
Proof. destruct l; simpl; split; done. Qed.

(** C2: a sale one of whose lines fails, for a missing product or for
    stock below the quantity asked, fails as a whole and leaves the store
    as it was: no line item, no movement and no quantity change is
    committed. *)
Theorem failed_sale_persists_nothing sale_data u now d pre it post :
  SaleCreate.items sale_data = pre ++ it :: post →
  line_fails d pre it →
  ∃ e, run (create_sale sale_data u now) d = (Raise e, d)
       ∧ commits (create_sale sale_data u now) d = [].
Proof.
  intros Hitems Hfail.
  destruct (run (create_sale sale_data u now) d) as [[[sale_id sale]|e] d'] eqn:Hrun.
  - exfalso. unfold run in Hrun.
    assert (SaleCreate.items sale_data ≠ []) as Hne.
    { rewrite Hitems. by destruct pre. }
    rewrite create_sale_unfold in Hrun by done. simpl in Hrun.
    rewrite Hitems, create_sale_items_app in Hrun.
    destruct (create_sale_items _ _ _ pre _ _) as [[tot1|e1] s1] eqn:Hpre; [|done].
    apply create_sale_items_ok in Hpre as (_ & _ & _ & Hprod & _).
    rewrite create_sale_items_cons, Hprod in Hrun. simpl in Hrun.
    unfold line_fails in Hfail.
    destruct (products d !! SaleItemCreate.product_id it) as [p|]; simpl in Hrun;
      [|done].
    rewrite bool_decide_true in Hrun by done. done.
  - apply create_sale_raise in Hrun as [-> Hlog]. by exists e.
Qed.

(** C4: a sale whose lines all name products in the store with enough
    stock is recorded with one line item and one movement per line, in
    order; each line item carries the product's price in the store and
    the subtotal price times quantity, each movement the delta minus the
    quantity, the kind [venta] and the reference [Venta #id] of the
    header; the total of the header is the sum of the subtotals, added
    from 0 in line order. *)
Theorem sale_header_items_movements sale_data u now d :
  SaleCreate.valid sale_data = true →
  is_empty (SaleCreate.items sale_data) = false →
  covers d (SaleCreate.items sale_data) = true →
  ∃ sale_id sale d' new_items new_movements,
    run (create_sale sale_data u now) d = (Ok (sale_id, sale), d')
    ∧ sales d !! sale_id = None
    ∧ sales d' !! sale_id = Some sale
    ∧ sale_items d' = sale_items d ++ new_items
    ∧ stock_movements d' = stock_movements d ++ new_movements
    ∧ Forall2 (sale_line_item sale_id d) (SaleCreate.items sale_data) new_items
    ∧ Forall2 (sale_line_movement sale_id u now) (SaleCreate.items sale_data)
        new_movements
    ∧ Sale.total_amount sale
      = foldl PrimFloat.add (py_float 0) (SaleItem.subtotal <$> new_items).
Proof.
  intros Hvalid Hne%is_empty_false Hcov%covers_can_sell.
  destruct (proj2 (create_sale_succeeds sale_data u now d Hvalid) (conj Hne Hcov))
    as ([sale_id sale] & d' & Hrun).
  pose proof (create_sale_ok _ _ _ _ _ _ _ Hrun)
    as (_ & -> & Hsales & _ & _ & _ & _ & new_items & new_movs & Hi & Hm & Hfi & Hfm & ->).
  exists (next_key (sales d)), (sale_header sale_data u now
    (foldl PrimFloat.add (py_float 0) (SaleItem.subtotal <$> new_items))),
    d', new_items, new_movs.
  split; [done|]. split; [apply next_key_fresh|].
  split; [by rewrite Hsales, lookup_insert_eq|]. done.
Qed.

(** C10: the stock check of a line sees the quantity as the lines before
    it left it, so a sale goes through exactly when it has lines and the
    stock each product started with covers the sum of the quantities of
    all the lines that name it; a sale that names only products in the
    store and is not covered fails with insufficient stock and changes
    nothing. *)
Theorem sale_succeeds_iff_stock_covers_lines sale_data u now d :
  SaleCreate.valid sale_data = true →
  ((∃ r d', run (create_sale sale_data u now) d = (Ok r, d'))
   ↔ is_empty (SaleCreate.items sale_data) = false
     ∧ covers d (SaleCreate.items sale_data) = true)
  ∧ (is_empty (SaleCreate.items sale_data) = false →
     covers d (SaleCreate.items sale_data) = false →
     (∀ it, it ∈ SaleCreate.items sale_data →
        is_Some (products d !! SaleItemCreate.product_id it)) →
     ∃ e, run (create_sale sale_data u now) d = (Raise e, d) ∧ insufficient_stock e).
Proof.
  intros Hvalid.
  pose proof (create_sale_succeeds sale_data u now d Hvalid) as Hiff.
  split.
  - rewrite Hiff, is_empty_false, covers_can_sell. done.
  - intros Hne%is_empty_false Hcov Hall.
    destruct (run (create_sale sale_data u now) d) as [[r|e] d'] eqn:Hrun.
    + assert (covers d (SaleCreate.items sale_data) = true); [|congruence].
      apply covers_can_sell, Hiff. by eexists _, _.
    + pose proof (create_sale_raise _ _ _ _ _ _ Hrun) as [-> _].
      exists e. split; [done|].
      unfold run in Hrun. rewrite create_sale_unfold in Hrun by done.
      simpl in Hrun.
      destruct (create_sale_items _ _ _ _ _ _) as [[total|e0] s1] eqn:Hloop; [done|].
      injection Hrun as -> _.
      apply create_sale_items_raise in Hloop as [(_ & it & Hin & Hnone)|Hins]; [|done].
      simpl in Hnone. destruct (Hall it Hin) as [p Hp]. congruence.
Qed.

(** ** Recording a purchase *)

Lemma create_purchase_succeeds purchase_data u now d :
  PurchaseCreate.items purchase_data ≠ [] →
  all_in_store d (PurchaseCreate.items purchase_data) = true →
  quantities_convert (PurchaseCreate.items purchase_data) = true →
  ∃ r d', run (create_purchase purchase_data u now) d = (Ok r, d').
Proof.
  intros Hne Hall Hfit. unfold run. rewrite create_purchase_unfold by done. simpl.
  destruct (proj2 (create_purchase_items_succeeds (next_key (purchases d)) u now
                     (PurchaseCreate.items purchase_data) (py_float 0)
                     (purchase_started purchase_data u now (get_db d))))
    as (total & s1 & Hloop).
  { simpl. intros it Hin. unfold all_in_store in Hall. unfold quantities_convert in Hfit.
    rewrite forallb_forall in Hall. rewrite forallb_forall in Hfit.
    specialize (Hall it (proj1 (list_elem_of_In _ _) Hin)).
    specialize (Hfit it (proj1 (list_elem_of_In _ _) Hin)).
    split; [by apply bool_decide_eq_true in Hall|by apply negb_true_iff in Hfit]. }
  simpl in Hloop. rewrite Hloop. by eexists _, _.
Qed.

(** What a purchase raises: 400 without lines, and otherwise 404 for a
    product that is not in the store or [OverflowError] for a quantity
    that does not convert. *)
Lemma create_purchase_raises purchase_data u now d e d' :
  run (create_purchase purchase_data u now) d = (Raise e, d') →
  if is_empty (PurchaseCreate.items purchase_data)
  then e = HTTPException HTTP_400_BAD_REQUEST "La compra debe tener al menos un producto"
  else e = OverflowError
       ∨ (not_found e ∧ all_in_store d (PurchaseCreate.items purchase_data) = false).
Proof.
  intros Hrun. unfold run in Hrun.
  destruct (decide (PurchaseCreate.items purchase_data = [])) as [Hnil|Hne].
  - unfold create_purchase in Hrun. rewrite Hnil in *. simpl in *.
    by injection Hrun as <-.
  - rewrite (proj2 (is_empty_false _) Hne).
    rewrite create_purchase_unfold in Hrun by done. simpl in Hrun.
    destruct (create_purchase_items _ _ _ _ _ _) as [[total|e0] s1] eqn:Hloop; [done|].
    injection Hrun as -> _.
    apply create_purchase_items_raise in Hloop as [->|(Hnf & it' & Hin & Hnone)];
      [by left|].
    right. split; [done|]. simpl in Hnone.
    apply not_true_iff_false. intros Hall. unfold all_in_store in Hall.
    rewrite forallb_forall in Hall.
    specialize (Hall it' (proj1 (list_elem_of_In _ _) Hin)).
    apply bool_decide_eq_true in Hall. rewrite Hnone in Hall. by destruct Hall.
Qed.

Lemma purchase_lines_positive purchase_id u now items new_movements :
  forallb PurchaseItemCreate.valid items = true →
  Forall2 (purchase_line_movement purchase_id u now) items new_movements →
  Forall (λ m, 0 < StockMovement.quantity_change m) new_movements.
Proof.
  intros Hvalid Hf. induction Hf as [|it m items movs (_ & Hqc & _) _ IH];
    [constructor|].
  simpl in Hvalid. apply andb_prop in Hvalid as [Hv Hvs].
  constructor; [|by apply IH].
  unfold PurchaseItemCreate.valid in Hv.
  apply andb_prop in Hv as [Hq%bool_decide_eq_true _]. lia.
Qed.

(** C5: on any store, every purchase that is recorded, and every sale
    that is recorded, is recorded as follows.  A purchase line gets the
    unit price the caller sent and the subtotal that price times the
    quantity, whatever the price of the product in the store, and its
    movement has a positive delta; a sale line gets the price of the
    product in the store and the subtotal that price times the quantity;
    the total of either header is the sum of its subtotals, added from 0
    in line order.  A purchase is recorded when it is valid, has lines
    whose products are all in the store and whose quantities convert to a
    [float]; a sale when it is valid, has lines, and the stock covers
    them.  Neither depends on the other. *)
Theorem purchase_price_supplied_sale_price_current u now d :
  (∀ purchase_data,
     PurchaseCreate.valid purchase_data = true →
     is_empty (PurchaseCreate.items purchase_data) = false →
     all_in_store d (PurchaseCreate.items purchase_data) = true →
     quantities_convert (PurchaseCreate.items purchase_data) = true →
     ∃ purchase_id purchase d' new_items new_movements,
       run (create_purchase purchase_data u now) d = (Ok (purchase_id, purchase), d')
       ∧ purchase_items d' = purchase_items d ++ new_items
       ∧ stock_movements d' = stock_movements d ++ new_movements
       ∧ Forall2 (purchase_line_item purchase_id) (PurchaseCreate.items purchase_data)
           new_items
       ∧ Forall2 (purchase_line_movement purchase_id u now)
           (PurchaseCreate.items purchase_data) new_movements
       ∧ Forall (λ m, 0 < StockMovement.quantity_change m) new_movements
       ∧ Purchase.total_amount purchase
         = foldl PrimFloat.add (py_float 0) (PurchaseItem.subtotal <$> new_items))
  ∧ (∀ sale_data,
       SaleCreate.valid sale_data = true →
       is_empty (SaleCreate.items sale_data) = false →
       covers d (SaleCreate.items sale_data) = true →
       ∃ sale_id sale d' new_items,
         run (create_sale sale_data u now) d = (Ok (sale_id, sale), d')
         ∧ sale_items d' = sale_items d ++ new_items
         ∧ Forall2 (sale_line_item sale_id d) (SaleCreate.items sale_data) new_items
         ∧ Sale.total_amount sale
           = foldl PrimFloat.add (py_float 0) (SaleItem.subtotal <$> new_items)).
Proof.
  split.
  - intros purchase_data Hpvalid Hpne%is_empty_false Hpall Hpfit.
    destruct (create_purchase_succeeds purchase_data u now d Hpne Hpall Hpfit)
      as ([purchase_id purchase] & d' & Hrun).
    pose proof (create_purchase_ok _ _ _ _ _ _ _ Hrun)
      as (_ & _ & _ & _ & _ & _ & _ & _ & new_items & new_movs & Hi & Hm & Hfi & Hfm & ->).
    exists purchase_id, (purchase_header purchase_data u now
      (foldl PrimFloat.add (py_float 0) (PurchaseItem.subtotal <$> new_items))),
      d', new_items, new_movs.
    repeat (split; [done|]). split; [|done].
    apply andb_prop in Hpvalid as [_ Hitems].
    eapply purchase_lines_positive; done.
  - intros sale_data Hsvalid Hsne%is_empty_false Hcov%covers_can_sell.
    destruct (proj2 (create_sale_succeeds sale_data u now d Hsvalid) (conj Hsne Hcov))
      as ([sale_id sale] & d' & Hrun).
    pose proof (create_sale_ok _ _ _ _ _ _ _ Hrun)
      as (_ & _ & _ & _ & _ & _ & _ & new_items & new_movs & Hi & Hm & Hfi & Hfm & ->).
    exists sale_id, (sale_header sale_data u now
      (foldl PrimFloat.add (py_float 0) (SaleItem.subtotal <$> new_items))),
      d', new_items.
    done.
Qed.

(** ** Applying a signed delta *)

(** C3: [create_stock_movement] answers 404 when the product is not in
    the store and 400, insufficient stock, when the delta is negative and
    the quantity plus the delta is below zero; either way the store is as
    it was, without a new movement and with the quantity unchanged. *)
Theorem stock_movement_refused movement_data u now d :
  match products d !! StockMovementCreate.product_id movement_data with
  | None => True
  | Some p =>
      StockMovementCreate.quantity_change movement_data < 0
      ∧ Product.quantity p + StockMovementCreate.quantity_change movement_data < 0
  end →
  run (create_stock_movement movement_data u now) d
  = (Raise
       match products d !! StockMovementCreate.product_id movement_data with
       | None => HTTPException HTTP_404_NOT_FOUND "Producto no encontrado"
       | Some _ => HTTPException HTTP_400_BAD_REQUEST
                     "No hay suficiente stock para realizar esta operación"
       end, d)
  ∧ commits (create_stock_movement movement_data u now) d = [].
Proof.
  intros Hpre. unfold run, commits. rewrite create_stock_movement_unfold. simpl.
  destruct (products d !! StockMovementCreate.product_id movement_data) as [p|];
    [|done].
  destruct Hpre as [Hneg Hlow].
  rewrite !bool_decide_true by done. done.
Qed.

(** ** Manual adjustment *)

(** C8: an update that carries the quantity [new_quantity] for a product
    of quantity [old] sets the quantity to [new_quantity] in one commit;
    when the two differ it adds exactly one movement, of delta
    [new_quantity - old], kind [ajuste] and note
    [Ajuste manual: old -> new_quantity]; when they are equal it adds
    none. *)
Theorem manual_adjustment product_id product_data u now d product new_quantity :
  products d !! product_id = Some product →
  ProductUpdate.quantity product_data = Value new_quantity →
  rename_refused product_data product d = false →
  violates_not_null product_data = false →
  ∃ product' d',
    run (update_product product_id product_data u now) d = (Ok product', d')
    ∧ commits (update_product product_id product_data u now) d = [d']
    ∧ products d' !! product_id = Some product'
    ∧ Product.quantity product' = new_quantity
    ∧ (new_quantity = Product.quantity product →
       stock_movements d' = stock_movements d)
    ∧ (new_quantity ≠ Product.quantity product →
       ∃ m, stock_movements d' = stock_movements d ++ [m]
            ∧ StockMovement.product_id m = product_id
            ∧ StockMovement.quantity_change m = new_quantity - Product.quantity product
            ∧ StockMovement.movement_type m = "ajuste"
            ∧ StockMovement.notes m
              = Some ("Ajuste manual: " +:+ py_str (Product.quantity product)
                        +:+ " -> " +:+ py_str new_quantity)
            ∧ StockMovement.created_by m = Some u).
Proof.
  intros Hp Hq Hname Hnull.
  exists (setattr_all product_data product),
    (update_product_db product_id product_data product u now d).
  unfold run, commits. rewrite update_product_unfold. simpl.
  rewrite Hp, Hname, Hq, Hnull. simpl.
  split; [done|]. split; [done|].
  split; [by rewrite lookup_insert_eq|].
  split; [by rewrite quantity_setattr_all, Hq|].
  unfold adjustment_movements. rewrite Hq. split.
  - intros ->. rewrite bool_decide_false by (intros H; by apply H).
    by rewrite app_nil_r.
  - intros Hne. rewrite bool_decide_true by done.
    eexists. split; [reflexivity|]. done.
Qed.

(** ** Creating a product *)

(** C7: [create_product] with a positive starting quantity commits twice:
    the first commit makes the product durable with its quantity and no
    movement, the second adds the movement [inventario_inicial].  The
    quantity and its movement are not written in one unit of work. *)
Theorem create_product_commits_before_its_movement product_data u now d :
  name_taken (ProductCreate.name product_data) d = false →
  0 < ProductCreate.quantity product_data →
  ∃ product_id d1 d2 m,
    commits (create_product product_data u now) d = [d1; d2]
    ∧ products d !! product_id = None
    ∧ products d1 !! product_id = Some (product_of product_data)
    ∧ stock_movements d1 = stock_movements d
    ∧ products d2 = products d1
    ∧ stock_movements d2 = stock_movements d ++ [m]
    ∧ StockMovement.product_id m = product_id
    ∧ StockMovement.quantity_change m = ProductCreate.quantity product_data
    ∧ StockMovement.movement_type m = "inventario_inicial".
Proof.
  intros Hname Hpos. unfold commits. rewrite create_product_unfold. simpl.
  rewrite Hname, bool_decide_true by done. simpl.
  eexists _, _, _, _. split; [reflexivity|]. simpl.
  split; [apply next_key_fresh|]. split; [by rewrite lookup_insert_eq|]. done.
Qed.

(** The other writers commit once: see [create_sale_ok],
    [create_purchase_ok] and the theorem on [update_product]; here
    [create_stock_movement]. *)
Lemma create_stock_movement_commits_once movement_data u now d m d' :
  run (create_stock_movement movement_data u now) d = (Ok m, d') →
  commits (create_stock_movement movement_data u now) d = [d'].
Proof.
  unfold run, commits. rewrite create_stock_movement_unfold. simpl.
  destruct (products d !! StockMovementCreate.product_id movement_data) as [p|];
    [|done].
  destruct (bool_decide _ && bool_decide _); [done|]. simpl. by intros [= _ <-].
Qed.

(** ** The quantity and the ledger *)

(** The quantity a product is created with is the sum of its movements
    right after the creation. *)
Lemma initial_quantity_is_a_movement product_data u now d i p d' :
  ProductCreate.valid product_data = true →
  ledger_invariant d →
  run (create_product product_data u now) d = (Ok (i, p), d') →
  movement_sum i d' = ProductCreate.quantity product_data.
Proof.
  intros Hvalid Hinv Hrun.
  pose proof (create_product_invariant product_data u now d Hvalid Hinv) as [Hq _].
  rewrite Hrun in Hq. simpl in Hq.
  unfold run in Hrun. rewrite create_product_unfold in Hrun.
  destruct (name_taken _ _); [done|]. simpl in Hrun.
  case_bool_decide; simpl in Hrun; injection Hrun as <- <- <-;
    (rewrite <- (Hq _ (product_of product_data)); [done|]);
    simpl; by rewrite lookup_insert_eq.
Qed.

(** C1 (as amended): after any sequence of requests to the ledger
    (product creation, product update, stock movement, sale, purchase)
    served from the empty store, the quantity of every product is the sum
    of the [quantity_change] of all of its movements. *)
Theorem quantity_is_sum_of_movements calls i p :
  products (serve_all empty_db calls) !! i = Some p →
  Product.quantity p = movement_sum i (serve_all empty_db calls).
Proof.
  intros Hp.
  destruct (serve_all_invariant calls empty_db ledger_invariant_empty) as [Hq _].
  by apply Hq.
Qed.

(** ** The history of movements *)

(** Two orderings of the same rows give the same timestamps at the same
    positions, and the same rows when no two rows share a timestamp. *)
Lemma orderings_agree_on_keys {A} (key : A → Z) (o o' : ordering key) rows :
  key <$> order_by o rows = key <$> order_by o' rows.
Proof.
  apply (StronglySorted_unique_strong (λ x y : Z, y ≤ x)).
  - intros x y _ _ Hxy Hyx. lia.
  - eapply StronglySorted_fmap; [|apply order_by_descending]. by intros x y.
  - eapply StronglySorted_fmap; [|apply order_by_descending]. by intros x y.
  - by rewrite !order_by_permutation.
Qed.

Lemma NoDup_fmap_inj_on {A B} (f : A → B) (l : list A) x y :
  NoDup (f <$> l) → x ∈ l → y ∈ l → f x = f y → x = y.
Proof.
  induction l as [|z l IH]; intros Hnd Hx Hy Hf; [by apply elem_of_nil in Hx|].
  rewrite fmap_cons in Hnd. apply NoDup_cons in Hnd as [Hz Hnd].
  apply elem_of_cons in Hx as [->|Hx]; apply elem_of_cons in Hy as [->|Hy].
  - done.
  - exfalso. apply Hz. rewrite Hf. apply list_elem_of_fmap. by exists y.
  - exfalso. apply Hz. rewrite <- Hf. apply list_elem_of_fmap. by exists x.
  - by apply IH.
Qed.

Lemma orderings_agree {A} (key : A → Z) (o o' : ordering key) rows :
  NoDup (key <$> rows) → order_by o rows = order_by o' rows.
Proof.
  intros Hnd. apply (StronglySorted_unique_strong (key_desc key)).
  - intros x y Hx Hy Hxy Hyx. unfold key_desc in *.
    rewrite order_by_permutation in Hx. rewrite order_by_permutation in Hy.
    apply (NoDup_fmap_inj_on key rows); [done..|lia].
  - apply order_by_descending.
  - apply order_by_descending.
  - by rewrite !order_by_permutation.
Qed.

Lemma pages_tile {A} (rows : list A) skip limit :
  0 ≤ skip → 0 ≤ limit →
  offset_limit skip limit rows ++ offset_limit (skip + limit) limit rows
  = offset_limit skip (2 * limit) rows.
Proof.
  intros Hs Hl. unfold offset_limit.
  rewrite Z2Nat.inj_add by done.
  rewrite <- drop_drop, take_take_drop. f_equal. lia.
Qed.

Lemma offset_limit_fmap {A B} (f : A → B) skip limit (rows : list A) :
  f <$> offset_limit skip limit rows = offset_limit skip limit (f <$> rows).
Proof. unfold offset_limit. by rewrite fmap_take, fmap_drop. Qed.

Lemma length_offset_limit {A} skip limit (rows : list A) :
  0 ≤ limit → Z.of_nat (length (offset_limit skip limit rows)) ≤ limit.
Proof. intros Hl. unfold offset_limit. rewrite length_take. lia. Qed.

(** A page in one ordering and the next page in another: their
    timestamps are those of the double page, and so are their rows when
    no two rows share a timestamp. *)
Lemma pages_tile_on_keys {A} (key : A → Z) (o o' : ordering key) rows skip limit :
  0 ≤ skip → 0 ≤ limit →
  key <$> (offset_limit skip limit (order_by o rows)
           ++ offset_limit (skip + limit) limit (order_by o' rows))
  = offset_limit skip (2 * limit) (key <$> order_by o rows).
Proof.
  intros Hs Hl. rewrite fmap_app, !offset_limit_fmap.
  rewrite (orderings_agree_on_keys key o' o). by apply pages_tile.
Qed.

Lemma pages_tile_distinct {A} (key : A → Z) (o o' : ordering key) rows skip limit :
  0 ≤ skip → 0 ≤ limit →
  NoDup (key <$> rows) →
  offset_limit skip limit (order_by o rows)
  ++ offset_limit (skip + limit) limit (order_by o' rows)
  = offset_limit skip (2 * limit) (order_by o rows).
Proof.
  intros Hs Hl Hnd. rewrite (orderings_agree key o' o) by done. by apply pages_tile.
Qed.

Lemma elem_of_filter_movements product_id movement_type rows m :
  m ∈ filter_movements product_id movement_type rows
  ↔ m ∈ rows
    ∧ (∀ i, product_id = Some i → i ≠ 0 → StockMovement.product_id m = i)
    ∧ (∀ t, movement_type = Some t → t ≠ "" → StockMovement.movement_type m = t).
Proof.
  unfold filter_movements.
  destruct product_id as [i|], movement_type as [t|];
    repeat match goal with
           | |- context [bool_decide ?P] =>
               destruct (decide P); [rewrite (bool_decide_true P) by done
                                    |rewrite (bool_decide_false P) by done]
           end;
    rewrite ?list_elem_of_filter;
    (split; [intros; repeat split; intuition congruence|]);
    intuition eauto.
Qed.

(** C9 (as amended): the history query keeps the movements of the product
    asked for, when that id is given and is not 0, and of the kind asked
    for, when it is given and not empty; it has no time range.  Whatever
    order the engine gives to rows of equal timestamp, for the query of a
    page ([order]) and for the query of the next page ([order']): the
    rows of the query are the matching movements, each as often as the
    table has it, latest first; a page is the [limit] rows after the
    first [skip], at most [limit] of them; the timestamps of a page and
    of the next one are, together, those of the double page from the
    same offset; and when no two matching movements share a timestamp,
    the rows of the two pages are the rows of the double page, so that
    no row is repeated or left out between them. *)
Theorem history_filtered_ordered_paged
    (order order' : ordering StockMovement.movement_date)
    product_id movement_type skip limit d :
  valid_page skip limit = true →
  let matching := filter_movements product_id movement_type (stock_movements d) in
  let page := offset_limit skip limit (order_by order matching) in
  let next := offset_limit (skip + limit) limit (order_by order' matching) in
  run (get_stock_movements order product_id movement_type skip limit) d = (Ok page, d)
  ∧ run (get_stock_movements order' product_id movement_type (skip + limit) limit) d
    = (Ok next, d)
  ∧ (∀ m, m ∈ matching
          ↔ m ∈ stock_movements d
            ∧ (∀ i, product_id = Some i → i ≠ 0 → StockMovement.product_id m = i)
            ∧ (∀ t, movement_type = Some t → t ≠ ""
                    → StockMovement.movement_type m = t))
  ∧ order_by order matching ≡ₚ matching
  ∧ StronglySorted (key_desc StockMovement.movement_date) (order_by order matching)
  ∧ Z.of_nat (length page) ≤ limit
  ∧ StockMovement.movement_date <$> (page ++ next)
    = offset_limit skip (2 * limit)
        (StockMovement.movement_date <$> order_by order matching)
  ∧ (NoDup (StockMovement.movement_date <$> matching) →
     page ++ next = offset_limit skip (2 * limit) (order_by order matching)).
Proof.
  intros Hvalid. unfold valid_page in Hvalid.
  apply andb_prop in Hvalid as [[Hs%bool_decide_eq_true Hl%bool_decide_eq_true]%andb_prop _].
  simpl. split; [done|]. split; [done|].
  split; [apply elem_of_filter_movements|].
  split; [apply order_by_permutation|].
  split; [apply order_by_descending|].
  split; [apply length_offset_limit; lia|].
  split; [apply pages_tile_on_keys; lia|].
  intros Hnd. apply pages_tile_distinct; [lia..|done].
Qed.

(** * Worked instances *)

(** C1, as stated, fails: product A is created with quantity 3 and
    that quantity is recorded as its first movement, so its quantity, 3,
    is not its initial quantity plus the sum of its movements, 3 + 3. *)
Lemma initial_quantity_counted_twice :
  let d := serve_all empty_db [(POST_product product_A, 7, 100)] in
  ∃ p, products d !! 1 = Some p
       ∧ movement_sum 1 d = 3
       ∧ Product.quantity p ≠ ProductCreate.quantity product_A + movement_sum 1 d.
Proof.
  eexists. split; [vm_compute; reflexivity|]. split; [reflexivity|].
  vm_compute. discriminate.
Qed.

(** C1 on the shop after the sale of 2 A and 1 B: A has 1 unit, the sum
    of its movements +3 and -2. *)
Lemma quantity_is_sum_of_movements_witness :
  products (serve_all empty_db (shop_calls ++ [(POST_sale sale_A2_B1, 7, 102)])) !! 1
  = Some (Product.mk "A" None (py_float 10) 1)
  ∧ Product.quantity (Product.mk "A" None (py_float 10) 1)
    = movement_sum 1 (serve_all empty_db (shop_calls ++ [(POST_sale sale_A2_B1, 7, 102)])).
Proof.
  split; [vm_compute; reflexivity|].
  apply (quantity_is_sum_of_movements
           (shop_calls ++ [(POST_sale sale_A2_B1, 7, 102)]) 1).
  vm_compute. reflexivity.
Defined.

(** C2 on the sale of 1 B and 5 A: the second line fails and the shop is
    as before. *)
Lemma failed_sale_persists_nothing_witness :
  SaleCreate.items sale_B1_A5 = [SaleItemCreate.mk 2 1] ++ SaleItemCreate.mk 1 5 :: []
  ∧ line_fails shop [SaleItemCreate.mk 2 1] (SaleItemCreate.mk 1 5)
  ∧ ∃ e, run (create_sale sale_B1_A5 7 102) shop = (Raise e, shop)
         ∧ commits (create_sale sale_B1_A5 7 102) shop = [].
Proof.
  assert (line_fails shop [SaleItemCreate.mk 2 1] (SaleItemCreate.mk 1 5)) as Hfail.
  { vm_compute. reflexivity. }
  split; [reflexivity|]. split; [exact Hfail|].
  apply (failed_sale_persists_nothing sale_B1_A5 7 102 shop
           [SaleItemCreate.mk 2 1] (SaleItemCreate.mk 1 5) []); [reflexivity|exact Hfail].
Defined.

(** C3 on the 3 units of A and the delta -5. *)
Lemma stock_movement_refused_witness :
  match products shop !! StockMovementCreate.product_id delta_A_minus5 with
  | None => True
  | Some p =>
      StockMovementCreate.quantity_change delta_A_minus5 < 0
      ∧ Product.quantity p + StockMovementCreate.quantity_change delta_A_minus5 < 0
  end
  ∧ (Product.quantity <$> products shop !! 1) = Some 3
  ∧ run (create_stock_movement delta_A_minus5 7 102) shop
    = (Raise (HTTPException HTTP_400_BAD_REQUEST
                "No hay suficiente stock para realizar esta operación"), shop)
  ∧ commits (create_stock_movement delta_A_minus5 7 102) shop = [].
Proof.
  split; [vm_compute; split; reflexivity|].
  split; [vm_compute; reflexivity|].
  apply (stock_movement_refused delta_A_minus5 7 102 shop).
  vm_compute. split; reflexivity.
Defined.

(** C4 on the sale of 2 A and 1 B. *)
Lemma sale_header_items_movements_witness :
  SaleCreate.valid sale_A2_B1 = true
  ∧ is_empty (SaleCreate.items sale_A2_B1) = false
  ∧ covers shop (SaleCreate.items sale_A2_B1) = true
  ∧ ∃ sale_id sale d' new_items new_movements,
      run (create_sale sale_A2_B1 7 102) shop = (Ok (sale_id, sale), d')
      ∧ sales shop !! sale_id = None
      ∧ sales d' !! sale_id = Some sale
      ∧ sale_items d' = sale_items shop ++ new_items
      ∧ stock_movements d' = stock_movements shop ++ new_movements
      ∧ Forall2 (sale_line_item sale_id shop) (SaleCreate.items sale_A2_B1) new_items
      ∧ Forall2 (sale_line_movement sale_id 7 102) (SaleCreate.items sale_A2_B1)
          new_movements
      ∧ Sale.total_amount sale
        = foldl PrimFloat.add (py_float 0) (SaleItem.subtotal <$> new_items).
Proof.
  split; [reflexivity|]. split; [reflexivity|]. split; [vm_compute; reflexivity|].
  apply (sale_header_items_movements sale_A2_B1 7 102 shop);
    [reflexivity|reflexivity|vm_compute; reflexivity].
Defined.

(** The sale of the specification: lines (A, 2) at 10 and (B, 1) at 5
    give the total 25, the subtotals 20 and 5 and the deltas -2 and -1. *)
Example sale_A2_B1_recorded :
  ∃ sale d',
    run (create_sale sale_A2_B1 7 102) shop = (Ok (1, sale), d')
    ∧ Sale.total_amount sale = 25%float
    ∧ SaleItem.subtotal <$> sale_items d' = [20%float; 5%float]
    ∧ StockMovement.quantity_change <$> drop 2 (stock_movements d') = [-2; -1]
    ∧ StockMovement.reference <$> drop 2 (stock_movements d')
      = [Some "Venta #1"; Some "Venta #1"]
    ∧ (Product.quantity <$> products d' !! 1) = Some 1
    ∧ (Product.quantity <$> products d' !! 2) = Some 9.
Proof. eexists _, _. split; [vm_compute; reflexivity|]. vm_compute. done. Qed.

(** C5 on the purchase of 4 A at 7.5 and the sale of 2 A and 1 B. *)
Lemma purchase_price_supplied_sale_price_current_witness :
  PurchaseCreate.valid purchase_A4 = true
  ∧ is_empty (PurchaseCreate.items purchase_A4) = false
  ∧ all_in_store shop (PurchaseCreate.items purchase_A4) = true
  ∧ quantities_convert (PurchaseCreate.items purchase_A4) = true
  ∧ SaleCreate.valid sale_A2_B1 = true
  ∧ is_empty (SaleCreate.items sale_A2_B1) = false
  ∧ covers shop (SaleCreate.items sale_A2_B1) = true
  ∧ (∃ purchase_id purchase d' new_items new_movements,
       run (create_purchase purchase_A4 7 102) shop = (Ok (purchase_id, purchase), d')
       ∧ purchase_items d' = purchase_items shop ++ new_items
       ∧ stock_movements d' = stock_movements shop ++ new_movements
       ∧ Forall2 (purchase_line_item purchase_id) (PurchaseCreate.items purchase_A4)
           new_items
       ∧ Forall2 (purchase_line_movement purchase_id 7 102)
           (PurchaseCreate.items purchase_A4) new_movements
       ∧ Forall (λ m, 0 < StockMovement.quantity_change m) new_movements
       ∧ Purchase.total_amount purchase
         = foldl PrimFloat.add (py_float 0) (PurchaseItem.subtotal <$> new_items))
  ∧ (∃ sale_id sale d' new_items,
       run (create_sale sale_A2_B1 7 102) shop = (Ok (sale_id, sale), d')
       ∧ sale_items d' = sale_items shop ++ new_items
       ∧ Forall2 (sale_line_item sale_id shop) (SaleCreate.items sale_A2_B1) new_items
       ∧ Sale.total_amount sale
         = foldl PrimFloat.add (py_float 0) (SaleItem.subtotal <$> new_items)).
Proof.
  split; [reflexivity|]. split; [reflexivity|]. split; [vm_compute; reflexivity|].
  split; [vm_compute; reflexivity|].
  split; [reflexivity|]. split; [reflexivity|]. split; [vm_compute; reflexivity|].
  split.
  - apply (proj1 (purchase_price_supplied_sale_price_current 7 102 shop) purchase_A4);
      [reflexivity|reflexivity|vm_compute; reflexivity|vm_compute; reflexivity].
  - apply (proj2 (purchase_price_supplied_sale_price_current 7 102 shop) sale_A2_B1);
      [reflexivity|reflexivity|vm_compute; reflexivity].
Defined.

(** The purchase part of C5 holds where no sale can be recorded: on a
    store whose one product has no stock, 4 units are bought at 7.5 each
    for 30, the price of the product being 10. *)
Example purchase_on_empty_stock :
  let d := serve_all empty_db
             [(POST_product (ProductCreate.mk "A" None (py_float 10) 0), 7, 100)] in
  covers d [SaleItemCreate.mk 1 1] = false
  ∧ ∃ purchase d',
      run (create_purchase purchase_A4 7 102) d = (Ok (1, purchase), d')
      ∧ Purchase.total_amount purchase = 30%float
      ∧ PurchaseItem.unit_price <$> purchase_items d' = [7.5%float]
      ∧ PurchaseItem.subtotal <$> purchase_items d' = [30%float]
      ∧ (Product.price <$> products d' !! 1) = Some 10%float
      ∧ (Product.quantity <$> products d' !! 1) = Some 4.
Proof.
  split; [vm_compute; reflexivity|].
  eexists _, _. split; [vm_compute; reflexivity|]. vm_compute. done.
Qed.

(** A quantity that does not convert to a [float]: the purchase of
    2^1024 units of A raises [OverflowError] and nothing of it is
    committed; one unit less than 2^1024 - 2^970 converts. *)
Example purchase_quantity_overflows :
  let huge := PurchaseCreate.mk "Proveedor" None [PurchaseItemCreate.mk 1 (2 ^ 1024) 7.5] in
  PurchaseCreate.valid huge = true
  ∧ all_in_store shop (PurchaseCreate.items huge) = true
  ∧ run (create_purchase huge 7 102) shop = (Raise OverflowError, shop)
  ∧ commits (create_purchase huge 7 102) shop = []
  ∧ float_overflows (2 ^ 1024 - 2 ^ 970) = true
  ∧ float_overflows (2 ^ 1024 - 2 ^ 970 - 1) = false.
Proof. repeat split; vm_compute; reflexivity. Qed.

(** 4 units of A bought at 7.5 cost 30, though A sells at 10. *)
Example purchase_A4_recorded :
  ∃ purchase d',
    run (create_purchase purchase_A4 7 102) shop = (Ok (1, purchase), d')
    ∧ Purchase.total_amount purchase = 30%float
    ∧ PurchaseItem.unit_price <$> purchase_items d' = [7.5%float]
    ∧ StockMovement.quantity_change <$> drop 2 (stock_movements d') = [4]
    ∧ (Product.price <$> products d' !! 1) = Some 10%float
    ∧ (Product.quantity <$> products d' !! 1) = Some 7.
Proof. eexists _, _. split; [vm_compute; reflexivity|]. vm_compute. done. Qed.

(** C7 on the creation of product A in the empty store. *)
Lemma create_product_commits_before_its_movement_witness :
  name_taken (ProductCreate.name product_A) empty_db = false
  ∧ 0 < ProductCreate.quantity product_A
  ∧ ∃ product_id d1 d2 m,
      commits (create_product product_A 7 100) empty_db = [d1; d2]
      ∧ products empty_db !! product_id = None
      ∧ products d1 !! product_id = Some (product_of product_A)
      ∧ stock_movements d1 = stock_movements empty_db
      ∧ products d2 = products d1
      ∧ stock_movements d2 = stock_movements empty_db ++ [m]
      ∧ StockMovement.product_id m = product_id
      ∧ StockMovement.quantity_change m = ProductCreate.quantity product_A
      ∧ StockMovement.movement_type m = "inventario_inicial".
Proof.
  split; [reflexivity|]. split; [reflexivity|].
  apply (create_product_commits_before_its_movement product_A 7 100 empty_db);
    reflexivity.
Defined.

(** The first store [create_product] commits for product A breaks the
    ledger invariant: quantity 3, no movement. *)
Example create_product_first_commit :
  ∃ d1 d2 p,
    commits (create_product product_A 7 100) empty_db = [d1; d2]
    ∧ products d1 !! 1 = Some p
    ∧ Product.quantity p = 3
    ∧ movement_sum 1 d1 = 0
    ∧ movement_sum 1 d2 = 3.
Proof. eexists _, _, _. split; [vm_compute; reflexivity|]. vm_compute. done. Qed.

(** C8 on the adjustment of A from 3 to 9. *)
Lemma manual_adjustment_witness :
  products shop !! 1 = Some (product_of product_A)
  ∧ ProductUpdate.quantity (set_quantity_to 9) = Value 9
  ∧ rename_refused (set_quantity_to 9) (product_of product_A) shop = false
  ∧ violates_not_null (set_quantity_to 9) = false
  ∧ ∃ product' d',
      run (update_product 1 (set_quantity_to 9) 7 102) shop = (Ok product', d')
      ∧ commits (update_product 1 (set_quantity_to 9) 7 102) shop = [d']
      ∧ products d' !! 1 = Some product'
      ∧ Product.quantity product' = 9
      ∧ (9 = Product.quantity (product_of product_A) →
         stock_movements d' = stock_movements shop)
      ∧ (9 ≠ Product.quantity (product_of product_A) →
         ∃ m, stock_movements d' = stock_movements shop ++ [m]
              ∧ StockMovement.product_id m = 1
              ∧ StockMovement.quantity_change m
                = 9 - Product.quantity (product_of product_A)
              ∧ StockMovement.movement_type m = "ajuste"
              ∧ StockMovement.notes m
                = Some ("Ajuste manual: "
                          +:+ py_str (Product.quantity (product_of product_A))
                          +:+ " -> " +:+ py_str 9)
              ∧ StockMovement.created_by m = Some 7).
Proof.
  split; [vm_compute; reflexivity|]. split; [reflexivity|].
  split; [reflexivity|]. split; [reflexivity|].
  apply (manual_adjustment 1 (set_quantity_to 9) 7 102 shop (product_of product_A) 9);
    [vm_compute; reflexivity|reflexivity|reflexivity|reflexivity].
Defined.

(** Product B adjusted from 10 to 10: no new movement; from 10 to 4: one
    movement of -6 with the note of the source. *)
Example adjustment_10_to_10 :
  ∃ p d', run (update_product 2 (set_quantity_to 10) 7 102) shop = (Ok p, d')
          ∧ stock_movements d' = stock_movements shop
          ∧ Product.quantity p = 10.
Proof. eexists _, _. split; [vm_compute; reflexivity|]. vm_compute. done. Qed.

Example adjustment_10_to_4 :
  ∃ p d', run (update_product 2 (set_quantity_to 4) 7 102) shop = (Ok p, d')
          ∧ StockMovement.quantity_change <$> drop 2 (stock_movements d') = [-6]
          ∧ StockMovement.notes <$> drop 2 (stock_movements d')
            = [Some "Ajuste manual: 10 -> 4"]
          ∧ Product.quantity p = 4.
Proof. eexists _, _. split; [vm_compute; reflexivity|]. vm_compute. done. Qed.

(** C9, as stated, fails, on three counts.

    There is no time range: asked for the movements of product A between
    times 2 and 2, the handler, which has no parameter for the range,
    answers with the movements of times 3, 2 and 1.

    A product id 0 and an empty kind filter nothing: asked for the
    movements of product 0, or of the kind with the empty name, of which
    there are none, the handler answers with all three movements.

    Rows of equal timestamp may be repeated and left out between pages:
    the sale of 2 A and 1 B writes movements 3 and 4 at time 102; both
    orders of the two are descending on the timestamp, and when the
    query of the first page of one row gets one order and the query of
    the second page the other, both pages are movement 3, and movement 4
    is in neither. *)
Lemma history_has_no_time_range :
  let order := merge_sorted StockMovement.movement_date in
  let order' := merge_sorted_from_last StockMovement.movement_date in
  (StockMovement.movement_date
     <$> history_as_specified order (Some 1) None (Some 2) (Some 2) 0 100 three_movements
   = [2]
   ∧ ∃ rows, run (get_stock_movements order (Some 1) None 0 100) three_movements
             = (Ok rows, three_movements)
             ∧ StockMovement.movement_date <$> rows = [3; 2; 1])
  ∧ (history_as_specified order (Some 0) None None None 0 100 three_movements = []
     ∧ history_as_specified order None (Some "") None None 0 100 three_movements = []
     ∧ ∃ rows rows',
         run (get_stock_movements order (Some 0) None 0 100) three_movements
         = (Ok rows, three_movements)
         ∧ run (get_stock_movements order None (Some "") 0 100) three_movements
           = (Ok rows', three_movements)
         ∧ StockMovement.movement_date <$> rows = [3; 2; 1]
         ∧ StockMovement.movement_date <$> rows' = [3; 2; 1])
  ∧ (StockMovement.id
       <$> filter (λ m, StockMovement.movement_date m = 102) (stock_movements shop_sold)
     = [3; 4]
     ∧ ∃ page next,
         run (get_stock_movements order None None 0 1) shop_sold = (Ok page, shop_sold)
         ∧ run (get_stock_movements order' None None 1 1) shop_sold
           = (Ok next, shop_sold)
         ∧ StockMovement.id <$> page = [3]
         ∧ StockMovement.id <$> next = [3]).
Proof.
  split; [|split].
  - split; [vm_compute; reflexivity|].
    eexists. split; [vm_compute; reflexivity|]. vm_compute. reflexivity.
  - split; [vm_compute; reflexivity|]. split; [vm_compute; reflexivity|].
    eexists _, _. split; [vm_compute; reflexivity|].
    split; [vm_compute; reflexivity|]. split; vm_compute; reflexivity.
  - split; [vm_compute; reflexivity|].
    eexists _, _. split; [vm_compute; reflexivity|].
    split; [vm_compute; reflexivity|]. split; vm_compute; reflexivity.
Qed.

(** C9 on the first two pages of two rows of the history of A, whose
    three movements have the timestamps 1, 2 and 3. *)
Lemma history_filtered_ordered_paged_witness :
  valid_page 0 2 = true
  ∧ let order := merge_sorted StockMovement.movement_date in
    let order' := merge_sorted_from_last StockMovement.movement_date in
    let matching := filter_movements (Some 1) None (stock_movements three_movements) in
    let page := offset_limit 0 2 (order_by order matching) in
    let next := offset_limit (0 + 2) 2 (order_by order' matching) in
    run (get_stock_movements order (Some 1) None 0 2) three_movements
    = (Ok page, three_movements)
    ∧ run (get_stock_movements order' (Some 1) None (0 + 2) 2) three_movements
      = (Ok next, three_movements)
    ∧ (∀ m, m ∈ matching
            ↔ m ∈ stock_movements three_movements
              ∧ (∀ i, Some 1 = Some i → i ≠ 0 → StockMovement.product_id m = i)
              ∧ (∀ t, (None : option string) = Some t → t ≠ ""
                      → StockMovement.movement_type m = t))
    ∧ order_by order matching ≡ₚ matching
    ∧ StronglySorted (key_desc StockMovement.movement_date) (order_by order matching)
    ∧ Z.of_nat (length page) ≤ 2
    ∧ StockMovement.movement_date <$> (page ++ next)
      = offset_limit 0 (2 * 2)
          (StockMovement.movement_date <$> order_by order matching)
    ∧ (NoDup (StockMovement.movement_date <$> matching) →
       page ++ next = offset_limit 0 (2 * 2) (order_by order matching)).
Proof.
  split; [reflexivity|].
  apply (history_filtered_ordered_paged
           (merge_sorted StockMovement.movement_date)
           (merge_sorted_from_last StockMovement.movement_date)
           (Some 1) None 0 2 three_movements).
  reflexivity.
Defined.

(** The pages of two rows of that history: times 3 and 2, then time 1,
    in either order of the engine. *)
Example history_pages :
  ∃ page1 page2,
    run (get_stock_movements (merge_sorted StockMovement.movement_date)
           (Some 1) None 0 2) three_movements
    = (Ok page1, three_movements)
    ∧ run (get_stock_movements (merge_sorted_from_last StockMovement.movement_date)
             (Some 1) None 2 2) three_movements
      = (Ok page2, three_movements)
    ∧ StockMovement.movement_date <$> page1 = [3; 2]
    ∧ StockMovement.movement_date <$> page2 = [1].
Proof.
  eexists _, _. split; [vm_compute; reflexivity|].
  split; [vm_compute; reflexivity|]. vm_compute. done.
Qed.

(** C10 on the lines (A, 2) and (A, 2) against the 3 units of A. *)
Lemma sale_succeeds_iff_stock_covers_lines_witness :
  SaleCreate.valid sale_A2_A2 = true
  ∧ ((∃ r d', run (create_sale sale_A2_A2 7 102) shop = (Ok r, d'))
     ↔ is_empty (SaleCreate.items sale_A2_A2) = false
       ∧ covers shop (SaleCreate.items sale_A2_A2) = true)
  ∧ (is_empty (SaleCreate.items sale_A2_A2) = false →
     covers shop (SaleCreate.items sale_A2_A2) = false →
     (∀ it, it ∈ SaleCreate.items sale_A2_A2 →
        is_Some (products shop !! SaleItemCreate.product_id it)) →
     ∃ e, run (create_sale sale_A2_A2 7 102) shop = (Raise e, shop)
          ∧ insufficient_stock e).
Proof.
  split; [reflexivity|].
  apply (sale_succeeds_iff_stock_covers_lines sale_A2_A2 7 102 shop). reflexivity.
Defined.

(** Lines (A, 2) and (A, 2) against 3 units of A: the second line sees
    the 1 unit the first left, the sale is refused for insufficient stock
    and the store is as before; each line alone would have passed. *)
Example sale_A2_A2_refused :
  sold 1 (SaleCreate.items sale_A2_A2) = 4
  ∧ covers shop (SaleCreate.items sale_A2_A2) = false
  ∧ covers shop [SaleItemCreate.mk 1 2] = true
  ∧ run (create_sale sale_A2_A2 7 102) shop
    = (Raise (HTTPException HTTP_400_BAD_REQUEST
                "Stock insuficiente para el producto 'A'"), shop).
Proof. repeat split; vm_compute; reflexivity. Qed.

(** Two sales of the one unit of a product, served one after the other:
    the first goes through, the second is refused, the quantity ends
    at 0.  Requests that overlap in time are outside this model. *)
Example two_sales_in_turn :
  let one_unit := ProductCreate.mk "C" None (py_float 1) 1 in
  let sale := SaleCreate.mk None "efectivo" [SaleItemCreate.mk 1 1] in
  let d0 := serve empty_db (POST_product one_unit, 7, 100) in
  ∃ r1 d1,
    run (create_sale sale 7 101) d0 = (Ok r1, d1)
    ∧ run (create_sale sale 8 101) d1
      = (Raise (HTTPException HTTP_400_BAD_REQUEST
                  "Stock insuficiente para el producto 'C'"), d1)
    ∧ (Product.quantity <$> products d1 !! 1) = Some 0.
Proof. eexists _, _. split; [vm_compute; reflexivity|]. vm_compute. done. Qed.

(** * Properties of the rest of the router and of the reports *)

(** ** Names *)

Lemma name_taken_true n w :
  name_taken n w = true ↔ ∃ i p, products w !! i = Some p ∧ Product.name p = n.
Proof.
  unfold name_taken. rewrite bool_decide_eq_true. split.
  - intros [[i p] Hhead]. apply head_Some_elem_of in Hhead.
    apply list_elem_of_filter in Hhead as [Hn Hin].
    apply elem_of_map_to_list in Hin. by exists i, p.
  - intros (i & p & Hp & Hn).
    destruct (filter _ (map_to_list (products w))) as [|kp l] eqn:Hf; [|by eexists].
    assert ((i, p) ∈ filter (λ kp : Z * Product.t, Product.name kp.2 = n)
                        (map_to_list (products w))) as Hin.
    { apply list_elem_of_filter. split; [done|]. by apply elem_of_map_to_list. }
    rewrite Hf in Hin. by apply elem_of_nil in Hin.
Qed.

Lemma name_taken_false n w :
  name_taken n w = false ↔ ∀ i p, products w !! i = Some p → Product.name p ≠ n.
Proof.
  rewrite <- not_true_iff_false, name_taken_true. split.
  - intros Hno i p Hp Hn. apply Hno. by exists i, p.
  - intros Hall (i & p & Hp & Hn). by apply (Hall i p).
Qed.

Lemma create_product_run product_data u now d :
  run (create_product product_data u now) d =
  if name_taken (ProductCreate.name product_data) d then
    (Raise (HTTPException HTTP_400_BAD_REQUEST "Ya existe un producto con ese nombre"), d)
  else
    (Ok (next_key (products d), product_of product_data),
     create_product_db product_data u now d).
Proof.
  unfold run. rewrite create_product_unfold. simpl.
  destruct (name_taken _ _); [done|]. unfold create_product_db.
  case_bool_decide; simpl; rewrite ?app_nil_r; done.
Qed.

Lemma update_product_run product_id product_data u now d :
  run (update_product product_id product_data u now) d =
  match products d !! product_id with
  | None => (Raise (HTTPException HTTP_404_NOT_FOUND "Producto no encontrado"), d)
  | Some product =>
      if rename_refused product_data product d then
        (Raise (HTTPException HTTP_400_BAD_REQUEST "Ya existe un producto con ese nombre"),
         d)
      else
        match ProductUpdate.quantity product_data with
        | Null => (Raise TypeError, d)
        | _ => if violates_not_null product_data then (Raise IntegrityError, d)
               else (Ok (setattr_all product_data product),
                     update_product_db product_id product_data product u now d)
        end
  end.
Proof.
  unfold run. rewrite update_product_unfold. simpl.
  destruct (products d !! product_id) as [product|]; [|done].
  destruct (rename_refused _ _ _); [done|].
  destruct (ProductUpdate.quantity product_data); [|done|];
    destruct (violates_not_null product_data); done.
Qed.

Lemma create_stock_movement_run movement_data u now d :
  run (create_stock_movement movement_data u now) d =
  match products d !! StockMovementCreate.product_id movement_data with
  | None => (Raise (HTTPException HTTP_404_NOT_FOUND "Producto no encontrado"), d)
  | Some product =>
      if bool_decide (StockMovementCreate.quantity_change movement_data < 0)
         && bool_decide (Product.quantity product
                         + StockMovementCreate.quantity_change movement_data < 0)
      then (Raise (HTTPException HTTP_400_BAD_REQUEST
                     "No hay suficiente stock para realizar esta operación"), d)
      else (Ok (stock_movement_row movement_data u now d),
            stock_movement_db movement_data u now product d)
  end.
Proof.
  unfold run. rewrite create_stock_movement_unfold. simpl.
  destruct (products d !! StockMovementCreate.product_id movement_data) as [product|];
    [|done].
  destruct (bool_decide _ && bool_decide _); done.
Qed.

Lemma delete_product_unfold fk product_id s :
  delete_product fk product_id s =
  match products (working s) !! product_id with
  | None => (Raise (HTTPException HTTP_404_NOT_FOUND "Producto no encontrado"), s)
  | Some _ =>
      let w := delete_cascade product_id (working s) in
      if fk && purchased product_id (working s)
      then (Raise IntegrityError, mkSession (committed s) w (commit_log s))
      else (Ok "Producto eliminado exitosamente", mkSession w w (commit_log s ++ [w]))
  end.
Proof.
  unfold delete_product, bind, query_product, read, write, ret, raise, commit.
  destruct (products (working s) !! product_id) as [product|]; [|reflexivity].
  destruct (fk && purchased product_id (working s)); reflexivity.
Qed.

Lemma delete_product_run fk product_id d :
  run (delete_product fk product_id) d =
  match products d !! product_id with
  | None => (Raise (HTTPException HTTP_404_NOT_FOUND "Producto no encontrado"), d)
  | Some _ =>
      if fk && purchased product_id d then (Raise IntegrityError, d)
      else (Ok "Producto eliminado exitosamente", delete_cascade product_id d)
  end.
Proof.
  unfold run. rewrite delete_product_unfold. simpl.
  destruct (products d !! product_id) as [product|]; [|done].
  destruct (fk && purchased product_id d); done.
Qed.

(** ** Creating and reading a product *)

(** X1: a product created under a name that no product of the store has
    gets a key that was not in use, is read back by [get_product] under
    that key as it was sent, and leaves the other products as they
    were. *)
Theorem created_product_is_read_back product_data u now d :
  name_taken (ProductCreate.name product_data) d = false →
  ∃ i d',
    run (create_product product_data u now) d = (Ok (i, product_of product_data), d')
    ∧ products d !! i = None
    ∧ run (get_product i) d' = (Ok (product_of product_data), d')
    ∧ ∀ j, j ≠ i → products d' !! j = products d !! j.
Proof.
  intros Hfree.
  exists (next_key (products d)), (create_product_db product_data u now d).
  rewrite create_product_run, Hfree.
  split; [done|]. split; [apply next_key_fresh|]. split.
  - unfold run, get_product, bind, query_product, read, ret. simpl.
    by rewrite lookup_insert_eq.
  - intros j Hj. simpl. by rewrite lookup_insert_ne.
Qed.

(** X2: [create_product] under the name of a product of the store answers
    400 and commits nothing. *)
Theorem create_product_refuses_taken_name product_data u now d i p :
  products d !! i = Some p →
  Product.name p = ProductCreate.name product_data →
  run (create_product product_data u now) d
  = (Raise (HTTPException HTTP_400_BAD_REQUEST "Ya existe un producto con ese nombre"), d)
  ∧ commits (create_product product_data u now) d = [].
Proof.
  intros Hp Hn.
  assert (name_taken (ProductCreate.name product_data) d = true) as Htaken.
  { apply name_taken_true. by exists i, p. }
  rewrite create_product_run, Htaken. split; [done|].
  unfold commits. rewrite create_product_unfold. simpl. by rewrite Htaken.
Qed.

(** ** Deleting a product *)

Lemma movement_sum_delete_cascade product_id j d :
  j ≠ product_id → movement_sum j (delete_cascade product_id d) = movement_sum j d.
Proof.
  intros Hj. unfold movement_sum, movements_of. simpl. f_equal. f_equal.
  induction (stock_movements d) as [|m l IH]; [done|].
  rewrite !filter_cons.
  destruct (decide (StockMovement.product_id m = j)) as [Hm|Hm].
  - rewrite decide_True by congruence. rewrite filter_cons, decide_True by done.
    by rewrite IH.
  - destruct (decide (StockMovement.product_id m ≠ product_id)); [|done].
    rewrite filter_cons, decide_False by done. done.
Qed.

(** X3: [delete_product] is for administrators: the request of any other
    user is answered 403, whatever the product, and the store is as it
    was. *)
Theorem delete_product_needs_admin fk product_id current_user now d :
  User.role current_user ≠ ADMIN →
  run (endpoint_any fk (DELETE_product product_id) current_user now) d
  = (Raise (HTTPException HTTP_403_FORBIDDEN "No tienes permisos suficientes"), d)
  ∧ serve_any fk d (DELETE_product product_id, current_user, now) = d.
Proof.
  intros Hrole. unfold serve_any, endpoint_any, get_admin_user.
  rewrite !bool_decide_true by done. done.
Qed.

(** X4: a product that is deleted is gone with its movements and with
    its sale items, [get_product] then answers 404, and the other
    products, the movements and sale items of the other products, the
    sale headers, the purchases and their items are as they were.  It
    happens for every product of the store, unless the engine enforces
    foreign keys and a purchase item names the product. *)
Theorem delete_product_cascades fk product_id d p :
  products d !! product_id = Some p →
  fk && purchased product_id d = false →
  ∃ d',
    run (delete_product fk product_id) d = (Ok "Producto eliminado exitosamente", d')
    ∧ products d' !! product_id = None
    ∧ run (get_product product_id) d'
      = (Raise (HTTPException HTTP_404_NOT_FOUND "Producto no encontrado"), d')
    ∧ (∀ j, j ≠ product_id → products d' !! j = products d !! j)
    ∧ (∀ m, m ∈ stock_movements d'
            ↔ m ∈ stock_movements d ∧ StockMovement.product_id m ≠ product_id)
    ∧ (∀ r, r ∈ sale_items d'
            ↔ r ∈ sale_items d ∧ SaleItem.product_id r ≠ product_id)
    ∧ (∀ j, j ≠ product_id → movement_sum j d' = movement_sum j d)
    ∧ sales d' = sales d
    ∧ purchases d' = purchases d
    ∧ purchase_items d' = purchase_items d.
Proof.
  intros Hp Hfk. exists (delete_cascade product_id d).
  rewrite delete_product_run, Hp, Hfk. split; [done|]. simpl.
  split; [apply lookup_delete_eq|]. split.
  { unfold run, get_product, bind, query_product, read, raise. simpl.
    by rewrite lookup_delete_eq. }
  split; [intros j Hj; by apply lookup_delete_ne|].
  split; [intros m; rewrite list_elem_of_filter; tauto|].
  split; [intros r; rewrite list_elem_of_filter; tauto|].
  split; [|done].
  intros j Hj. by apply movement_sum_delete_cascade.
Qed.

(** X5: [delete_product] answers 404 for a product that is not in the
    store, and an engine that enforces foreign keys refuses to delete a
    product that a purchase item names; neither changes the store. *)
Theorem delete_product_refused fk product_id d :
  match products d !! product_id with
  | None => True
  | Some _ => fk && purchased product_id d = true
  end →
  run (delete_product fk product_id) d
  = (Raise match products d !! product_id with
           | None => HTTPException HTTP_404_NOT_FOUND "Producto no encontrado"
           | Some _ => IntegrityError
           end, d)
  ∧ commits (delete_product fk product_id) d = [].
Proof.
  intros Hpre. rewrite delete_product_run.
  unfold commits. rewrite delete_product_unfold. simpl.
  destruct (products d !! product_id) as [p|]; [|done].
  rewrite Hpre. done.
Qed.

(** ** Invariants along sequences of requests *)

Lemma run_validated {A} (ok : bool) (h : handler A) d :
  (run (validated ok h) d).2 = if ok then (run h d).2 else d.
Proof. unfold validated. destruct ok; reflexivity. Qed.

(** What it takes for a property of the store to survive a request. *)
Lemma serve_any_preserves (I : DB → Prop) fk d call :
  I d →
  (∀ data u now, ProductCreate.valid data = true →
     I (run (create_product data u now) d).2) →
  (∀ i data u now, ProductUpdate.valid data = true →
     I (run (update_product i data u now) d).2) →
  (∀ data u now, I (run (create_stock_movement data u now) d).2) →
  (∀ data u now, SaleCreate.valid data = true →
     I (run (create_sale data u now) d).2) →
  (∀ data u now, PurchaseCreate.valid data = true →
     I (run (create_purchase data u now) d).2) →
  (∀ i, I (run (delete_product fk i) d).2) →
  I (serve_any fk d call).
Proof.
  intros Hd Hcreate Hupdate Hmove Hsale Hpurchase Hdelete.
  destruct call as [[r current_user] now]. unfold serve_any, endpoint_any.
  destruct r as [r|product_id].
  - unfold endpoint.
    destruct r as [product_data|product_id product_data|movement_data|sale_data
                   |purchase_data]; rewrite run_validated.
    + destruct (ProductCreate.valid product_data) eqn:Hv; [|done].
      rewrite run_discard. by apply Hcreate.
    + destruct (bool_decide _ && ProductUpdate.valid product_data) eqn:Hv; [|done].
      apply andb_prop in Hv as [_ Hv]. rewrite run_discard. by apply Hupdate.
    + destruct (StockMovementCreate.valid movement_data); [|done].
      rewrite run_discard. by apply Hmove.
    + destruct (SaleCreate.valid sale_data) eqn:Hv; [|done].
      rewrite run_discard. by apply Hsale.
    + destruct (PurchaseCreate.valid purchase_data) eqn:Hv; [|done].
      rewrite run_discard. by apply Hpurchase.
  - destruct (get_admin_user current_user); [|done].
    rewrite run_validated. destruct (bool_decide _); [|done].
    rewrite run_discard. apply Hdelete.
Qed.

Lemma serve_any_all_preserves (I : DB → Prop) fk :
  (∀ d call, I d → I (serve_any fk d call)) →
  ∀ calls d, I d → I (serve_any_all fk d calls).
Proof.
  intros Hstep calls. induction calls as [|call calls IH]; intros d Hd; [done|].
  simpl. by apply IH, Hstep.
Qed.

Lemma delete_product_invariant fk product_id d :
  ledger_invariant d → ledger_invariant (run (delete_product fk product_id) d).2.
Proof.
  intros [Hq Hfk]. rewrite delete_product_run.
  destruct (products d !! product_id) as [p|] eqn:Hp; [|done].
  destruct (fk && purchased product_id d); [done|]. simpl. split.
  - intros j q Hj. simpl in Hj.
    apply lookup_delete_Some in Hj as [Hne Hj].
    rewrite movement_sum_delete_cascade by done. by apply Hq.
  - intros m Hin. simpl in Hin. apply list_elem_of_filter in Hin as [Hne Hin].
    simpl. rewrite lookup_delete_ne by done. by apply Hfk.
Qed.

Lemma serve_any_ledger fk d call : ledger_invariant d → ledger_invariant (serve_any fk d call).
Proof.
  intros Hinv. apply serve_any_preserves; [done|..]; intros.
  - by apply create_product_invariant.
  - by apply update_product_invariant.
  - by apply create_stock_movement_invariant.
  - by apply create_sale_invariant.
  - by apply create_purchase_invariant.
  - by apply delete_product_invariant.
Qed.

(** X6: the quantity of a product stays the sum of its movements when
    products are deleted too: after any sequence of requests that write,
    by any users, served from the empty store, whether or not the engine
    enforces foreign keys. *)
Theorem quantity_is_sum_of_movements_with_deletions fk calls i p :
  products (serve_any_all fk empty_db calls) !! i = Some p →
  Product.quantity p = movement_sum i (serve_any_all fk empty_db calls).
Proof.
  intros Hp.
  destruct (serve_any_all_preserves ledger_invariant fk (serve_any_ledger fk) calls
              empty_db ledger_invariant_empty) as [Hq _].
  by apply Hq.
Qed.

Lemma length_between_nonempty hi s : length_between 1 hi s = true → s ≠ "".
Proof.
  unfold length_between. intros H%bool_decide_eq_true ->. simpl in H. lia.
Qed.

Lemma name_setattr_all product_data product :
  Product.name (setattr_all product_data product) =
  match ProductUpdate.name product_data with
  | Value v => v
  | _ => Product.name product
  end.
Proof.
  unfold setattr_all.
  destruct (ProductUpdate.name product_data), (ProductUpdate.description product_data),
    (ProductUpdate.price product_data), (ProductUpdate.quantity product_data);
    reflexivity.
Qed.

Lemma names_unique_kept d d' :
  (∀ i p', products d' !! i = Some p' →
     ∃ p, products d !! i = Some p ∧ Product.name p' = Product.name p) →
  names_unique d → names_unique d'.
Proof.
  intros Hkept Hu i j p' q' Hi Hj Hn.
  destruct (Hkept i p' Hi) as (p & Hp & Hnp).
  destruct (Hkept j q' Hj) as (q & Hq & Hnq).
  apply (Hu i j p q); congruence.
Qed.

Lemma names_unique_insert d d' i p :
  products d' = <[i := p]> (products d) →
  names_unique d →
  (∀ j q, j ≠ i → products d !! j = Some q → Product.name q ≠ Product.name p) →
  names_unique d'.
Proof.
  intros Hd' Hu Hfree i' j' p' q'. rewrite Hd'. intros Hi Hj Hn.
  destruct (decide (i' = i)) as [->|Hi'], (decide (j' = i)) as [->|Hj']; [done|..].
  - rewrite lookup_insert_eq in Hi. rewrite lookup_insert_ne in Hj by done.
    injection Hi as <-. by destruct (Hfree j' q' Hj' Hj).
  - rewrite lookup_insert_eq in Hj. rewrite lookup_insert_ne in Hi by done.
    injection Hj as <-. by destruct (Hfree i' p' Hi' Hi).
  - rewrite lookup_insert_ne in Hi, Hj by done. by apply (Hu i' j' p' q').
Qed.

Lemma serve_any_names fk d call : names_unique d → names_unique (serve_any fk d call).
Proof.
  intros Hu. apply serve_any_preserves; [done|..].
  - intros data u now _. rewrite create_product_run.
    destruct (name_taken _ _) eqn:Htaken; [done|]. simpl.
    eapply names_unique_insert; [reflexivity|done|].
    intros j q _ Hq. simpl. by apply (proj1 (name_taken_false _ _) Htaken j q).
  - intros i data u now Hvalid. rewrite update_product_run.
    destruct (products d !! i) as [product|] eqn:Hp; [|done].
    destruct (rename_refused data product d) eqn:Hrename; [done|].
    assert (names_unique (update_product_db i data product u now d)) as Hstep.
    { eapply names_unique_insert; [reflexivity|done|].
      intros j q Hj Hq. rewrite name_setattr_all.
      unfold rename_refused in Hrename. unfold ProductUpdate.valid in Hvalid.
      destruct (ProductUpdate.name data) as [| |v];
        try (intros Hn; apply Hj; by apply (Hu j i q product)).
      apply andb_prop in Hvalid as [[Hlen _]%andb_prop _].
      apply length_between_nonempty in Hlen. simpl in Hrename.
      rewrite bool_decide_false in Hrename by done.
      apply andb_false_iff in Hrename as [Hsame|Hfree].
      - apply bool_decide_eq_false in Hsame.
        assert (v = Product.name product) as -> by (by destruct (decide (v = Product.name product)) as [?|?]; [|destruct Hsame]).
        intros Hn. apply Hj. by apply (Hu j i q product).
      - by apply (proj1 (name_taken_false _ _) Hfree j q). }
    destruct (ProductUpdate.quantity data); [|done|];
      destruct (violates_not_null data); done.
  - intros data u now. rewrite create_stock_movement_run.
    destruct (products d !! StockMovementCreate.product_id data) as [product|] eqn:Hp;
      [|done].
    destruct (bool_decide _ && bool_decide _); [done|]. simpl.
    eapply names_unique_kept; [|exact Hu]. simpl. intros i p' Hi.
    destruct (decide (StockMovementCreate.product_id data = i)) as [<-|Hne].
    + rewrite lookup_insert_eq in Hi. injection Hi as <-. by exists product.
    + rewrite lookup_insert_ne in Hi by done. by exists p'.
  - intros data u now _.
    destruct (run (create_sale data u now) d) as [[[sale_id sale]|e] d'] eqn:Hrun.
    + apply create_sale_ok in Hrun as (_ & _ & _ & _ & _ & Hprod & _).
      simpl. eapply names_unique_kept; [|exact Hu]. intros i p'. rewrite Hprod.
      destruct (products d !! i) as [p|]; [|done]. simpl. intros [= <-]. by exists p.
    + by apply create_sale_raise in Hrun as [-> _].
  - intros data u now _.
    destruct (run (create_purchase data u now) d) as [[[purchase_id purchase]|e] d']
      eqn:Hrun.
    + apply create_purchase_ok in Hrun as (_ & _ & _ & _ & _ & _ & Hprod & _).
      simpl. eapply names_unique_kept; [|exact Hu]. intros i p'. rewrite Hprod.
      destruct (products d !! i) as [p|]; [|done]. simpl. intros [= <-]. by exists p.
    + by apply create_purchase_raise in Hrun as [-> _].
  - intros i. rewrite delete_product_run.
    destruct (products d !! i) as [product|]; [|done].
    destruct (fk && purchased i d); [done|]. simpl.
    eapply names_unique_kept; [|exact Hu]. simpl. intros j p' Hj.
    apply lookup_delete_Some in Hj as [_ Hj]. by exists p'.
Qed.

Lemma names_unique_empty : names_unique empty_db.
Proof. intros i j p q Hi. unfold empty_db in Hi. simpl in Hi. by rewrite lookup_empty in Hi. Qed.

(** X7: no two products of the store share a name, after any sequence
    of requests that write served from the empty store: [create_product]
    and [update_product] refuse a name in use, and the schema refuses the
    empty name, the one [update_product] does not check. *)
Theorem product_names_stay_unique fk calls i j p q :
  products (serve_any_all fk empty_db calls) !! i = Some p →
  products (serve_any_all fk empty_db calls) !! j = Some q →
  Product.name p = Product.name q →
  i = j.
Proof.
  apply (serve_any_all_preserves names_unique fk (serve_any_names fk) calls
           empty_db names_unique_empty).
Qed.

Lemma bought_nonneg i items :
  forallb PurchaseItemCreate.valid items = true → 0 ≤ bought i items.
Proof.
  induction items as [|it items IH]; [done|].
  simpl. intros [Hv Hvs]%andb_prop. rewrite bought_cons. specialize (IH Hvs).
  unfold PurchaseItemCreate.valid in Hv.
  apply andb_prop in Hv as [Hq%bool_decide_eq_true _].
  case_bool_decide; lia.
Qed.

Lemma can_sell_sold_le d items i p :
  can_sell d items → products d !! i = Some p → 0 ≤ Product.quantity p →
  sold i items ≤ Product.quantity p.
Proof.
  intros Hcan Hp Hq.
  destruct (decide (Exists (λ it, SaleItemCreate.product_id it = i) items)) as [Hex|Hnex].
  - apply Exists_exists in Hex as (it & Hin & <-).
    destruct (Hcan it Hin) as (p' & Hp' & Hle). congruence.
  - apply not_Exists_Forall in Hnex; [|intros ?; apply _].
    rewrite sold_absent; [done|].
    eapply Forall_impl; [exact Hnex|]. simpl. intros ? ?. done.
Qed.

Lemma serve_any_nonneg fk d call :
  quantities_nonneg d → quantities_nonneg (serve_any fk d call).
Proof.
  intros Hn. apply serve_any_preserves; [done|..].
  - intros data u now Hvalid. rewrite create_product_run.
    destruct (name_taken _ _); [done|]. intros i p. simpl.
    unfold ProductCreate.valid in Hvalid.
    apply andb_prop in Hvalid as [_ Hq%bool_decide_eq_true].
    destruct (decide (next_key (products d) = i)) as [<-|Hne].
    + rewrite lookup_insert_eq. by intros [= <-].
    + rewrite lookup_insert_ne by done. apply Hn.
  - intros i data u now Hvalid. rewrite update_product_run.
    destruct (products d !! i) as [product|] eqn:Hp; [|done].
    destruct (rename_refused data product d); [done|].
    assert (quantities_nonneg (update_product_db i data product u now d)) as Hstep.
    { intros j q. simpl. destruct (decide (i = j)) as [<-|Hne].
      - rewrite lookup_insert_eq. intros [= <-]. rewrite quantity_setattr_all.
        unfold ProductUpdate.valid in Hvalid.
        apply andb_prop in Hvalid as [_ Hq].
        destruct (ProductUpdate.quantity data) as [| |v];
          [by apply (Hn i product)..|by apply bool_decide_eq_true in Hq].
      - rewrite lookup_insert_ne by done. apply Hn. }
    destruct (ProductUpdate.quantity data); [|done|];
      destruct (violates_not_null data); done.
  - intros data u now. rewrite create_stock_movement_run.
    destruct (products d !! StockMovementCreate.product_id data) as [product|] eqn:Hp;
      [|done].
    destruct (bool_decide (StockMovementCreate.quantity_change data < 0)
              && bool_decide (Product.quantity product
                              + StockMovementCreate.quantity_change data < 0))
      eqn:Hcheck; [done|].
    intros j q. simpl.
    destruct (decide (StockMovementCreate.product_id data = j)) as [<-|Hne].
    + rewrite lookup_insert_eq. intros [= <-]. simpl.
      pose proof (Hn _ _ Hp).
      apply andb_false_iff in Hcheck as [H1%bool_decide_eq_false|H2%bool_decide_eq_false];
        lia.
    + rewrite lookup_insert_ne by done. apply Hn.
  - intros data u now Hvalid.
    destruct (run (create_sale data u now) d) as [[[sale_id sale]|e] d'] eqn:Hrun.
    + assert (can_sell d (SaleCreate.items data)) as Hcan.
      { apply (create_sale_succeeds data u now d Hvalid). by eexists _, _. }
      apply create_sale_ok in Hrun as (_ & _ & _ & _ & _ & Hprod & _).
      intros i p'. simpl. rewrite Hprod.
      destruct (products d !! i) as [p|] eqn:Hp; [|done]. simpl. intros [= <-]. simpl.
      pose proof (can_sell_sold_le d _ i p Hcan Hp (Hn i p Hp)). lia.
    + by apply create_sale_raise in Hrun as [-> _].
  - intros data u now Hvalid.
    destruct (run (create_purchase data u now) d) as [[[purchase_id purchase]|e] d']
      eqn:Hrun.
    + apply create_purchase_ok in Hrun as (_ & _ & _ & _ & _ & _ & Hprod & _).
      apply andb_prop in Hvalid as [_ Hitems].
      intros i p'. simpl. rewrite Hprod.
      destruct (products d !! i) as [p|] eqn:Hp; [|done]. simpl. intros [= <-]. simpl.
      pose proof (bought_nonneg i _ Hitems). pose proof (Hn i p Hp). lia.
    + by apply create_purchase_raise in Hrun as [-> _].
  - intros i. rewrite delete_product_run.
    destruct (products d !! i) as [product|]; [|done].
    destruct (fk && purchased i d); [done|]. simpl.
    intros j q Hj. simpl in Hj. apply lookup_delete_Some in Hj as [_ Hj].
    by apply (Hn j q).
Qed.

Lemma quantities_nonneg_empty : quantities_nonneg empty_db.
Proof. intros i p Hi. unfold empty_db in Hi. simpl in Hi. by rewrite lookup_empty in Hi. Qed.

(** X8: no product ever has a negative quantity: after any sequence of
    requests that write served from the empty store, every quantity is
    at least 0. *)
Theorem quantities_stay_nonnegative fk calls i p :
  products (serve_any_all fk empty_db calls) !! i = Some p →
  0 ≤ Product.quantity p.
Proof.
  apply (serve_any_all_preserves quantities_nonneg fk (serve_any_nonneg fk) calls
           empty_db quantities_nonneg_empty).
Qed.

(** ** Headers and their items *)

Lemma items_reference_headers_same d d' :
  sales d' = sales d → sale_items d' = sale_items d →
  purchases d' = purchases d → purchase_items d' = purchase_items d →
  items_reference_headers d → items_reference_headers d'.
Proof. unfold items_reference_headers. by intros -> -> -> ->. Qed.

Lemma serve_any_items fk d call :
  items_reference_headers d → items_reference_headers (serve_any fk d call).
Proof.
  intros Hinv. apply serve_any_preserves; [done|..].
  - intros data u now _. rewrite create_product_run.
    destruct (name_taken _ _); [done|]. by eapply items_reference_headers_same.
  - intros i data u now _. rewrite update_product_run.
    destruct (products d !! i) as [product|]; [|done].
    destruct (rename_refused data product d); [done|].
    destruct (ProductUpdate.quantity data); [|done|];
      (destruct (violates_not_null data); [done|]);
      by eapply items_reference_headers_same.
  - intros data u now. rewrite create_stock_movement_run.
    destruct (products d !! StockMovementCreate.product_id data) as [product|]; [|done].
    destruct (bool_decide _ && bool_decide _); [done|].
    by eapply items_reference_headers_same.
  - intros data u now _.
    destruct (run (create_sale data u now) d) as [[[sale_id sale]|e] d'] eqn:Hrun.
    + apply create_sale_ok in Hrun
        as (_ & _ & Hsales & Hpu & Hpi & _ & _ & new_items & new_movs & Hitems & _
            & Hfi & _).
      destruct Hinv as [Hs Hp]. simpl. split.
      * intros r. rewrite Hitems, Hsales. intros [Hin|Hin]%elem_of_app.
        { apply lookup_insert_is_Some'. right. by apply Hs. }
        destruct (Forall2_elem_of_r _ _ _ _ Hfi Hin) as (it & _ & -> & _).
        by rewrite lookup_insert_eq.
      * rewrite Hpu, Hpi. exact Hp.
    + by apply create_sale_raise in Hrun as [-> _].
  - intros data u now _.
    destruct (run (create_purchase data u now) d) as [[[purchase_id purchase]|e] d']
      eqn:Hrun.
    + apply create_purchase_ok in Hrun
        as (_ & _ & _ & Hpurchases & Hsa & Hsi & _ & _ & new_items & new_movs & Hitems
            & _ & Hfi & _).
      destruct Hinv as [Hs Hp]. simpl. split.
      * rewrite Hsa, Hsi. exact Hs.
      * intros r. rewrite Hitems, Hpurchases. intros [Hin|Hin]%elem_of_app.
        { apply lookup_insert_is_Some'. right. by apply Hp. }
        destruct (Forall2_elem_of_r _ _ _ _ Hfi Hin) as (it & _ & -> & _).
        by rewrite lookup_insert_eq.
    + by apply create_purchase_raise in Hrun as [-> _].
  - intros i. rewrite delete_product_run.
    destruct (products d !! i) as [product|]; [|done].
    destruct (fk && purchased i d); [done|]. destruct Hinv as [Hs Hp]. split.
    + intros r Hin. simpl in *. apply list_elem_of_filter in Hin as [_ Hin]. by apply Hs.
    + exact Hp.
Qed.

Lemma items_reference_headers_empty : items_reference_headers empty_db.
Proof. split; intros r Hin; by apply elem_of_nil in Hin. Qed.

Lemma reachable_items_reference_headers fk calls :
  items_reference_headers (serve_any_all fk empty_db calls).
Proof.
  apply (serve_any_all_preserves items_reference_headers fk (serve_any_items fk) calls
           empty_db items_reference_headers_empty).
Qed.

Lemma filter_all {A} (P : A → Prop) `{∀ x, Decision (P x)} (l : list A) :
  Forall P l → filter P l = l.
Proof.
  induction 1 as [|x l Hx _ IH]; [done|].
  by rewrite filter_cons, decide_True, IH.
Qed.

Lemma filter_none {A} (P : A → Prop) `{∀ x, Decision (P x)} (l : list A) :
  Forall (λ x, ¬ P x) l → filter P l = [].
Proof.
  induction 1 as [|x l Hx _ IH]; [done|].
  by rewrite filter_cons, decide_False, IH.
Qed.

Lemma get_sale_run sale_id d :
  run (get_sale sale_id) d =
  match sales d !! sale_id with
  | None => (Raise (HTTPException HTTP_404_NOT_FOUND "Venta no encontrada"), d)
  | Some sale => (Ok (sale, items_of_sale sale_id d), d)
  end.
Proof.
  unfold run, get_sale, bind, read, ret, raise, get_db. cbn.
  destruct (sales d !! sale_id); reflexivity.
Qed.

Lemma get_purchase_run purchase_id d :
  run (get_purchase purchase_id) d =
  match purchases d !! purchase_id with
  | None => (Raise (HTTPException HTTP_404_NOT_FOUND "Compra no encontrada"), d)
  | Some purchase => (Ok (purchase, items_of_purchase purchase_id d), d)
  end.
Proof.
  unfold run, get_purchase, bind, read, ret, raise, get_db. cbn.
  destruct (purchases d !! purchase_id); reflexivity.
Qed.

(** X9: a sale that has just been recorded is read back by [get_sale]
    under its id: the header with its total, and as its items exactly
    the line items of the sale, one per line and in the order of the
    lines, of which the total is the sum. *)
Theorem recorded_sale_is_read_back fk calls sale_data u now :
  SaleCreate.valid sale_data = true →
  is_empty (SaleCreate.items sale_data) = false →
  covers (serve_any_all fk empty_db calls) (SaleCreate.items sale_data) = true →
  ∃ sale_id sale d' rows,
    run (create_sale sale_data u now) (serve_any_all fk empty_db calls)
    = (Ok (sale_id, sale), d')
    ∧ run (get_sale sale_id) d' = (Ok (sale, rows), d')
    ∧ Forall2 (sale_line_item sale_id (serve_any_all fk empty_db calls))
        (SaleCreate.items sale_data) rows
    ∧ Sale.total_amount sale
      = foldl PrimFloat.add (py_float 0) (SaleItem.subtotal <$> rows).
Proof.
  intros Hvalid Hne%is_empty_false Hcov%covers_can_sell.
  pose proof (reachable_items_reference_headers fk calls) as [Hrefs _].
  set (d := serve_any_all fk empty_db calls) in *.
  destruct (proj2 (create_sale_succeeds sale_data u now d Hvalid) (conj Hne Hcov))
    as ([sale_id sale] & d' & Hrun).
  pose proof (create_sale_ok _ _ _ _ _ _ _ Hrun)
    as (_ & -> & Hsales & _ & _ & _ & _ & new_items & new_movs & Hi & _ & Hfi & _ & ->).
  exists (next_key (sales d)), (sale_header sale_data u now
    (foldl PrimFloat.add (py_float 0) (SaleItem.subtotal <$> new_items))),
    d', new_items.
  split; [done|]. split; [|done].
  rewrite get_sale_run, Hsales, lookup_insert_eq. unfold items_of_sale.
  rewrite Hi, filter_app.
  rewrite filter_none, filter_all; [done| |].
  - eapply Forall2_Forall_r; [exact Hfi|]. apply Forall_forall.
    by intros it _ row (Hsid & _).
  - apply Forall_forall. intros r Hin Heq. apply Hrefs in Hin as [s Hs].
    rewrite Heq, next_key_fresh in Hs. done.
Qed.

(** X10: a purchase that has just been recorded is read back by
    [get_purchase] under its id, with exactly its line items, in the
    order of the lines, of which the total is the sum.  A purchase that
    has lines whose products are all in the store is recorded, unless
    the quantity of a line does not convert to a [float]: that one
    raises [OverflowError] and leaves the store as it was. *)
Theorem recorded_purchase_is_read_back fk calls purchase_data u now :
  is_empty (PurchaseCreate.items purchase_data) = false →
  all_in_store (serve_any_all fk empty_db calls) (PurchaseCreate.items purchase_data)
  = true →
  if quantities_convert (PurchaseCreate.items purchase_data) then
    ∃ purchase_id purchase d' rows,
      run (create_purchase purchase_data u now) (serve_any_all fk empty_db calls)
      = (Ok (purchase_id, purchase), d')
      ∧ run (get_purchase purchase_id) d' = (Ok (purchase, rows), d')
      ∧ Forall2 (purchase_line_item purchase_id) (PurchaseCreate.items purchase_data) rows
      ∧ Purchase.total_amount purchase
        = foldl PrimFloat.add (py_float 0) (PurchaseItem.subtotal <$> rows)
  else
    run (create_purchase purchase_data u now) (serve_any_all fk empty_db calls)
    = (Raise OverflowError, serve_any_all fk empty_db calls).
Proof.
  intros Hempty Hall.
  pose proof (reachable_items_reference_headers fk calls) as [_ Hrefs].
  set (d := serve_any_all fk empty_db calls) in *.
  destruct (quantities_convert (PurchaseCreate.items purchase_data)) eqn:Hfit; last first.
  { destruct (run (create_purchase purchase_data u now) d) as [[r|e] d'] eqn:Hrun.
    - exfalso. destruct r as [purchase_id purchase].
      apply create_purchase_ok in Hrun as (_ & Hconv & _).
      apply not_true_iff_false in Hfit. apply Hfit.
      apply forallb_forall. intros it Hin.
      destruct (Hconv it (proj2 (list_elem_of_In _ _) Hin)) as [_ ->]. done.
    - pose proof (create_purchase_raise _ _ _ _ _ _ Hrun) as [-> _].
      apply create_purchase_raises in Hrun. rewrite Hempty in Hrun.
      destruct Hrun as [->|[_ Hmiss]]; [done|congruence]. }
  apply is_empty_false in Hempty as Hne.
  destruct (create_purchase_succeeds purchase_data u now d Hne Hall Hfit)
    as ([purchase_id purchase] & d' & Hrun).
  pose proof (create_purchase_ok _ _ _ _ _ _ _ Hrun)
    as (_ & _ & -> & Hpurchases & _ & _ & _ & _ & new_items & new_movs & Hi & _ & Hfi
        & _ & ->).
  exists (next_key (purchases d)), (purchase_header purchase_data u now
    (foldl PrimFloat.add (py_float 0) (PurchaseItem.subtotal <$> new_items))),
    d', new_items.
  split; [done|]. split; [|done].
  rewrite get_purchase_run, Hpurchases, lookup_insert_eq. unfold items_of_purchase.
  rewrite Hi, filter_app.
  rewrite filter_none, filter_all; [done| |].
  - eapply Forall2_Forall_r; [exact Hfi|]. apply Forall_forall.
    by intros it _ row (Hpid & _).
  - apply Forall_forall. intros r Hin Heq. apply Hrefs in Hin as [s Hs].
    rewrite Heq, next_key_fresh in Hs. done.
Qed.

(** X11: deleting a product takes its line items out of the sales that
    had them and leaves the headers of those sales as they were: read
    after the deletion, a sale has the same header, with the same
    [total_amount], and the items it had less those of the product. *)
Theorem deleted_product_leaves_sale_headers fk product_id d p sale_id sale rows :
  products d !! product_id = Some p →
  fk && purchased product_id d = false →
  run (get_sale sale_id) d = (Ok (sale, rows), d) →
  ∃ d',
    run (delete_product fk product_id) d = (Ok "Producto eliminado exitosamente", d')
    ∧ run (get_sale sale_id) d'
      = (Ok (sale, filter (λ r, SaleItem.product_id r ≠ product_id) rows), d').
Proof.
  intros Hp Hfk Hget. exists (delete_cascade product_id d).
  rewrite delete_product_run, Hp, Hfk. split; [done|].
  rewrite get_sale_run in Hget. rewrite get_sale_run. simpl.
  destruct (sales d !! sale_id) as [s|]; [|done].
  injection Hget as <- <-. unfold items_of_sale. simpl.
  rewrite !list_filter_filter. do 3 f_equal.
  apply list_filter_iff. tauto.
Qed.

(** ** The routes *)

Lemma path_matches_param name path :
  path_matches [Param name] path = true ↔ ∃ s, path = [s] ∧ s ≠ "".
Proof.
  destruct path as [|s [|s' path]]; simpl.
  - split; [done|]. by intros (s & ? & _).
  - rewrite andb_true_r, bool_decide_eq_true. split; [by exists s|].
    by intros (s' & [= ->] & ?).
  - rewrite andb_false_r. split; [done|]. by intros (s0 & ? & _).
Qed.

(** X12: the route [GET /{product_id}] is declared before the routes
    [GET /stock-movements], [GET /sales], [GET /purchases] and
    [GET /summary], and its parameter matches any segment: a [GET] on a
    path of one non-empty segment is always handled by [get_product], and
    no [GET] on any path is handled by [get_stock_movements], [get_sales],
    [get_purchases] or [get_inventory_summary]. *)
Theorem get_product_route_shadows_listings path :
  (∀ s, path = [s] → s ≠ "" → dispatch GET path = Handled Op_get_product)
  ∧ dispatch GET path ≠ Handled Op_get_stock_movements
  ∧ dispatch GET path ≠ Handled Op_get_sales
  ∧ dispatch GET path ≠ Handled Op_get_purchases
  ∧ dispatch GET path ≠ Handled Op_get_inventory_summary.
Proof.
  assert (∀ s, s ≠ "" → dispatch GET [s] = Handled Op_get_product) as Hone.
  { intros s Hs. unfold dispatch, router. simpl.
    rewrite (bool_decide_true (s ≠ "")) by done. reflexivity. }
  split; [by intros s -> Hs; apply Hone|].
  destruct path as [|s [|s' [|s'' path]]].
  - repeat split; by vm_compute.
  - destruct (decide (s = "")) as [->|Hs].
    + repeat split; by vm_compute.
    + rewrite Hone by done. repeat split; done.
  - unfold dispatch, router. simpl. rewrite !andb_true_r.
    repeat case_bool_decide; simpl; repeat split; done.
  - unfold dispatch, router. simpl. rewrite !andb_false_r. simpl. repeat split; done.
Qed.

(** The routes that are reached: the writers, and the readers of one
    sale or purchase. *)
Example routes_reached :
  dispatch POST ["stock-movements"] = Handled Op_create_stock_movement
  ∧ dispatch POST ["sales"] = Handled Op_create_sale
  ∧ dispatch POST ["purchases"] = Handled Op_create_purchase
  ∧ dispatch GET ["sales"; "7"] = Handled Op_get_sale
  ∧ dispatch GET ["purchases"; "7"] = Handled Op_get_purchase
  ∧ dispatch GET ["stock-movements"] = Handled Op_get_product
  ∧ dispatch GET ["summary"] = Handled Op_get_product
  ∧ dispatch DELETE ["sales"] = Handled Op_delete_product
  ∧ dispatch PUT [] = MethodNotAllowed
  ∧ dispatch GET ["a"; "b"; "c"] = NotFound.
Proof. repeat split; reflexivity. Qed.

(** ** Listing sales and purchases *)

Lemma in_dates_true {A} (key : A → Z) start_date end_date a :
  in_dates key start_date end_date a = true
  ↔ (∀ t, start_date = Some t → t ≤ key a) ∧ (∀ t, end_date = Some t → key a ≤ t).
Proof.
  unfold in_dates. rewrite andb_true_iff.
  destruct start_date as [t1|], end_date as [t2|]; rewrite ?bool_decide_eq_true;
    (split;
     [ intros [H1 H2]; split; intros t Ht; try discriminate; injection Ht as <-; done
     | intros [H1 H2]; split; try done; eauto ]).
Qed.

Lemma elem_of_sales_between start_date end_date d i s :
  (i, s) ∈ sales_between start_date end_date d
  ↔ sales d !! i = Some s
    ∧ (∀ t, start_date = Some t → t ≤ Sale.created_at s)
    ∧ (∀ t, end_date = Some t → Sale.created_at s ≤ t).
Proof.
  unfold sales_between. rewrite list_elem_of_In, filter_In, <- list_elem_of_In.
  rewrite elem_of_map_to_list, in_dates_true. done.
Qed.

Lemma elem_of_purchases_between start_date end_date d i s :
  (i, s) ∈ purchases_between start_date end_date d
  ↔ purchases d !! i = Some s
    ∧ (∀ t, start_date = Some t → t ≤ Purchase.created_at s)
    ∧ (∀ t, end_date = Some t → Purchase.created_at s ≤ t).
Proof.
  unfold purchases_between. rewrite list_elem_of_In, filter_In, <- list_elem_of_In.
  rewrite elem_of_map_to_list, in_dates_true. done.
Qed.

Lemma NoDup_fst_filter {A B} (f : A * B → bool) (l : list (A * B)) :
  NoDup l.*1 → NoDup (List.filter f l).*1.
Proof.
  induction l as [|x l IH]; [done|]. simpl.
  intros [Hx Hl]%NoDup_cons. destruct (f x); simpl; [|by apply IH].
  apply NoDup_cons. split; [|by apply IH].
  intros Hin. apply Hx. apply list_elem_of_fmap in Hin as (y & -> & Hy).
  apply list_elem_of_fmap. exists y. split; [done|].
  apply list_elem_of_In. apply list_elem_of_In, filter_In in Hy as [Hy _]. done.
Qed.

(** X13: [get_sales] lists the sales whose timestamp is within the
    bounds that are given, each once and with its items, latest first,
    and answers the page of at most [limit] of them after the first
    [skip], for [skip] at least 0 and [limit] from 1 to 100.  Whatever
    order the engine gives to sales of equal timestamp, for the query of
    a page and for the query of the next page, the timestamps of the two
    pages are those of the double page from the same offset; when no two
    of the sales listed share a timestamp, the two pages are the double
    page. *)
Theorem sales_listed_by_date (order order' : ordering sale_date)
    skip limit start_date end_date d :
  valid_page skip limit = true →
  let matching := sales_between start_date end_date d in
  let page := with_sale_items d <$> offset_limit skip limit (order_by order matching) in
  let next :=
    with_sale_items d <$> offset_limit (skip + limit) limit (order_by order' matching) in
  run (get_sales order skip limit start_date end_date) d = (Ok page, d)
  ∧ run (get_sales order' (skip + limit) limit start_date end_date) d = (Ok next, d)
  ∧ (∀ i s, (i, s) ∈ order_by order matching
            ↔ sales d !! i = Some s
              ∧ (∀ t, start_date = Some t → t ≤ Sale.created_at s)
              ∧ (∀ t, end_date = Some t → Sale.created_at s ≤ t))
  ∧ NoDup (order_by order matching).*1
  ∧ StronglySorted (key_desc sale_date) (order_by order matching)
  ∧ (Z.of_nat (length page) ≤ limit)
  ∧ (λ r : Z * Sale.t * list SaleItem.t, sale_date r.1) <$> (page ++ next)
    = offset_limit skip (2 * limit) (sale_date <$> order_by order matching)
  ∧ (NoDup (sale_date <$> matching) →
     page ++ next
     = with_sale_items d <$> offset_limit skip (2 * limit) (order_by order matching)).
Proof.
  intros Hvalid. unfold valid_page in Hvalid.
  apply andb_prop in Hvalid as [[Hs%bool_decide_eq_true Hl%bool_decide_eq_true]%andb_prop _].
  simpl. split; [done|]. split; [done|].
  pose proof (order_by_permutation order (sales_between start_date end_date d)) as Hperm.
  split; [|split; [|split; [|split; [|split]]]].
  - intros i s. rewrite Hperm. apply elem_of_sales_between.
  - rewrite Hperm. apply NoDup_fst_filter, NoDup_fst_map_to_list.
  - apply order_by_descending.
  - rewrite length_fmap. apply length_offset_limit. lia.
  - rewrite <- fmap_app, <- list_fmap_compose.
    rewrite <- (pages_tile_on_keys sale_date order order') by lia. done.
  - intros Hnd. rewrite <- fmap_app. f_equal. apply pages_tile_distinct; [lia..|done].
Qed.

(** X14: [get_purchases] lists the purchases whose timestamp is within
    the bounds that are given, each once and with its items, latest
    first, and answers the page of at most [limit] of them after the
    first [skip], for [skip] at least 0 and [limit] from 1 to 100.
    Whatever order the engine gives to purchases of equal timestamp, for
    the query of a page and for the query of the next page, the
    timestamps of the two pages are those of the double page from the
    same offset; when no two of the purchases listed share a timestamp,
    the two pages are the double page. *)
Theorem purchases_listed_by_date (order order' : ordering purchase_date)
    skip limit start_date end_date d :
  valid_page skip limit = true →
  let matching := purchases_between start_date end_date d in
  let page :=
    with_purchase_items d <$> offset_limit skip limit (order_by order matching) in
  let next :=
    with_purchase_items d
      <$> offset_limit (skip + limit) limit (order_by order' matching) in
  run (get_purchases order skip limit start_date end_date) d = (Ok page, d)
  ∧ run (get_purchases order' (skip + limit) limit start_date end_date) d = (Ok next, d)
  ∧ (∀ i s, (i, s) ∈ order_by order matching
            ↔ purchases d !! i = Some s
              ∧ (∀ t, start_date = Some t → t ≤ Purchase.created_at s)
              ∧ (∀ t, end_date = Some t → Purchase.created_at s ≤ t))
  ∧ NoDup (order_by order matching).*1
  ∧ StronglySorted (key_desc purchase_date) (order_by order matching)
  ∧ (Z.of_nat (length page) ≤ limit)
  ∧ (λ r : Z * Purchase.t * list PurchaseItem.t, purchase_date r.1) <$> (page ++ next)
    = offset_limit skip (2 * limit) (purchase_date <$> order_by order matching)
  ∧ (NoDup (purchase_date <$> matching) →
     page ++ next
     = with_purchase_items d
         <$> offset_limit skip (2 * limit) (order_by order matching)).
Proof.
  intros Hvalid. unfold valid_page in Hvalid.
  apply andb_prop in Hvalid as [[Hs%bool_decide_eq_true Hl%bool_decide_eq_true]%andb_prop _].
  simpl. split; [done|]. split; [done|].
  pose proof (order_by_permutation order (purchases_between start_date end_date d))
    as Hperm.
  split; [|split; [|split; [|split; [|split]]]].
  - intros i s. rewrite Hperm. apply elem_of_purchases_between.
  - rewrite Hperm. apply NoDup_fst_filter, NoDup_fst_map_to_list.
  - apply order_by_descending.
  - rewrite length_fmap. apply length_offset_limit. lia.
  - rewrite <- fmap_app, <- list_fmap_compose.
    rewrite <- (pages_tile_on_keys purchase_date order order') by lia. done.
  - intros Hnd. rewrite <- fmap_app. f_equal. apply pages_tile_distinct; [lia..|done].
Qed.

(** ** The reports *)

Lemma filter_bool {A} (P : A → Prop) `{∀ x, Decision (P x)} (f : A → bool) l :
  (∀ x, P x ↔ f x = true) → filter P l = List.filter f l.
Proof.
  intros Hf. induction l as [|x l IH]; [done|].
  rewrite filter_cons. simpl. destruct (f x) eqn:Hx.
  - rewrite decide_True by (by apply Hf). by rewrite IH.
  - rewrite decide_False; [done|]. rewrite Hf. congruence.
Qed.

Lemma filter_bool_true {A} (f : A → bool) l : (∀ x, f x = true) → List.filter f l = l.
Proof.
  intros Hf. induction l as [|x l IH]; [done|]. simpl. by rewrite Hf, IH.
Qed.

Lemma filter_bool_and {A} (f g : A → bool) l :
  List.filter g (List.filter f l) = List.filter (λ x, f x && g x) l.
Proof.
  induction l as [|x l IH]; [done|]. simpl.
  destruct (f x); simpl; [destruct (g x)|]; by rewrite IH.
Qed.

Lemma stock_movements_report_run isoformat product_id start_date end_date d :
  run (stock_movements_report isoformat product_id start_date end_date) d =
  (Ok (movement_report_row isoformat
         <$> List.filter (in_movement_report product_id start_date end_date)
               (stock_movements d)), d).
Proof.
  unfold run, stock_movements_report, read, get_db. cbn. do 3 f_equal.
  set (l := stock_movements d).
  assert (match product_id with
          | Some i => if bool_decide (i ≠ 0)
                      then filter (λ m, StockMovement.product_id m = i) l else l
          | None => l
          end
          = List.filter (λ m, match product_id with
                              | Some i => bool_decide (i = 0)
                                          || bool_decide (StockMovement.product_id m = i)
                              | None => true
                              end) l) as ->.
  { destruct product_id as [i|]; [|by rewrite filter_bool_true].
    case_bool_decide as Hi.
    - apply filter_bool. intros m.
      rewrite orb_true_iff, !bool_decide_eq_true. tauto.
    - rewrite filter_bool_true; [done|]. intros m.
      rewrite (bool_decide_true (i = 0)); [done|]. by destruct (decide (i = 0)). }
  set (l1 := List.filter _ l).
  assert (match start_date with
          | Some t => filter (λ m, t ≤ StockMovement.movement_date m) l1
          | None => l1
          end
          = List.filter (λ m, match start_date with
                              | Some t => bool_decide (t ≤ StockMovement.movement_date m)
                              | None => true
                              end) l1) as ->.
  { destruct start_date as [t|]; [|by rewrite filter_bool_true].
    apply filter_bool. intros m. by rewrite bool_decide_eq_true. }
  set (l2 := List.filter _ l1).
  assert (match end_date with
          | Some t => filter (λ m, StockMovement.movement_date m ≤ t) l2
          | None => l2
          end
          = List.filter (λ m, match end_date with
                              | Some t => bool_decide (StockMovement.movement_date m ≤ t)
                              | None => true
                              end) l2) as ->.
  { destruct end_date as [t|]; [|by rewrite filter_bool_true].
    apply filter_bool. intros m. by rewrite bool_decide_eq_true. }
  unfold l2, l1. rewrite !filter_bool_and. reflexivity.
Qed.

Lemma in_movement_report_true product_id start_date end_date m :
  in_movement_report product_id start_date end_date m = true
  ↔ (∀ i, product_id = Some i → i ≠ 0 → StockMovement.product_id m = i)
    ∧ (∀ t, start_date = Some t → t ≤ StockMovement.movement_date m)
    ∧ (∀ t, end_date = Some t → StockMovement.movement_date m ≤ t).
Proof.
  unfold in_movement_report. rewrite andb_true_iff, in_dates_true.
  destruct product_id as [i|].
  - rewrite orb_true_iff, !bool_decide_eq_true. split.
    + intros [Hp Hd]. split; [|done]. intros j [= <-] Hj. by destruct Hp.
    + intros [Hp Hd]. split; [|done].
      destruct (decide (i = 0)); [by left|right; by apply Hp].
  - split; [intros [_ Hd]; split; [done|done]|intros [_ Hd]; done].
Qed.

(** X15: the report on the movements has a row for each movement of the
    product asked for (when an id is given and is not 0) whose timestamp
    is within the bounds that are given, and for no other; the rows come
    in the order of the table and carry the id, the product, the
    [quantity_change] and the kind of their movement. *)
Theorem movements_report_is_in_range isoformat product_id start_date end_date d :
  ∃ kept,
    run (stock_movements_report isoformat product_id start_date end_date) d
    = (Ok (movement_report_row isoformat <$> kept), d)
    ∧ kept `sublist_of` stock_movements d
    ∧ ∀ m, m ∈ kept
           ↔ m ∈ stock_movements d
             ∧ (∀ i, product_id = Some i → i ≠ 0 → StockMovement.product_id m = i)
             ∧ (∀ t, start_date = Some t → t ≤ StockMovement.movement_date m)
             ∧ (∀ t, end_date = Some t → StockMovement.movement_date m ≤ t).
Proof.
  exists (List.filter (in_movement_report product_id start_date end_date)
            (stock_movements d)).
  split; [apply stock_movements_report_run|]. split.
  - induction (stock_movements d) as [|m l IH]; [done|]. simpl.
    destruct (in_movement_report _ _ _ m); by constructor.
  - intros m. rewrite list_elem_of_In, filter_In, <- list_elem_of_In.
    by rewrite in_movement_report_true.
Qed.

(** X16: after any sequence of requests that write served from the empty
    store, the report on all the movements of a product adds up to the
    quantity of the product: the [quantity] of its rows sum to
    [Product.quantity]. *)
Theorem movements_report_adds_up_to_quantity isoformat fk calls i p :
  products (serve_any_all fk empty_db calls) !! i = Some p →
  i ≠ 0 →
  ∃ rows,
    run (stock_movements_report isoformat (Some i) None None)
      (serve_any_all fk empty_db calls)
    = (Ok rows, serve_any_all fk empty_db calls)
    ∧ foldr Z.add 0 (MovementReport.quantity <$> rows) = Product.quantity p.
Proof.
  intros Hp Hi.
  destruct (serve_any_all_preserves ledger_invariant fk (serve_any_ledger fk) calls
              empty_db ledger_invariant_empty) as [Hq _].
  set (d := serve_any_all fk empty_db calls) in *.
  eexists. split; [apply stock_movements_report_run|].
  rewrite (Hq i p Hp). unfold movement_sum, movements_of.
  rewrite <- list_fmap_compose. f_equal.
  rewrite (filter_bool (λ m, StockMovement.product_id m = i)
             (in_movement_report (Some i) None None)); [done|].
  intros m. rewrite in_movement_report_true. split.
  - intros Hm. split; [by intros j [= <-] _|]. split; intros t Ht; discriminate.
  - intros [Hm _]. by apply Hm.
Qed.

Lemma items_of_recorded_sale d d' sale_id lines new_items :
  (∀ r, r ∈ sale_items d → is_Some (sales d !! SaleItem.sale_id r)) →
  sales d !! sale_id = None →
  sale_items d' = sale_items d ++ new_items →
  Forall2 (sale_line_item sale_id d) lines new_items →
  items_of_sale sale_id d' = new_items.
Proof.
  intros Hrefs Hfresh Hitems Hfi. unfold items_of_sale.
  rewrite Hitems, filter_app, filter_none, filter_all; [done| |].
  - eapply Forall2_Forall_r; [exact Hfi|]. apply Forall_forall.
    by intros it _ row (Hsid & _).
  - apply Forall_forall. intros r Hin Heq. apply Hrefs in Hin as [s Hs].
    rewrite Heq, Hfresh in Hs. done.
Qed.

(** X17: a sale that has just been recorded is in the report on the
    sales of any period that holds its time, with its id, its total, its
    date and the number of its lines. *)
Theorem recorded_sale_is_reported isoformat fk calls sale_data u now start_date end_date :
  SaleCreate.valid sale_data = true →
  is_empty (SaleCreate.items sale_data) = false →
  covers (serve_any_all fk empty_db calls) (SaleCreate.items sale_data) = true →
  in_dates id start_date end_date now = true →
  ∃ sale_id sale d' rows,
    run (create_sale sale_data u now) (serve_any_all fk empty_db calls)
    = (Ok (sale_id, sale), d')
    ∧ run (sales_report isoformat start_date end_date) d' = (Ok rows, d')
    ∧ SaleReport.mk sale_id (Sale.total_amount sale) (isoformat now)
        (Z.of_nat (length (SaleCreate.items sale_data))) ∈ rows.
Proof.
  intros Hvalid Hne%is_empty_false Hcov%covers_can_sell Hdates.
  pose proof (reachable_items_reference_headers fk calls) as [Hrefs _].
  set (d := serve_any_all fk empty_db calls) in *.
  destruct (proj2 (create_sale_succeeds sale_data u now d Hvalid) (conj Hne Hcov))
    as ([sale_id sale] & d' & Hrun).
  pose proof (create_sale_ok _ _ _ _ _ _ _ Hrun)
    as (_ & -> & Hsales & _ & _ & _ & _ & new_items & new_movs & Hi & _ & Hfi & _ & ->).
  eexists _, _, d', _. split; [done|]. split; [reflexivity|].
  apply list_elem_of_fmap.
  exists (next_key (sales d), sale_header sale_data u now
            (foldl PrimFloat.add (py_float 0) (SaleItem.subtotal <$> new_items))).
  split.
  - unfold sale_report_row. simpl.
    rewrite (items_of_recorded_sale d d' _ _ new_items Hrefs (next_key_fresh _) Hi Hfi).
    by rewrite (Forall2_length _ _ _ Hfi).
  - apply elem_of_sales_between. simpl. rewrite Hsales, lookup_insert_eq.
    split; [done|]. by apply in_dates_true in Hdates.
Qed.

(** ** Purchases and movements that go through *)

(** X18: a purchase goes through exactly when it has lines, the product
    of every line is in the store and the quantity of every line
    converts to a [float], whatever the stock and the prices; when it
    does not, nothing of it is committed, and what is raised is 400 for
    a purchase without lines and otherwise 404, for a product that is
    not in the store, or [OverflowError], for a quantity that does not
    convert. *)
Theorem purchase_succeeds_iff_lines_can_be_recorded purchase_data u now d :
  ((∃ r d', run (create_purchase purchase_data u now) d = (Ok r, d'))
   ↔ is_empty (PurchaseCreate.items purchase_data) = false
     ∧ all_in_store d (PurchaseCreate.items purchase_data) = true
     ∧ quantities_convert (PurchaseCreate.items purchase_data) = true)
  ∧ (∀ e d', run (create_purchase purchase_data u now) d = (Raise e, d') →
       d' = d
       ∧ commits (create_purchase purchase_data u now) d = []
       ∧ if is_empty (PurchaseCreate.items purchase_data)
         then e = HTTPException HTTP_400_BAD_REQUEST
                    "La compra debe tener al menos un producto"
         else e = OverflowError
              ∨ (not_found e
                 ∧ all_in_store d (PurchaseCreate.items purchase_data) = false)).
Proof.
  split.
  - rewrite is_empty_false. split.
    + intros ([purchase_id purchase] & d' & Hrun).
      apply create_purchase_ok in Hrun as (Hne & Hall & _).
      split; [done|].
      split; apply forallb_forall; intros it Hin;
        destruct (Hall it (proj2 (list_elem_of_In _ _) Hin)) as [Hsome Hfit].
      * by apply bool_decide_eq_true.
      * by rewrite Hfit.
    + intros (Hne & Hall & Hfit). by apply create_purchase_succeeds.
  - intros e d' Hrun.
    destruct (create_purchase_raise _ _ _ _ _ _ Hrun) as [-> Hlog].
    split; [done|]. split; [done|]. by apply create_purchase_raises in Hrun.
Qed.

(** X19: a stock movement on a product of the store whose delta is not
    negative, or leaves the quantity at 0 or more, is applied in one
    commit: the quantity moves by the delta, exactly one movement is
    added, which carries the delta, the kind, the reference and the notes
    that were sent, and the other products are as they were. *)
Theorem stock_movement_applied movement_data u now d p :
  products d !! StockMovementCreate.product_id movement_data = Some p →
  0 ≤ StockMovementCreate.quantity_change movement_data
  ∨ 0 ≤ Product.quantity p + StockMovementCreate.quantity_change movement_data →
  ∃ m d',
    run (create_stock_movement movement_data u now) d = (Ok m, d')
    ∧ commits (create_stock_movement movement_data u now) d = [d']
    ∧ products d' !! StockMovementCreate.product_id movement_data
      = Some (Product.set_quantity
                (Product.quantity p + StockMovementCreate.quantity_change movement_data)
                p)
    ∧ (∀ j, j ≠ StockMovementCreate.product_id movement_data →
         products d' !! j = products d !! j)
    ∧ stock_movements d' = stock_movements d ++ [m]
    ∧ StockMovement.product_id m = StockMovementCreate.product_id movement_data
    ∧ StockMovement.quantity_change m = StockMovementCreate.quantity_change movement_data
    ∧ StockMovement.movement_type m = StockMovementCreate.movement_type movement_data
    ∧ StockMovement.reference m = StockMovementCreate.reference movement_data
    ∧ StockMovement.notes m = StockMovementCreate.notes movement_data
    ∧ StockMovement.created_by m = Some u.
Proof.
  intros Hp Hok.
  assert (bool_decide (StockMovementCreate.quantity_change movement_data < 0)
          && bool_decide (Product.quantity p
                          + StockMovementCreate.quantity_change movement_data < 0)
          = false) as Hcheck.
  { apply andb_false_iff.
    destruct Hok; [left|right]; apply bool_decide_eq_false; lia. }
  exists (stock_movement_row movement_data u now d),
    (stock_movement_db movement_data u now p d).
  rewrite create_stock_movement_run, Hp, Hcheck. split; [done|]. split.
  { unfold commits. rewrite create_stock_movement_unfold. simpl.
    by rewrite Hp, Hcheck. }
  simpl. split; [by rewrite lookup_insert_eq|].
  split; [intros j Hj; by rewrite lookup_insert_ne|]. done.
Qed.

Lemma sold_as_sale_lines i items : sold i (as_sale_lines items) = bought i items.
Proof.
  induction items as [|it items IH]; [done|].
  unfold as_sale_lines in *. rewrite fmap_cons, sold_cons, bought_cons, IH. done.
Qed.

Lemma valid_as_sale_lines items :
  forallb PurchaseItemCreate.valid items = true →
  forallb SaleItemCreate.valid (as_sale_lines items) = true.
Proof.
  induction items as [|it items IH]; [done|]. simpl.
  intros [[Hq _]%andb_prop Hvs]%andb_prop. apply andb_true_intro.
  split; [exact Hq|by apply IH].
Qed.

(** X20: a purchase followed by the sale of the same products in the
    same quantities puts the stock back: the sale goes through, and
    after it the store has the products it had before the purchase, each
    with the quantity, the name, the description and the price it had.
    It holds on any store reached from the empty one, for a purchase
    that can be recorded. *)
Theorem purchase_then_sale_restores_products fk calls purchase_data sale_data u now u' now' :
  PurchaseCreate.valid purchase_data = true →
  is_empty (PurchaseCreate.items purchase_data) = false →
  all_in_store (serve_any_all fk empty_db calls) (PurchaseCreate.items purchase_data)
  = true →
  quantities_convert (PurchaseCreate.items purchase_data) = true →
  SaleCreate.valid sale_data = true →
  SaleCreate.items sale_data = as_sale_lines (PurchaseCreate.items purchase_data) →
  ∃ r1 d1 r2 d2,
    run (create_purchase purchase_data u now) (serve_any_all fk empty_db calls)
    = (Ok r1, d1)
    ∧ run (create_sale sale_data u' now') d1 = (Ok r2, d2)
    ∧ ∀ i,
        (Product.quantity <$> products d2 !! i)
        = (Product.quantity <$> products (serve_any_all fk empty_db calls) !! i)
        ∧ (Product.name <$> products d2 !! i)
          = (Product.name <$> products (serve_any_all fk empty_db calls) !! i)
        ∧ (Product.description <$> products d2 !! i)
          = (Product.description <$> products (serve_any_all fk empty_db calls) !! i)
        ∧ (Product.price <$> products d2 !! i)
          = (Product.price <$> products (serve_any_all fk empty_db calls) !! i).
Proof.
  intros Hpvalid Hne%is_empty_false Hall Hfit Hsvalid Hlines.
  pose proof (serve_any_all_preserves quantities_nonneg fk (serve_any_nonneg fk) calls
                empty_db quantities_nonneg_empty) as Hnn.
  set (d := serve_any_all fk empty_db calls) in *.
  destruct (create_purchase_succeeds purchase_data u now d Hne Hall Hfit)
    as ([purchase_id purchase] & d1 & Hrun1).
  pose proof (create_purchase_ok _ _ _ _ _ _ _ Hrun1)
    as (_ & Hexist & _ & _ & _ & _ & Hprod1 & _).
  apply andb_prop in Hpvalid as [_ Hitems].
  assert (can_sell d1 (SaleCreate.items sale_data)) as Hcan.
  { rewrite Hlines. intros it Hin. rewrite sold_as_sale_lines.
    apply list_elem_of_fmap in Hin as (pit & -> & Hpit). simpl.
    destruct (Hexist pit Hpit) as [[p Hp] _]. rewrite Hprod1, Hp. simpl.
    eexists. split; [done|]. simpl. pose proof (Hnn _ _ Hp). lia. }
  assert (SaleCreate.items sale_data ≠ []) as Hsne.
  { rewrite Hlines. destruct (PurchaseCreate.items purchase_data); done. }
  destruct (proj2 (create_sale_succeeds sale_data u' now' d1 Hsvalid) (conj Hsne Hcan))
    as ([sale_id sale] & d2 & Hrun2).
  pose proof (create_sale_ok _ _ _ _ _ _ _ Hrun2) as (_ & _ & _ & _ & _ & Hprod2 & _).
  exists (purchase_id, purchase), d1, (sale_id, sale), d2.
  split; [done|]. split; [done|].
  intros i. rewrite Hprod2, Hprod1, Hlines, sold_as_sale_lines.
  destruct (products d !! i) as [[n ds pr q]|]; [|done]. simpl.
  repeat split. f_equal. lia.
Qed.

(** ** Requests that fail *)

Lemma run_discard_raise {A} (h : handler A) d e d' :
  run (discard h) d = (Raise e, d') → run h d = (Raise e, d').
Proof.
  unfold run, discard, bind, ret. destruct (h (get_db d)) as [[a|e0] s]; [done|].
  by intros [= <- <-].
Qed.

Lemma run_validated_raise {A} ok (h : handler A) d e d' :
  run (validated ok h) d = (Raise e, d') →
  (ok = false ∧ d' = d) ∨ run h d = (Raise e, d').
Proof.
  unfold validated. destruct ok; [by right|]. intros [= _ <-]. by left.
Qed.

(** X21: a request that writes and is answered with an error leaves the
    store as it was: every handler raises before its first commit. *)
Theorem failed_request_changes_nothing fk r current_user now d e d' :
  run (endpoint_any fk r current_user now) d = (Raise e, d') →
  d' = d.
Proof.
  unfold endpoint_any. destruct r as [r|product_id].
  - unfold endpoint.
    destruct r as [product_data|product_id product_data|movement_data|sale_data
                   |purchase_data];
      intros [[_ ->]|Hrun%run_discard_raise]%run_validated_raise; try done.
    + rewrite create_product_run in Hrun.
      destruct (name_taken _ _); [|done]. by injection Hrun as _ <-.
    + rewrite update_product_run in Hrun.
      destruct (products d !! product_id) as [product|]; [|by injection Hrun as _ <-].
      destruct (rename_refused _ _ _); [by injection Hrun as _ <-|].
      destruct (ProductUpdate.quantity product_data);
        [|by injection Hrun as _ <-|];
        (destruct (violates_not_null product_data); [by injection Hrun as _ <-|done]).
    + rewrite create_stock_movement_run in Hrun.
      destruct (products d !! _) as [product|]; [|by injection Hrun as _ <-].
      destruct (bool_decide _ && bool_decide _); [by injection Hrun as _ <-|done].
    + by apply create_sale_raise in Hrun as [-> _].
    + by apply create_purchase_raise in Hrun as [-> _].
  - destruct (get_admin_user current_user) as [admin|e0]; [|by intros [= _ <-]].
    intros [[_ ->]|Hrun%run_discard_raise]%run_validated_raise; [done|].
    rewrite delete_product_run in Hrun.
    destruct (products d !! product_id) as [product|]; [|by injection Hrun as _ <-].
    destruct (fk && purchased product_id d); [by injection Hrun as _ <-|done].
Qed.

(** X22: [update_product] does not give a product the name of another:
    the request is answered 400 and changes nothing, quantity
    included. *)
Theorem update_product_refuses_taken_name product_id product_data u now d p j q n :
  products d !! product_id = Some p →
  products d !! j = Some q →
  ProductUpdate.name product_data = Value n →
  Product.name q = n →
  n ≠ Product.name p →
  n ≠ "" →
  run (update_product product_id product_data u now) d
  = (Raise (HTTPException HTTP_400_BAD_REQUEST "Ya existe un producto con ese nombre"), d)
  ∧ commits (update_product product_id product_data u now) d = [].
Proof.
  intros Hp Hq Hname Hn Hdiff Hne.
  assert (rename_refused product_data p d = true) as Hrefused.
  { unfold rename_refused. rewrite Hname. simpl.
    rewrite bool_decide_false, bool_decide_true by done. simpl.
    apply name_taken_true. by exists j, q. }
  rewrite update_product_run, Hp, Hrefused. split; [done|].
  unfold commits. rewrite update_product_unfold. simpl. by rewrite Hp, Hrefused.
Qed.

(** ** Updates that are not adjustments *)

(** X23: an update that sends [quantity] as [null] for a product of the
    store, and passes the name check, breaks on [None - old_quantity]:
    it raises [TypeError] and commits nothing. *)
Theorem update_product_null_quantity product_id product_data u now d p :
  products d !! product_id = Some p →
  ProductUpdate.quantity product_data = Null →
  rename_refused product_data p d = false →
  run (update_product product_id product_data u now) d = (Raise TypeError, d)
  ∧ commits (update_product product_id product_data u now) d = [].
Proof.
  intros Hp Hq Hname. rewrite update_product_run, Hp, Hname, Hq. split; [done|].
  unfold commits. rewrite update_product_unfold. simpl. by rewrite Hp, Hname, Hq.
Qed.

(** X24: an update that leaves [quantity] out writes no movement and
    keeps the quantity: it sets the attributes that were sent, in one
    commit, and the ledger is as it was. *)
Theorem update_without_quantity_keeps_ledger product_id product_data u now d p :
  products d !! product_id = Some p →
  ProductUpdate.quantity product_data = Unset →
  rename_refused product_data p d = false →
  violates_not_null product_data = false →
  ∃ p' d',
    run (update_product product_id product_data u now) d = (Ok p', d')
    ∧ commits (update_product product_id product_data u now) d = [d']
    ∧ products d' !! product_id = Some p'
    ∧ Product.quantity p' = Product.quantity p
    ∧ stock_movements d' = stock_movements d
    ∧ (∀ v, ProductUpdate.name product_data = Value v → Product.name p' = v)
    ∧ (∀ v, ProductUpdate.price product_data = Value v → Product.price p' = v)
    ∧ (ProductUpdate.name product_data = Unset → Product.name p' = Product.name p)
    ∧ (ProductUpdate.price product_data = Unset → Product.price p' = Product.price p).
Proof.
  intros Hp Hq Hname Hnull.
  exists (setattr_all product_data p), (update_product_db product_id product_data p u now d).
  rewrite update_product_run, Hp, Hname, Hq, Hnull. split; [done|]. split.
  { unfold commits. rewrite update_product_unfold. simpl.
    by rewrite Hp, Hname, Hq, Hnull. }
  simpl. split; [by rewrite lookup_insert_eq|].
  split; [by rewrite quantity_setattr_all, Hq|].
  split; [unfold adjustment_movements; by rewrite Hq, app_nil_r|].
  unfold setattr_all. rewrite Hq.
  destruct (ProductUpdate.name product_data), (ProductUpdate.description product_data),
    (ProductUpdate.price product_data); simpl; repeat split; congruence.
Qed.

(** ** Which error a sale fails with *)

(** X25: a sale fails on its first line that cannot be served, when the
    lines before it can: with 404 and the id of the product when the
    product is not in the store, with 400 and the name of the product
    when the stock left by the lines before is below the quantity
    asked. *)
Theorem sale_fails_on_first_bad_line sale_data u now d pre it post :
  SaleCreate.items sale_data = pre ++ it :: post →
  forallb SaleItemCreate.valid pre = true →
  covers d pre = true →
  line_fails d pre it →
  run (create_sale sale_data u now) d
  = (Raise
       match products d !! SaleItemCreate.product_id it with
       | None =>
           HTTPException HTTP_404_NOT_FOUND
             ("Producto con ID " +:+ py_str (SaleItemCreate.product_id it)
                +:+ " no encontrado")
       | Some p =>
           HTTPException HTTP_400_BAD_REQUEST
             ("Stock insuficiente para el producto '" +:+ Product.name p +:+ "'")
       end, d).
Proof.
  intros Hitems Hvalid Hcov%covers_can_sell Hfail.
  assert (SaleCreate.items sale_data ≠ []) as Hne.
  { rewrite Hitems. by destruct pre. }
  unfold run. rewrite create_sale_unfold by done. simpl.
  rewrite Hitems, create_sale_items_app.
  destruct (proj2 (create_sale_items_succeeds (next_key (sales d)) u now pre Hvalid
                     (py_float 0) (sale_started sale_data u now (get_db d))) Hcov)
    as (tot1 & s1 & Hpre).
  rewrite Hpre.
  pose proof (create_sale_items_session _ _ _ _ _ _ _ _ Hpre) as (Hc & _).
  apply create_sale_items_ok in Hpre as (_ & _ & _ & Hprod & _).
  rewrite create_sale_items_cons, Hprod. simpl. unfold line_fails in Hfail.
  destruct (products d !! SaleItemCreate.product_id it) as [p|]; simpl.
  - rewrite bool_decide_true by done. simpl. by rewrite Hc.
  - by rewrite Hc.
Qed.

(** ** The history is only added to *)

Lemma serve_appends d call : stock_movements d `prefix_of` stock_movements (serve d call).
Proof.
  destruct call as [[r u] now]. unfold serve, endpoint.
  destruct r as [product_data|product_id product_data|movement_data|sale_data
                 |purchase_data]; rewrite run_validated.
  - destruct (ProductCreate.valid product_data); [|done].
    rewrite run_discard, create_product_run.
    destruct (name_taken _ _); [done|]. by eexists.
  - destruct (bool_decide _ && _); [|done].
    rewrite run_discard, update_product_run.
    destruct (products d !! product_id) as [product|]; [|done].
    destruct (rename_refused _ _ _); [done|].
    destruct (ProductUpdate.quantity product_data); [|done|];
      (destruct (violates_not_null product_data); [done|by eexists]).
  - destruct (StockMovementCreate.valid movement_data); [|done].
    rewrite run_discard, create_stock_movement_run.
    destruct (products d !! _) as [product|]; [|done].
    destruct (bool_decide _ && bool_decide _); [done|by eexists].
  - destruct (SaleCreate.valid sale_data); [|done]. rewrite run_discard.
    destruct (run (create_sale sale_data u now) d) as [[[sale_id sale]|e] d'] eqn:Hrun.
    + apply create_sale_ok in Hrun
        as (_ & _ & _ & _ & _ & _ & _ & new_items & new_movs & _ & Hmovs & _).
      simpl. rewrite Hmovs. by eexists.
    + by apply create_sale_raise in Hrun as [-> _].
  - destruct (PurchaseCreate.valid purchase_data); [|done]. rewrite run_discard.
    destruct (run (create_purchase purchase_data u now) d)
      as [[[purchase_id purchase]|e] d'] eqn:Hrun.
    + apply create_purchase_ok in Hrun
        as (_ & _ & _ & _ & _ & _ & _ & _ & new_items & new_movs & _ & Hmovs & _).
      simpl. rewrite Hmovs. by eexists.
    + by apply create_purchase_raise in Hrun as [-> _].
Qed.

(** X26: the requests of the ledger only add to the history: the
    movements of the store before any sequence of creations, updates,
    stock movements, sales and purchases are, unchanged and in order, the
    first movements of the store after it. *)
Theorem ledger_requests_only_append calls d :
  stock_movements d `prefix_of` stock_movements (serve_all d calls).
Proof.
  revert d. induction calls as [|call calls IH]; intros d; [done|].
  simpl. etrans; [apply serve_appends|]. apply IH.
Qed.

(** * Worked instances of the rest of the router and of the reports *)

(** X1 on the creation of product B in the shop that has product A. *)
Lemma created_product_is_read_back_witness :
  name_taken (ProductCreate.name product_B) shop_A = false
  ∧ ∃ i d',
      run (create_product product_B 7 101) shop_A = (Ok (i, product_of product_B), d')
      ∧ products shop_A !! i = None
      ∧ run (get_product i) d' = (Ok (product_of product_B), d')
      ∧ ∀ j, j ≠ i → products d' !! j = products shop_A !! j.
Proof.
  split; [reflexivity|].
  apply (created_product_is_read_back product_B 7 101 shop_A). reflexivity.
Defined.

(** X2 on a second product A. *)
Lemma create_product_refuses_taken_name_witness :
  products shop !! 1 = Some (product_of product_A)
  ∧ Product.name (product_of product_A) = ProductCreate.name product_A
  ∧ run (create_product product_A 7 102) shop
    = (Raise (HTTPException HTTP_400_BAD_REQUEST "Ya existe un producto con ese nombre"),
       shop)
  ∧ commits (create_product product_A 7 102) shop = [].
Proof.
  split; [vm_compute; reflexivity|]. split; [reflexivity|].
  apply (create_product_refuses_taken_name product_A 7 102 shop 1 (product_of product_A));
    [vm_compute; reflexivity|reflexivity].
Defined.

(** X3 on the cashier asking to delete product A. *)
Lemma delete_product_needs_admin_witness :
  User.role cashier ≠ ADMIN
  ∧ run (endpoint_any true (DELETE_product 1) cashier 102) shop
    = (Raise (HTTPException HTTP_403_FORBIDDEN "No tienes permisos suficientes"), shop)
  ∧ serve_any true shop (DELETE_product 1, cashier, 102) = shop.
Proof.
  assert (User.role cashier ≠ ADMIN) as Hrole by discriminate.
  split; [exact Hrole|].
  apply (delete_product_needs_admin true 1 cashier 102 shop Hrole).
Defined.

(** X4 on the deletion of product A after the sale of 2 A and 1 B. *)
Lemma delete_product_cascades_witness :
  products shop_sold !! 1 = Some (Product.mk "A" None (py_float 10) 1)
  ∧ true && purchased 1 shop_sold = false
  ∧ ∃ d',
      run (delete_product true 1) shop_sold = (Ok "Producto eliminado exitosamente", d')
      ∧ products d' !! 1 = None
      ∧ run (get_product 1) d'
        = (Raise (HTTPException HTTP_404_NOT_FOUND "Producto no encontrado"), d')
      ∧ (∀ j, j ≠ 1 → products d' !! j = products shop_sold !! j)
      ∧ (∀ m, m ∈ stock_movements d'
              ↔ m ∈ stock_movements shop_sold ∧ StockMovement.product_id m ≠ 1)
      ∧ (∀ r, r ∈ sale_items d'
              ↔ r ∈ sale_items shop_sold ∧ SaleItem.product_id r ≠ 1)
      ∧ (∀ j, j ≠ 1 → movement_sum j d' = movement_sum j shop_sold)
      ∧ sales d' = sales shop_sold
      ∧ purchases d' = purchases shop_sold
      ∧ purchase_items d' = purchase_items shop_sold.
Proof.
  split; [vm_compute; reflexivity|]. split; [reflexivity|].
  apply (delete_product_cascades true 1 shop_sold (Product.mk "A" None (py_float 10) 1));
    [vm_compute; reflexivity|reflexivity].
Defined.

(** X5 on the deletion of product A after the purchase of 4 A, on an
    engine that enforces foreign keys. *)
Lemma delete_product_refused_witness :
  match products shop_bought !! 1 with
  | None => True
  | Some _ => true && purchased 1 shop_bought = true
  end
  ∧ run (delete_product true 1) shop_bought = (Raise IntegrityError, shop_bought)
  ∧ commits (delete_product true 1) shop_bought = [].
Proof.
  split; [vm_compute; reflexivity|].
  apply (delete_product_refused true 1 shop_bought). vm_compute. reflexivity.
Defined.

(** The same deletion on an engine that does not: the product goes and
    its purchase item stays. *)
Example delete_purchased_product_unenforced :
  ∃ d', run (delete_product false 1) shop_bought
        = (Ok "Producto eliminado exitosamente", d')
        ∧ products d' !! 1 = None
        ∧ PurchaseItem.product_id <$> purchase_items d' = [1].
Proof. eexists. split; [vm_compute; reflexivity|]. vm_compute. done. Qed.

(** X6 on product B after the sale and the deletion of product A. *)
Lemma quantity_is_sum_of_movements_with_deletions_witness :
  products (serve_any_all true empty_db
              (sold_requests ++ [(DELETE_product 1, admin, 103)])) !! 2
  = Some (Product.mk "B" None (py_float 5) 9)
  ∧ Product.quantity (Product.mk "B" None (py_float 5) 9)
    = movement_sum 2 (serve_any_all true empty_db
                        (sold_requests ++ [(DELETE_product 1, admin, 103)])).
Proof.
  split; [vm_compute; reflexivity|].
  apply (quantity_is_sum_of_movements_with_deletions true
           (sold_requests ++ [(DELETE_product 1, admin, 103)]) 2).
  vm_compute. reflexivity.
Defined.

(** X7 on product A of the shop. *)
Lemma product_names_stay_unique_witness :
  products (serve_any_all true empty_db shop_requests) !! 1 = Some (product_of product_A)
  ∧ Product.name (product_of product_A) = Product.name (product_of product_A)
  ∧ 1 = 1.
Proof.
  split; [vm_compute; reflexivity|]. split; [reflexivity|].
  apply (product_names_stay_unique true shop_requests 1 1
           (product_of product_A) (product_of product_A));
    [vm_compute; reflexivity|vm_compute; reflexivity|reflexivity].
Defined.

(** X8 on product A after the sale. *)
Lemma quantities_stay_nonnegative_witness :
  products (serve_any_all true empty_db sold_requests) !! 1
  = Some (Product.mk "A" None (py_float 10) 1)
  ∧ 0 ≤ Product.quantity (Product.mk "A" None (py_float 10) 1).
Proof.
  split; [vm_compute; reflexivity|].
  apply (quantities_stay_nonnegative true sold_requests 1). vm_compute. reflexivity.
Defined.

(** X9 on the sale of 2 A and 1 B. *)
Lemma recorded_sale_is_read_back_witness :
  SaleCreate.valid sale_A2_B1 = true
  ∧ is_empty (SaleCreate.items sale_A2_B1) = false
  ∧ covers (serve_any_all true empty_db shop_requests) (SaleCreate.items sale_A2_B1) = true
  ∧ ∃ sale_id sale d' rows,
      run (create_sale sale_A2_B1 7 102) (serve_any_all true empty_db shop_requests)
      = (Ok (sale_id, sale), d')
      ∧ run (get_sale sale_id) d' = (Ok (sale, rows), d')
      ∧ Forall2 (sale_line_item sale_id (serve_any_all true empty_db shop_requests))
          (SaleCreate.items sale_A2_B1) rows
      ∧ Sale.total_amount sale
        = foldl PrimFloat.add (py_float 0) (SaleItem.subtotal <$> rows).
Proof.
  split; [reflexivity|]. split; [reflexivity|]. split; [vm_compute; reflexivity|].
  apply (recorded_sale_is_read_back true shop_requests sale_A2_B1 7 102);
    [reflexivity|reflexivity|vm_compute; reflexivity].
Defined.

(** X10 on the purchase of 4 A. *)
Lemma recorded_purchase_is_read_back_witness :
  is_empty (PurchaseCreate.items purchase_A4) = false
  ∧ all_in_store (serve_any_all true empty_db shop_requests)
      (PurchaseCreate.items purchase_A4) = true
  ∧ if quantities_convert (PurchaseCreate.items purchase_A4) then
      ∃ purchase_id purchase d' rows,
        run (create_purchase purchase_A4 7 102)
          (serve_any_all true empty_db shop_requests)
        = (Ok (purchase_id, purchase), d')
        ∧ run (get_purchase purchase_id) d' = (Ok (purchase, rows), d')
        ∧ Forall2 (purchase_line_item purchase_id) (PurchaseCreate.items purchase_A4) rows
        ∧ Purchase.total_amount purchase
          = foldl PrimFloat.add (py_float 0) (PurchaseItem.subtotal <$> rows)
    else
      run (create_purchase purchase_A4 7 102) (serve_any_all true empty_db shop_requests)
      = (Raise OverflowError, serve_any_all true empty_db shop_requests).
Proof.
  split; [reflexivity|]. split; [vm_compute; reflexivity|].
  apply (recorded_purchase_is_read_back true shop_requests purchase_A4 7 102);
    [reflexivity|vm_compute; reflexivity].
Defined.

(** X11 on the sale of 2 A and 1 B and the deletion of product A: the
    sale keeps its total of 25 and is left with the line of B, of
    subtotal 5. *)
Lemma deleted_product_leaves_sale_headers_witness :
  products shop_sold !! 1 = Some (Product.mk "A" None (py_float 10) 1)
  ∧ true && purchased 1 shop_sold = false
  ∧ run (get_sale 1) shop_sold
    = (Ok (sale_header sale_A2_B1 7 102 25%float,
           [SaleItem.mk 1 1 1 2 10%float 20%float; SaleItem.mk 2 1 2 1 5%float 5%float]),
       shop_sold)
  ∧ ∃ d',
      run (delete_product true 1) shop_sold = (Ok "Producto eliminado exitosamente", d')
      ∧ run (get_sale 1) d'
        = (Ok (sale_header sale_A2_B1 7 102 25%float,
               filter (λ r, SaleItem.product_id r ≠ 1)
                 [SaleItem.mk 1 1 1 2 10%float 20%float;
                  SaleItem.mk 2 1 2 1 5%float 5%float]), d').
Proof.
  split; [vm_compute; reflexivity|]. split; [reflexivity|].
  split; [vm_compute; reflexivity|].
  apply (deleted_product_leaves_sale_headers true 1 shop_sold
           (Product.mk "A" None (py_float 10) 1) 1);
    [vm_compute; reflexivity|reflexivity|vm_compute; reflexivity].
Defined.

(** X13 on the sales from time 100 on, after the sale of 2 A and 1 B. *)
Lemma sales_listed_by_date_witness :
  valid_page 0 10 = true
  ∧ let order := merge_sorted sale_date in
    let order' := merge_sorted_from_last sale_date in
    let matching := sales_between (Some 100) None shop_sold in
    let page :=
      with_sale_items shop_sold <$> offset_limit 0 10 (order_by order matching) in
    let next :=
      with_sale_items shop_sold
        <$> offset_limit (0 + 10) 10 (order_by order' matching) in
    run (get_sales order 0 10 (Some 100) None) shop_sold = (Ok page, shop_sold)
    ∧ run (get_sales order' (0 + 10) 10 (Some 100) None) shop_sold = (Ok next, shop_sold)
    ∧ (∀ i s, (i, s) ∈ order_by order matching
              ↔ sales shop_sold !! i = Some s
                ∧ (∀ t, Some 100 = Some t → t ≤ Sale.created_at s)
                ∧ (∀ t, (None : option Z) = Some t → Sale.created_at s ≤ t))
    ∧ NoDup (order_by order matching).*1
    ∧ StronglySorted (key_desc sale_date) (order_by order matching)
    ∧ (Z.of_nat (length page) ≤ 10)
    ∧ (λ r : Z * Sale.t * list SaleItem.t, sale_date r.1) <$> (page ++ next)
      = offset_limit 0 (2 * 10) (sale_date <$> order_by order matching)
    ∧ (NoDup (sale_date <$> matching) →
       page ++ next
       = with_sale_items shop_sold
           <$> offset_limit 0 (2 * 10) (order_by order matching)).
Proof.
  split; [reflexivity|].
  apply (sales_listed_by_date (merge_sorted sale_date) (merge_sorted_from_last sale_date)
           0 10 (Some 100) None shop_sold).
  reflexivity.
Defined.

(** Two sales at the same time, 102: the sales are listed in either
    order, and the first page of one sale is sale 2 in one order and
    sale 1 in the other. *)
Example sales_of_equal_timestamp :
  let sale_B1 := SaleCreate.mk None "efectivo" [SaleItemCreate.mk 2 1] in
  let d := serve_all shop [(POST_sale sale_A2_B1, 7, 102); (POST_sale sale_B1, 8, 102)] in
  ∃ page page',
    run (get_sales (merge_sorted sale_date) 0 1 None None) d = (Ok page, d)
    ∧ run (get_sales (merge_sorted_from_last sale_date) 0 1 None None) d = (Ok page', d)
    ∧ (λ r : Z * Sale.t * list SaleItem.t, r.1.1) <$> page = [2]
    ∧ (λ r : Z * Sale.t * list SaleItem.t, r.1.1) <$> page' = [1].
Proof.
  eexists _, _. split; [vm_compute; reflexivity|].
  split; [vm_compute; reflexivity|]. split; vm_compute; reflexivity.
Qed.

(** X14 on all the purchases, after the purchase of 4 A. *)
Lemma purchases_listed_by_date_witness :
  valid_page 0 10 = true
  ∧ let order := merge_sorted purchase_date in
    let order' := merge_sorted_from_last purchase_date in
    let matching := purchases_between None None shop_bought in
    let page :=
      with_purchase_items shop_bought <$> offset_limit 0 10 (order_by order matching) in
    let next :=
      with_purchase_items shop_bought
        <$> offset_limit (0 + 10) 10 (order_by order' matching) in
    run (get_purchases order 0 10 None None) shop_bought = (Ok page, shop_bought)
    ∧ run (get_purchases order' (0 + 10) 10 None None) shop_bought = (Ok next, shop_bought)
    ∧ (∀ i s, (i, s) ∈ order_by order matching
              ↔ purchases shop_bought !! i = Some s
                ∧ (∀ t, (None : option Z) = Some t → t ≤ Purchase.created_at s)
                ∧ (∀ t, (None : option Z) = Some t → Purchase.created_at s ≤ t))
    ∧ NoDup (order_by order matching).*1
    ∧ StronglySorted (key_desc purchase_date) (order_by order matching)
    ∧ (Z.of_nat (length page) ≤ 10)
    ∧ (λ r : Z * Purchase.t * list PurchaseItem.t, purchase_date r.1) <$> (page ++ next)
      = offset_limit 0 (2 * 10) (purchase_date <$> order_by order matching)
    ∧ (NoDup (purchase_date <$> matching) →
       page ++ next
       = with_purchase_items shop_bought
           <$> offset_limit 0 (2 * 10) (order_by order matching)).
Proof.
  split; [reflexivity|].
  apply (purchases_listed_by_date (merge_sorted purchase_date)
           (merge_sorted_from_last purchase_date) 0 10 None None shop_bought).
  reflexivity.
Defined.

(** X16 on product A after the sale: the rows +3 and -2 add up to 1. *)
Lemma movements_report_adds_up_to_quantity_witness :
  products (serve_any_all true empty_db sold_requests) !! 1
  = Some (Product.mk "A" None (py_float 10) 1)
  ∧ 1 ≠ 0
  ∧ ∃ rows,
      run (stock_movements_report py_str (Some 1) None None)
        (serve_any_all true empty_db sold_requests)
      = (Ok rows, serve_any_all true empty_db sold_requests)
      ∧ foldr Z.add 0 (MovementReport.quantity <$> rows)
        = Product.quantity (Product.mk "A" None (py_float 10) 1).
Proof.
  split; [vm_compute; reflexivity|]. split; [discriminate|].
  apply (movements_report_adds_up_to_quantity py_str true sold_requests 1);
    [vm_compute; reflexivity|discriminate].
Defined.

(** X17 on the sale of 2 A and 1 B, reported from time 100 on. *)
Lemma recorded_sale_is_reported_witness :
  SaleCreate.valid sale_A2_B1 = true
  ∧ is_empty (SaleCreate.items sale_A2_B1) = false
  ∧ covers (serve_any_all true empty_db shop_requests) (SaleCreate.items sale_A2_B1) = true
  ∧ in_dates id (Some 100) None 102 = true
  ∧ ∃ sale_id sale d' rows,
      run (create_sale sale_A2_B1 7 102) (serve_any_all true empty_db shop_requests)
      = (Ok (sale_id, sale), d')
      ∧ run (sales_report py_str (Some 100) None) d' = (Ok rows, d')
      ∧ SaleReport.mk sale_id (Sale.total_amount sale) (py_str 102)
          (Z.of_nat (length (SaleCreate.items sale_A2_B1))) ∈ rows.
Proof.
  split; [reflexivity|]. split; [reflexivity|]. split; [vm_compute; reflexivity|].
  split; [reflexivity|].
  apply (recorded_sale_is_reported py_str true shop_requests sale_A2_B1 7 102
           (Some 100) None);
    [reflexivity|reflexivity|vm_compute; reflexivity|reflexivity].
Defined.

(** X19 on 4 more units of A. *)
Lemma stock_movement_applied_witness :
  products shop !! StockMovementCreate.product_id delta_A_plus4
  = Some (product_of product_A)
  ∧ (0 ≤ StockMovementCreate.quantity_change delta_A_plus4
     ∨ 0 ≤ Product.quantity (product_of product_A)
           + StockMovementCreate.quantity_change delta_A_plus4)
  ∧ ∃ m d',
      run (create_stock_movement delta_A_plus4 7 102) shop = (Ok m, d')
      ∧ commits (create_stock_movement delta_A_plus4 7 102) shop = [d']
      ∧ products d' !! StockMovementCreate.product_id delta_A_plus4
        = Some (Product.set_quantity
                  (Product.quantity (product_of product_A)
                   + StockMovementCreate.quantity_change delta_A_plus4)
                  (product_of product_A))
      ∧ (∀ j, j ≠ StockMovementCreate.product_id delta_A_plus4 →
           products d' !! j = products shop !! j)
      ∧ stock_movements d' = stock_movements shop ++ [m]
      ∧ StockMovement.product_id m = StockMovementCreate.product_id delta_A_plus4
      ∧ StockMovement.quantity_change m
        = StockMovementCreate.quantity_change delta_A_plus4
      ∧ StockMovement.movement_type m = StockMovementCreate.movement_type delta_A_plus4
      ∧ StockMovement.reference m = StockMovementCreate.reference delta_A_plus4
      ∧ StockMovement.notes m = StockMovementCreate.notes delta_A_plus4
      ∧ StockMovement.created_by m = Some 7.
Proof.
  assert (0 ≤ StockMovementCreate.quantity_change delta_A_plus4
          ∨ 0 ≤ Product.quantity (product_of product_A)
                + StockMovementCreate.quantity_change delta_A_plus4) as Hok.
  { left. simpl. lia. }
  split; [vm_compute; reflexivity|]. split; [exact Hok|].
  apply (stock_movement_applied delta_A_plus4 7 102 shop (product_of product_A));
    [vm_compute; reflexivity|exact Hok].
Defined.

(** X20 on the purchase of 4 A and the sale of 4 A. *)
Lemma purchase_then_sale_restores_products_witness :
  PurchaseCreate.valid purchase_A4 = true
  ∧ is_empty (PurchaseCreate.items purchase_A4) = false
  ∧ all_in_store (serve_any_all true empty_db shop_requests)
      (PurchaseCreate.items purchase_A4) = true
  ∧ quantities_convert (PurchaseCreate.items purchase_A4) = true
  ∧ SaleCreate.valid sale_A4 = true
  ∧ SaleCreate.items sale_A4 = as_sale_lines (PurchaseCreate.items purchase_A4)
  ∧ ∃ r1 d1 r2 d2,
      run (create_purchase purchase_A4 7 102) (serve_any_all true empty_db shop_requests)
      = (Ok r1, d1)
      ∧ run (create_sale sale_A4 7 103) d1 = (Ok r2, d2)
      ∧ ∀ i,
          (Product.quantity <$> products d2 !! i)
          = (Product.quantity
               <$> products (serve_any_all true empty_db shop_requests) !! i)
          ∧ (Product.name <$> products d2 !! i)
            = (Product.name
                 <$> products (serve_any_all true empty_db shop_requests) !! i)
          ∧ (Product.description <$> products d2 !! i)
            = (Product.description
                 <$> products (serve_any_all true empty_db shop_requests) !! i)
          ∧ (Product.price <$> products d2 !! i)
            = (Product.price
                 <$> products (serve_any_all true empty_db shop_requests) !! i).
Proof.
  split; [reflexivity|]. split; [reflexivity|]. split; [vm_compute; reflexivity|].
  split; [vm_compute; reflexivity|].
  split; [reflexivity|]. split; [reflexivity|].
  apply (purchase_then_sale_restores_products true shop_requests purchase_A4 sale_A4
           7 102 7 103);
    [reflexivity|reflexivity|vm_compute; reflexivity|vm_compute; reflexivity
    |reflexivity|reflexivity].
Defined.

(** The 3 units of A between the two: 7 after the purchase, 3 again
    after the sale. *)
Example purchase_then_sale_of_A4 :
  ∃ r1 d1 r2 d2,
    run (create_purchase purchase_A4 7 102) shop = (Ok r1, d1)
    ∧ run (create_sale sale_A4 7 103) d1 = (Ok r2, d2)
    ∧ (Product.quantity <$> products shop !! 1) = Some 3
    ∧ (Product.quantity <$> products d1 !! 1) = Some 7
    ∧ (Product.quantity <$> products d2 !! 1) = Some 3.
Proof.
  eexists _, _, _, _. split; [vm_compute; reflexivity|].
  split; [vm_compute; reflexivity|]. repeat split; vm_compute; reflexivity.
Qed.

(** X21 on the sale of 2 A and 2 A, refused. *)
Lemma failed_request_changes_nothing_witness :
  run (endpoint_any true (Ledger (POST_sale sale_A2_A2)) cashier 102) shop
  = (Raise (HTTPException HTTP_400_BAD_REQUEST "Stock insuficiente para el producto 'A'"),
     shop)
  ∧ shop = shop.
Proof.
  split; [vm_compute; reflexivity|].
  apply (failed_request_changes_nothing true (Ledger (POST_sale sale_A2_A2)) cashier 102
           shop
           (HTTPException HTTP_400_BAD_REQUEST "Stock insuficiente para el producto 'A'")
           shop).
  vm_compute. reflexivity.
Defined.

(** X22 on renaming product A to B. *)
Lemma update_product_refuses_taken_name_witness :
  products shop !! 1 = Some (product_of product_A)
  ∧ products shop !! 2 = Some (product_of product_B)
  ∧ ProductUpdate.name rename_to_B = Value "B"
  ∧ Product.name (product_of product_B) = "B"
  ∧ "B" ≠ Product.name (product_of product_A)
  ∧ "B" ≠ ""
  ∧ run (update_product 1 rename_to_B 7 102) shop
    = (Raise (HTTPException HTTP_400_BAD_REQUEST "Ya existe un producto con ese nombre"),
       shop)
  ∧ commits (update_product 1 rename_to_B 7 102) shop = [].
Proof.
  assert ("B" ≠ Product.name (product_of product_A)) as H1 by discriminate.
  assert ("B" ≠ "") as H2 by discriminate.
  split; [vm_compute; reflexivity|]. split; [vm_compute; reflexivity|].
  split; [reflexivity|]. split; [reflexivity|]. split; [exact H1|]. split; [exact H2|].
  apply (update_product_refuses_taken_name 1 rename_to_B 7 102 shop
           (product_of product_A) 2 (product_of product_B) "B");
    [vm_compute; reflexivity|vm_compute; reflexivity|reflexivity|reflexivity
    |exact H1|exact H2].
Defined.

(** X23 on a null quantity for product A. *)
Lemma update_product_null_quantity_witness :
  products shop !! 1 = Some (product_of product_A)
  ∧ ProductUpdate.quantity null_quantity = Null
  ∧ rename_refused null_quantity (product_of product_A) shop = false
  ∧ run (update_product 1 null_quantity 7 102) shop = (Raise TypeError, shop)
  ∧ commits (update_product 1 null_quantity 7 102) shop = [].
Proof.
  split; [vm_compute; reflexivity|]. split; [reflexivity|]. split; [reflexivity|].
  apply (update_product_null_quantity 1 null_quantity 7 102 shop (product_of product_A));
    [vm_compute; reflexivity|reflexivity|reflexivity].
Defined.

(** X24 on a new name and a new price for product A. *)
Lemma update_without_quantity_keeps_ledger_witness :
  products shop !! 1 = Some (product_of product_A)
  ∧ ProductUpdate.quantity reprice = Unset
  ∧ rename_refused reprice (product_of product_A) shop = false
  ∧ violates_not_null reprice = false
  ∧ ∃ p' d',
      run (update_product 1 reprice 7 102) shop = (Ok p', d')
      ∧ commits (update_product 1 reprice 7 102) shop = [d']
      ∧ products d' !! 1 = Some p'
      ∧ Product.quantity p' = Product.quantity (product_of product_A)
      ∧ stock_movements d' = stock_movements shop
      ∧ (∀ v, ProductUpdate.name reprice = Value v → Product.name p' = v)
      ∧ (∀ v, ProductUpdate.price reprice = Value v → Product.price p' = v)
      ∧ (ProductUpdate.name reprice = Unset
         → Product.name p' = Product.name (product_of product_A))
      ∧ (ProductUpdate.price reprice = Unset
         → Product.price p' = Product.price (product_of product_A)).
Proof.
  split; [vm_compute; reflexivity|]. split; [reflexivity|].
  split; [vm_compute; reflexivity|]. split; [reflexivity|].
  apply (update_without_quantity_keeps_ledger 1 reprice 7 102 shop (product_of product_A));
    [vm_compute; reflexivity|reflexivity|vm_compute; reflexivity|reflexivity].
Defined.

(** X25 on the sale of 1 B and 5 A: refused for the stock of A. *)
Lemma sale_fails_on_first_bad_line_witness :
  SaleCreate.items sale_B1_A5 = [SaleItemCreate.mk 2 1] ++ SaleItemCreate.mk 1 5 :: []
  ∧ forallb SaleItemCreate.valid [SaleItemCreate.mk 2 1] = true
  ∧ covers shop [SaleItemCreate.mk 2 1] = true
  ∧ line_fails shop [SaleItemCreate.mk 2 1] (SaleItemCreate.mk 1 5)
  ∧ run (create_sale sale_B1_A5 7 102) shop
    = (Raise (HTTPException HTTP_400_BAD_REQUEST
                "Stock insuficiente para el producto 'A'"), shop).
Proof.
  assert (line_fails shop [SaleItemCreate.mk 2 1] (SaleItemCreate.mk 1 5)) as Hfail.
  { vm_compute. reflexivity. }
  split; [reflexivity|]. split; [reflexivity|]. split; [vm_compute; reflexivity|].
  split; [exact Hfail|].
  apply (sale_fails_on_first_bad_line sale_B1_A5 7 102 shop
           [SaleItemCreate.mk 2 1] (SaleItemCreate.mk 1 5) []);
    [reflexivity|reflexivity|vm_compute; reflexivity|exact Hfail].
Defined.
